(** * Fiducial-marker statistics: a verified model of [scripts/tools.py]

    The script summarises calibration reports: for four marker pairs it
    reports mean, sample standard deviation and median of the measured
    separation, and for the eight fiducial markers P1..P8 the recentred mean
    position.  This file embeds [pivot_measures], [compute_angle],
    [compute_statistics] and [nice_table] and proves properties of them.

    Numbers are IEEE binary64 values (Rocq's primitive floats), a missing
    value is NaN, as in a float64 pandas column.  Sums are accumulated in
    the order the libraries use: numpy's pairwise sum for the statistics of
    a column, Kahan's sum and Welford's update for those of a group.
    Python objects that the script creates and then updates in place live
    in an explicit store, next to the caller's table, so that what a call
    leaves untouched is a statement about the store.  The trigonometric
    helpers of numpy and scipy and the table renderer are parameters of the
    model. *)

From Stdlib Require Import ZArith QArith String Ascii List Floats Lia Bool.
From Stdlib Require Import DecimalString Permutation Sorted.
Import ListNotations.

Local Open Scope string_scope.

(** ** Strings *)

Module Str.

(** [str.replace(old, new)] for a non-empty [old]: scan from the left,
    replace each occurrence found, resume after it.  [skip] counts the
    characters of a matched occurrence still to be passed over. *)
Fixpoint replace_from (old new : string) (skip : nat) (s : string) : string :=
  match s with
  | EmptyString => EmptyString
  | String c s' =>
      match skip with
      | S k => replace_from old new k s'
      | O =>
          if String.prefix old s
          then new ++ replace_from old new (String.length old - 1) s'
          else String c (replace_from old new 0 s')
      end
  end.

Definition replace (old new s : string) : string := replace_from old new 0 s.

(** Decimal digits of an integer, as Python's [str(int)]. *)
Definition of_Z (n : Z) : string :=
  match n with
  | Zneg p => "-" ++ NilZero.string_of_uint (Pos.to_uint p)
  | Z0 => "0"
  | Zpos p => NilZero.string_of_uint (Pos.to_uint p)
  end.

Definition of_nat (n : nat) : string := of_Z (Z.of_nat n).

Definition digit (d : Z) : ascii := ascii_of_nat (48 + Z.to_nat d).

End Str.

(** ** Floating point *)

Module F.

Local Open Scope Z_scope.

Definition isna (x : float) : bool := PrimFloat.is_nan x.
Definition notna (x : float) : bool := negb (isna x).

(** Neither NaN nor an infinity. *)
Definition is_finite (x : float) : bool :=
  match Prim2SF x with
  | S754_zero _ | S754_finite _ _ _ => true
  | _ => false
  end.

(** [round(m * 10^3 * 2^e)] to the nearest integer, ties to even: the
    digits Python prints for [.3f] come from the exact binary value. *)
Definition thousandths (m : positive) (e : Z) : Z :=
  match e with
  | Zneg p =>
      let d := Z.pow_pos 2 p in
      let n := Zpos m * 1000 in
      let q := n / d in
      let r := n mod d in
      match 2 * r ?= d with
      | Lt => q
      | Gt => q + 1
      | Eq => if Z.even q then q else q + 1
      end
  | _ => Zpos m * 1000 * 2 ^ e
  end.

Definition sign_str (s : bool) : string := if s then "-" else "".

(** The format specification [f"{x:.3f}"]. *)
Definition format_3f (x : float) : string :=
  match Prim2SF x with
  | S754_nan => "nan"
  | S754_infinity s => sign_str s ++ "inf"
  | S754_zero s => sign_str s ++ "0.000"
  | S754_finite s m e =>
      let n := thousandths m e in
      let f := n mod 1000 in
      sign_str s ++ Str.of_Z (n / 1000) ++ "."
        ++ String (Str.digit (f / 100))
             (String (Str.digit (f / 10 mod 10))
                (String (Str.digit (f mod 10)) EmptyString))
  end.

(** [np.count_nonzero] of a boolean array. *)
Definition count_nonzero (l : list bool) : nat := length (filter (fun b => b) l).

(** [Series.count()]: the number of values present. *)
Definition count (l : list float) : nat := count_nonzero (map notna l).

Definition of_nat (n : nat) : float := PrimFloat.of_uint63 (Uint63.of_Z (Z.of_nat n)).

(** The eight partial sums of numpy's unrolled loop. *)
Definition lanes : Type :=
  (float * float * float * float * float * float * float * float)%type.

(** Each full group of eight values goes to the eight partial sums; these
    are then added in pairs, and the values left over one by one. *)
Fixpoint add_groups (r : lanes) (l : list float) {struct l} : float :=
  let '(r0, r1, r2, r3, r4, r5, r6, r7) := r in
  match l with
  | a0 :: a1 :: a2 :: a3 :: a4 :: a5 :: a6 :: a7 :: l' =>
      add_groups (r0 + a0, r1 + a1, r2 + a2, r3 + a3,
                  r4 + a4, r5 + a5, r6 + a6, r7 + a7)%float l'
  | _ =>
      fold_left PrimFloat.add l
        (((r0 + r1) + (r2 + r3)) + ((r4 + r5) + (r6 + r7)))%float
  end.

(** A block of at most 128 values: fewer than eight are added one by one
    from the left, the others through the eight partial sums. *)
Definition block_sum (l : list float) : float :=
  match l with
  | a0 :: a1 :: a2 :: a3 :: a4 :: a5 :: a6 :: a7 :: l' =>
      add_groups (a0, a1, a2, a3, a4, a5, a6, a7) l'
  | _ => fold_left PrimFloat.add l 0%float
  end.

(** numpy's pairwise sum of a contiguous float64 array: a longer array is
    split in two, the first part half as long, less what makes it a
    multiple of eight, and the sums of the parts are added.  One unit of
    [fuel] is used per split; the length of the list is enough
    ([pairwise_sum_fuel]). *)
Fixpoint pairwise_sum (fuel : nat) (l : list float) : float :=
  let n := length l in
  if (n <=? 128)%nat then block_sum l
  else
    match fuel with
    | O => nan
    | S fuel' =>
        let n2 := (n / 2 - (n / 2) mod 8)%nat in
        (pairwise_sum fuel' (firstn n2 l) + pairwise_sum fuel' (skipn n2 l))%float
    end.

(** [np.add.reduce], the sum of [ndarray.sum()] and [np.mean]: the pairwise
    sum is added to 0, the identity the reduction starts from. *)
Definition np_sum (l : list float) : float :=
  (0 + pairwise_sum (length l) l)%float.

(** [np.mean] of an array. *)
Definition np_mean (l : list float) : float :=
  (np_sum l / of_nat (length l))%float.

(** [f] of each value of the column, and 0 in the place of a missing one. *)
Definition filled (f : float -> float) (l : list float) : list float :=
  map (fun v => if isna v then 0%float else f v) l.

(** [Series.mean()] (pandas' [nanmean], on numpy alone): the missing values
    are replaced by 0, the column is summed, and the sum is divided by the
    number of values present; NaN when none is present. *)
Definition mean (l : list float) : float :=
  (np_sum (filled (fun v => v) l) / of_nat (count l))%float.

(** [Series.std()] (pandas' [nanvar] with [ddof = 1], and a square root):
    the squared distances to the mean, 0 for a missing value, are summed
    and divided by one less than the number of values present; NaN when
    fewer than two are present. *)
Definition std (l : list float) : float :=
  let n := count l in
  if (n <=? 1)%nat then nan
  else
    let avg := mean l in
    let sq := np_sum (filled (fun v => ((avg - v) * (avg - v))%float) l) in
    PrimFloat.sqrt (sq / of_nat (n - 1))%float.

(** Insertion into a list sorted by [<=]. *)
Fixpoint insert_sorted (v : float) (l : list float) : list float :=
  match l with
  | [] => [v]
  | w :: l' => if (v <=? w)%float then v :: l else w :: insert_sorted v l'
  end.

Definition sort (l : list float) : list float := fold_right insert_sorted [] l.

(** [np.median] of a list without NaN, given sorted: [np.mean] of the
    middle value, or of the two middle ones. *)
Definition median_sorted (s : list float) : float :=
  let n := length s in
  if Nat.even n
  then np_mean [nth (n / 2 - 1) s nan; nth (n / 2) s nan]
  else np_mean [nth (n / 2) s nan].

(** [Series.median()]: missing values are skipped; NaN when none is present. *)
Definition median (l : list float) : float :=
  median_sorted (sort (filter (fun v => notna v) l)).

(** [Series.min()]: the least value present; NaN when none is. *)
Definition min (l : list float) : float :=
  fold_left
    (fun acc v => if isna v then acc else if isna acc then v
                  else if (v <? acc)%float then v else acc)
    l nan.

End F.

(** ** Counts

    Per-marker counts are integers; their median is an integer or a half,
    both exact in binary64 for any count a table can hold, so this step is
    carried out in exact rational arithmetic. *)

Module Counts.

Fixpoint insert_sorted (v : nat) (l : list nat) : list nat :=
  match l with
  | [] => [v]
  | w :: l' => if (v <=? w)%nat then v :: l else w :: insert_sorted v l'
  end.

Definition sort (l : list nat) : list nat := fold_right insert_sorted [] l.

(** [Series.median()] of an integer series; [None] is NaN (empty series). *)
Definition median (l : list nat) : option Q :=
  let s := sort l in
  let n := length s in
  if (n =? 0)%nat then None
  else if Nat.even n
  then Some (Qmake (Z.of_nat (nth (n / 2 - 1) s O) + Z.of_nat (nth (n / 2) s O)) 2)
  else Some (Qmake (Z.of_nat (nth (n / 2) s O)) 1).

(** Truncation toward zero, the integer part Python's [int] keeps. *)
Definition trunc (q : Q) : Z := Z.quot (Qnum q) (Zpos (Qden q)).

(** Rounding to the nearest integer, ties to even (Python's [round]). *)
Definition round (q : Q) : Z :=
  let d := Zpos (Qden q) in
  let f := (Qnum q / d)%Z in
  match (2 * (Qnum q mod d) ?= d)%Z with
  | Lt => f
  | Gt => (f + 1)%Z
  | Eq => if Z.even f then f else (f + 1)%Z
  end.

End Counts.

(** ** Tables *)

(** One calibration report: the row of the input table.  Eight markers with
    an x and a y each, and four separations. *)
Record report := Report {
  llx : float; lly : float; urx : float; ury : float;
  ulx : float; uly : float; lrx : float; lry : float;
  mlx : float; mly : float; mrx : float; mry : float;
  mtx : float; mty : float; mbx : float; mby : float;
  lr_dist : float; tb_dist : float; llur_dist : float; ullr_dist : float
}.

(** The input [DataFrame]: its rows in order. *)
Definition table := list report.

(** The column of a table (and the attribute of a row tuple) by name. *)
Definition field (name : string) : option (report -> float) :=
  if String.eqb name "llx" then Some llx else
  if String.eqb name "lly" then Some lly else
  if String.eqb name "urx" then Some urx else
  if String.eqb name "ury" then Some ury else
  if String.eqb name "ulx" then Some ulx else
  if String.eqb name "uly" then Some uly else
  if String.eqb name "lrx" then Some lrx else
  if String.eqb name "lry" then Some lry else
  if String.eqb name "mlx" then Some mlx else
  if String.eqb name "mly" then Some mly else
  if String.eqb name "mrx" then Some mrx else
  if String.eqb name "mry" then Some mry else
  if String.eqb name "mtx" then Some mtx else
  if String.eqb name "mty" then Some mty else
  if String.eqb name "mbx" then Some mbx else
  if String.eqb name "mby" then Some mby else
  if String.eqb name "lr_dist" then Some lr_dist else
  if String.eqb name "tb_dist" then Some tb_dist else
  if String.eqb name "llur_dist" then Some llur_dist else
  if String.eqb name "ullr_dist" then Some ullr_dist else
  None.

(** A cell or an index label of a table of results; [NA] is a missing cell. *)
Inductive value :=
| NA
| Int (n : Z)
| Str (s : string).

Definition value_eqb (a b : value) : bool :=
  match a, b with
  | NA, NA => true
  | Int n, Int m => Z.eqb n m
  | Str s, Str t => String.eqb s t
  | _, _ => false
  end.

(** A labelled series. *)
Definition series (A : Type) := list (string * A).

(** A [DataFrame] of results: the index labels and the columns in order,
    each column as long as the index. *)
Record frame := Frame {
  index_name : option string;
  index : list value;
  columns : list (string * list value)
}.

Module DataFrame.

Local Open Scope list_scope.

(** [pd.DataFrame()] *)
Definition empty : frame := Frame None [] [].

Definition len (f : frame) : nat := length (index f).

Definition has_column (c : string) (f : frame) : bool :=
  existsb (fun p => String.eqb (fst p) c) (columns f).

(** Position of the first label equal to [r]. *)
Fixpoint position (r : value) (l : list value) : option nat :=
  match l with
  | [] => None
  | v :: l' => if value_eqb v r then Some O else option_map S (position r l')
  end.

Definition column (c : string) (f : frame) : option (list value) :=
  option_map snd (find (fun p => String.eqb (fst p) c) (columns f)).

(** The cell at row label [r] and column [c]. *)
Definition cell (r : value) (c : string) (f : frame) : option value :=
  match position r (index f), column c f with
  | Some i, Some vs => nth_error vs i
  | _, _ => None
  end.

Definition add_column (c : string) (f : frame) : frame :=
  if has_column c f then f
  else Frame (index_name f) (index f) (columns f ++ [(c, repeat NA (len f))]).

Definition add_row (r : value) (f : frame) : frame :=
  match position r (index f) with
  | Some _ => f
  | None =>
      Frame (index_name f) (index f ++ [r])
        (map (fun p => (fst p, snd p ++ [NA])) (columns f))
  end.

Fixpoint set_nth (i : nat) (v : value) (l : list value) : list value :=
  match l, i with
  | [], _ => []
  | _ :: l', O => v :: l'
  | w :: l', S j => w :: set_nth j v l'
  end.

(** [f.loc[r, c] = v]: the row and the column are created when they are
    new (their other cells missing), then the cell is set. *)
Definition loc_set (r : value) (c : string) (v : value) (f : frame) : frame :=
  let f := add_row r (add_column c f) in
  match position r (index f) with
  | Some i =>
      Frame (index_name f) (index f)
        (map (fun p => if String.eqb (fst p) c then (fst p, set_nth i v (snd p)) else p)
           (columns f))
  | None => f
  end.

(** [f.reset_index(names=c)]: the index becomes the first column, the rows
    are numbered from 0. *)
Definition reset_index (names : string) (f : frame) : frame :=
  Frame None (map (fun i => Int (Z.of_nat i)) (seq 0 (len f)))
    ((names, index f) :: columns f).

Definition replace_value (m : list (string * string)) (v : value) : value :=
  match v with
  | Str s =>
      match find (fun p => String.eqb (fst p) s) m with
      | Some p => Str (snd p)
      | None => v
      end
  | _ => v
  end.

(** [f.replace(m)]: every cell equal to a key of [m] becomes its value. *)
Definition replace (m : list (string * string)) (f : frame) : frame :=
  Frame (index_name f) (index f)
    (map (fun p => (fst p, map (replace_value m) (snd p))) (columns f)).

(** [f.set_index(c)]: the column [c] becomes the index; [None] when there
    is no such column (a [KeyError]). *)
Definition set_index (c : string) (f : frame) : option frame :=
  match column c f with
  | Some vs =>
      Some (Frame (Some c) vs
              (filter (fun p => negb (String.eqb (fst p) c)) (columns f)))
  | None => None
  end.

(** The values of a series laid out along an index, missing where the series
    has no such label. *)
Definition align (idx : list value) (s : series value) : list value :=
  map (fun r =>
         match find (fun p => value_eqb (Str (fst p)) r) s with
         | Some p => snd p
         | None => NA
         end) idx.

(** [f[c] = s] for a series [s] indexed by [names]: an empty frame takes
    the index of the series, otherwise the series is aligned on the
    index of the frame. *)
Definition setitem (c : string) (names : string) (s : series value) (f : frame) : frame :=
  match index f, columns f with
  | [], [] => Frame (Some names) (map (fun p => Str (fst p)) s) [(c, map snd s)]
  | _, _ =>
      if has_column c f
      then Frame (index_name f) (index f)
             (map (fun p => if String.eqb (fst p) c then (fst p, align (index f) s) else p)
                (columns f))
      else Frame (index_name f) (index f) (columns f ++ [(c, align (index f) s)])
  end.

End DataFrame.

(** ** Errors, the store and the monad of the script *)

Inductive exn :=
| ValueError (msg : string)
| KeyError (key : string)
| AttributeError (name : string)
| TypeError (msg : string).

(** The outcome of a computation that may raise. *)
Definition result (A : Type) : Type := (exn + A)%type.

Module Result.

Definition bind {A B} (r : result A) (k : A -> result B) : result B :=
  match r with
  | inl e => inl e
  | inr a => k a
  end.

(** A list comprehension whose body may raise: left to right, the first
    exception ends it. *)
Fixpoint for_list {A B} (f : A -> result B) (l : list A) : result (list B) :=
  match l with
  | [] => inr []
  | a :: l' => bind (f a) (fun b => bind (for_list f l') (fun bs => inr (b :: bs)))
  end.

Definition of_option {A} (e : exn) (o : option A) : result A :=
  match o with
  | Some a => inr a
  | None => inl e
  end.

End Result.

(** The objects the script shares or updates in place. *)
Inductive pyobj :=
| ODataFrame (t : table)
| OFrame (f : frame)
| OSeries (s : series float).

Definition loc := nat.

(** The store of objects, addressed by position, and what was printed. *)
Record world := World {
  heap : list pyobj;
  stdout : string
}.

(** A computation reads and updates the world and returns or raises. *)
Definition M (A : Type) : Type := world -> result A * world.

Module Py.

Definition ret {A} (a : A) : M A := fun w => (inr a, w).

Definition bind {A B} (m : M A) (k : A -> M B) : M B :=
  fun w =>
    match m w with
    | (inl e, w') => (inl e, w')
    | (inr a, w') => k a w'
    end.

Definition lift {A} (r : result A) : M A := fun w => (r, w).

Fixpoint update (l : loc) (o : pyobj) (h : list pyobj) : list pyobj :=
  match h, l with
  | [], _ => []
  | _ :: h', O => o :: h'
  | p :: h', S k => p :: update k o h'
  end.

(** A new object, at a fresh address. *)
Definition new (o : pyobj) : M loc :=
  fun w => (inr (length (heap w)), World (heap w ++ [o]) (stdout w)).

Definition get (l : loc) : M pyobj :=
  fun w =>
    match nth_error (heap w) l with
    | Some o => (inr o, w)
    | None => (inl (TypeError "no object"), w)
    end.

(** The object at [l] takes a new state; its address stays. *)
Definition put (l : loc) (o : pyobj) : M unit :=
  fun w => (inr tt, World (update l o (heap w)) (stdout w)).

Definition get_table (l : loc) : M table :=
  bind (get l) (fun o =>
    match o with
    | ODataFrame t => ret t
    | _ => lift (inl (TypeError "not a table of reports"))
    end).

Definition get_frame (l : loc) : M frame :=
  bind (get l) (fun o =>
    match o with
    | OFrame f => ret f
    | _ => lift (inl (TypeError "not a DataFrame"))
    end).

Definition get_series (l : loc) : M (series float) :=
  bind (get l) (fun o =>
    match o with
    | OSeries s => ret s
    | _ => lift (inl (TypeError "not a Series"))
    end).

Definition newline : string := String (ascii_of_nat 10) EmptyString.

(** [print(s)] *)
Definition print (s : string) : M unit :=
  fun w => (inr tt, World (heap w) (stdout w ++ s ++ newline)).

(** A [for] loop over a list. *)
Fixpoint for_each {A} (l : list A) (body : A -> M unit) : M unit :=
  match l with
  | [] => ret tt
  | a :: l' => bind (body a) (fun _ => for_each l' body)
  end.

End Py.

Declare Scope py_scope.
Delimit Scope py_scope with py.
Notation "x <- m ;; k" := (Py.bind m (fun x => k))
  (at level 61, m at next level, right associativity) : py_scope.
Notation "' p <- m ;; k" := (Py.bind m (fun x => match x with p => k end))
  (at level 61, p pattern, m at next level, right associativity) : py_scope.
Notation "m ;; k" := (Py.bind m (fun _ => k))
  (at level 61, right associativity) : py_scope.

(** ** Series and grouping *)

(** One row of the pivoted table: a marker observed in a report. *)
Record obs := Obs {
  name : string;
  x : float;
  y : float;
  angle : float
}.

Module Series.

Local Open Scope list_scope.

Definition values {A} (s : series A) : list A := map snd s.

(** [s.apply(f)] *)
Definition apply {A B} (f : A -> B) (s : series A) : series B :=
  map (fun p => (fst p, f (snd p))) s.

Definition lookup {A} (k : string) (s : series A) : option A :=
  option_map snd (find (fun p => String.eqb (fst p) k) s).

(** [a + b] on series of strings: labels are matched, a label that [b]
    lacks gives a missing value.  (Both operands of the script come from one grouping
    and carry the same labels.) *)
Definition add (a b : series string) : series value :=
  map (fun p =>
         (fst p,
          match lookup (fst p) b with
          | Some t => Str (snd p ++ t)%string
          | None => NA
          end)) a.

End Series.

Module GroupBy.

Local Open Scope list_scope.

(** Insertion of a key into a sorted list without repetition. *)
Fixpoint insert_key (k : string) (l : list string) : list string :=
  match l with
  | [] => [k]
  | k' :: l' =>
      match String.compare k k' with
      | Lt => k :: l
      | Eq => l
      | Gt => k' :: insert_key k l'
      end
  end.

(** The distinct marker names of a table, sorted. *)
Definition keys (rows : list obs) : list string :=
  fold_right insert_key [] (map name rows).

(** [rows.groupby('name')]: the groups in key order, each with its rows in
    table order. *)
Definition by_name (rows : list obs) : list (string * list obs) :=
  map (fun k => (k, filter (fun o => String.eqb (name o) k) rows)) (keys rows).

(** [grouped[col].agg()]: one value per group. *)
Definition agg {A} (col : obs -> float) (f : list float -> A)
    (g : list (string * list obs)) : series A :=
  map (fun p => (fst p, f (map col (snd p)))) g.

(** One value of a group in pandas' [group_mean]: Kahan's compensated sum
    over the values present.  The state is the sum and the compensation; a
    compensation that is NaN (an infinite value was met) is set to 0. *)
Definition kahan_step (s : float * float) (v : float) : float * float :=
  let '(sumx, compensation) := s in
  if F.isna v then s
  else
    let y := (v - compensation)%float in
    let t := (sumx + y)%float in
    let c := (t - sumx - y)%float in
    (t, if F.isna c then 0%float else c).

(** [grouped[col].mean()] of one group: the compensated sum divided by the
    number of values present; NaN when none is present. *)
Definition mean (l : list float) : float :=
  let n := F.count l in
  if (n =? 0)%nat then nan
  else (fst (fold_left kahan_step l (0%float, 0%float)) / F.of_nat n)%float.

(** One value of a group in pandas' [group_var]: Welford's update of the
    number of values present, their mean and the sum of squares. *)
Definition welford_step (s : nat * float * float) (v : float) : nat * float * float :=
  let '(nobs, mean, m2) := s in
  if F.isna v then s
  else
    let nobs' := S nobs in
    let mean' := (mean + (v - mean) / F.of_nat nobs')%float in
    (nobs', mean', (m2 + (v - mean') * (v - mean))%float).

(** [grouped[col].std()] of one group ([ddof = 1]); NaN when fewer than two
    values are present. *)
Definition std (l : list float) : float :=
  let '(nobs, _, m2) := fold_left welford_step l (O, 0%float, 0%float) in
  if (nobs <=? 1)%nat then nan
  else PrimFloat.sqrt (m2 / F.of_nat (nobs - 1))%float.

End GroupBy.

(** [pd.concat(frames, ignore_index=True)] raises on an empty list. *)
Definition pd_concat (frames : list (list obs)) : result (list obs) :=
  match frames with
  | [] => inl (ValueError "No objects to concatenate")
  | _ => inr (List.concat frames)
  end.

(** [dropna(subset=['x', 'y'], how='all')]: a row goes when both are missing. *)
Definition dropna_xy (rows : list obs) : list obs :=
  filter (fun o => negb (F.isna (x o) && F.isna (y o))) rows.

(** [int(v)] of a float: NaN has no integer value. *)
Definition py_int (v : option Q) : result Z :=
  match v with
  | Some q => inr (Counts.trunc q)
  | None => inl (ValueError "cannot convert float NaN to integer")
  end.

(** ** The script *)

(** A row of the pivoted table before its angle is filled in. *)
Record marker := Marker {
  mname : string;
  mx : float;
  my : float
}.

(** [pd.DataFrame(data={'name': n, 'x': xs, 'y': ys})]: the columns must
    agree in length. *)
Fixpoint frame_of_columns (n : list string) (xs ys : list float) : result (list marker) :=
  match n, xs, ys with
  | [], [], [] => inr []
  | k :: n', a :: xs', b :: ys' =>
      Result.bind (frame_of_columns n' xs' ys') (fun t => inr (Marker k a b :: t))
  | _, _, _ => inl (ValueError "All arrays must be of the same length")
  end.

(** [getattr(row, name)] on a row of the input table. *)
Definition getattr (row : report) (name : string) : result float :=
  match field name with
  | Some p => inr (p row)
  | None => inl (AttributeError name)
  end.

(** [info[meas]]: a column of the input table. *)
Definition getitem (info : table) (meas : string) : result (list float) :=
  match field meas with
  | Some p => inr (map p info)
  | None => inl (KeyError meas)
  end.

Section Script.

(** [numpy.arctan2], [scipy.stats.circmean], [numpy.rad2deg], the float
    remainder [%] and [DataFrame.to_markdown(tablefmt='grid')]. *)
Variable arctan2 : float -> float -> float.
Variable circmean : list float -> float.
Variable rad2deg : float -> float.
Variable fmod : float -> float -> float.
Variable to_markdown : frame -> string.

Local Open Scope py_scope.

(** tools.py, [compute_angle]. *)
Definition compute_angle (row : marker) : float :=
  arctan2 (my row) (mx row).

(** tools.py, [pivot_measures]. *)
Definition pivot_measures (row : report) : result (list obs) :=
  let fid_names := map (fun nn => "P" ++ Str.of_nat nn) (seq 1 8) in
  let col_names := ["ll"; "ur"; "ul"; "lr"; "ml"; "mr"; "mt"; "mb"] in
  Result.bind (Result.for_list (fun cc => getattr row (cc ++ "x")) col_names) (fun x_vals =>
  Result.bind (Result.for_list (fun cc => getattr row (cc ++ "y")) col_names) (fun y_vals =>
  Result.bind (frame_of_columns fid_names x_vals y_vals) (fun pivoted =>
  inr (map (fun r => Obs (mname r) (mx r) (my r) (compute_angle r)) pivoted)))).

(** The separation fields and the labels they are given. *)
Definition measures : list string :=
  ["lr_dist"; "tb_dist"; "llur_dist"; "ullr_dist"].

Definition pair_labels : list (string * string) :=
  [("lr_dist", "P5 - P6"); ("tb_dist", "P7 - P8");
   ("llur_dist", "P1 - P2"); ("ullr_dist", "P3 - P4")].

Definition pm : string := " ± ".

(** [dists.loc[r, c] = v] on the object at [dists]. *)
Definition loc_setitem (dists : loc) (r : value) (c : string) (v : value) : M unit :=
  f <- Py.get_frame dists ;;
  Py.put dists (OFrame (DataFrame.loc_set r c v f)).

(** [info[meas]] on the object at [info]. *)
Definition column_of (info : loc) (meas : string) : M (list float) :=
  t <- Py.get_table info ;;
  Py.lift (getitem t meas).

(** [xmean -= xmean.min()] on the object at [xmean]. *)
Definition isub_min (xmean : loc) : M unit :=
  s <- Py.get_series xmean ;;
  let m := F.min (Series.values s) in
  s <- Py.get_series xmean ;;
  Py.put xmean (OSeries (Series.apply (fun v => (v - m)%float) s)).

(** [fids[c] = s] on the object at [fids]. *)
Definition setitem (fids : loc) (c : string) (s : series value) : M unit :=
  f <- Py.get_frame fids ;;
  Py.put fids (OFrame (DataFrame.setitem c "name" s f)).

(** [-ymean - (-ymean).min()] *)
Definition flip_recentre (ymean : series float) : series float :=
  let neg := Series.apply (fun v => (- v)%float) ymean in
  let m := F.min (Series.values neg) in
  Series.apply (fun v => (v - m)%float) neg.

(** [a.apply(fmt) + ' ± ' + b.apply(fmt)] *)
Definition mean_pm_std (a b : series float) : series value :=
  Series.add (Series.apply (fun s => s ++ pm) (Series.apply F.format_3f a))
             (Series.apply F.format_3f b).

(** tools.py, [compute_statistics].  The tuple returned holds the two
    tables as they are when the call returns. *)
Definition compute_statistics (info : loc) : M (frame * option frame * Z * Z) :=
  dists <- Py.new (OFrame DataFrame.empty) ;;
  t <- Py.get_table info ;;
  let nrep_dists := Z.of_nat (length t) in
  Py.for_each measures (fun meas =>
    col <- column_of info meas ;;
    if (0 <? F.count_nonzero (map negb (map F.isna col)))%nat then
      c1 <- column_of info meas ;;
      c2 <- column_of info meas ;;
      loc_setitem dists (Str meas) "mean"
        (Str (F.format_3f (F.mean c1) ++ pm ++ F.format_3f (F.std c2))) ;;
      c3 <- column_of info meas ;;
      loc_setitem dists (Str meas) "median" (Str (F.format_3f (F.median c3)))
    else Py.ret tt) ;;
  d <- Py.get_frame dists ;;
  d <- Py.lift (Result.of_option (KeyError "markers")
         (DataFrame.set_index "markers"
            (DataFrame.replace pair_labels (DataFrame.reset_index "markers" d)))) ;;
  dists <- Py.new (OFrame d) ;;
  rows <- Py.get_table info ;;
  frames <- Py.lift (Result.for_list pivot_measures rows) ;;
  all <- Py.lift (pd_concat frames) ;;
  let pivoted := dropna_xy all in
  if (0 <? length pivoted)%nat then
    let grouped := GroupBy.by_name pivoted in
    nrep_fids <- Py.lift (py_int (Counts.median (Series.values (GroupBy.agg x F.count grouped)))) ;;
    xmean <- Py.new (OSeries (GroupBy.agg x GroupBy.mean grouped)) ;;
    isub_min xmean ;;
    let ymean := GroupBy.agg y GroupBy.mean grouped in
    let ymean := flip_recentre ymean in
    let std_x := GroupBy.agg x GroupBy.std grouped in
    let std_y := GroupBy.agg y GroupBy.std grouped in
    fids <- Py.new (OFrame DataFrame.empty) ;;
    xm <- Py.get_series xmean ;;
    setitem fids "x" (mean_pm_std xm std_x) ;;
    setitem fids "y" (mean_pm_std ymean std_y) ;;
    setitem fids "angle"
      (Series.apply (fun s => Str (F.format_3f s))
         (Series.apply (fun a => fmod (rad2deg a) 360%float)
            (GroupBy.agg angle circmean grouped))) ;;
    d <- Py.get_frame dists ;;
    f <- Py.get_frame fids ;;
    Py.ret (d, Some f, nrep_dists, nrep_fids)
  else
    d <- Py.get_frame dists ;;
    Py.ret (d, None, nrep_dists, 0%Z).

(** tools.py, [nice_table]. *)
Definition nice_table (info : loc) : M unit :=
  r <- compute_statistics info ;;
  let '(dists, fids, nrep_dists, nrep_fids) := r in
  let outstr :=
    "**Marker Separation (n = " ++ Str.of_Z nrep_dists ++ " reports)**"
      ++ Py.newline ++ Py.newline ++ to_markdown dists in
  let outstr :=
    match fids with
    | Some f =>
        outstr ++ Py.newline ++ Py.newline
          ++ "**Marker Location (n = " ++ Str.of_Z nrep_fids ++ " reports)**"
          ++ Py.newline ++ Py.newline ++ to_markdown f
    | None => outstr
    end in
  Py.print (Str.replace ":" "-" outstr).

End Script.

(** ** What a call computes, as a function of the table

    The functions below read the script without its store: they are what
    the run lemmas further down show a call to return. *)

Module Plain.

(** Statistics of a list in which every value counts: nothing is
    missing, nothing is filled in, and the sums are numpy's. *)
Definition mean (l : list float) : float := F.np_mean l.

Definition std (l : list float) : float :=
  if (length l <=? 1)%nat then nan
  else
    let avg := mean l in
    PrimFloat.sqrt
      (F.np_sum (map (fun v => ((avg - v) * (avg - v))%float) l)
       / F.of_nat (length l - 1))%float.

Definition median (l : list float) : float := F.median_sorted (F.sort l).

End Plain.

(** The values of a column that are present. *)
Definition present (col : list float) : list float := filter F.notna col.

(** The value in the middle of a list, or the mean of the two values in
    its middle when their number is even; NaN for the empty list. *)
Definition middle (s : list float) : float :=
  match length s with
  | O => nan
  | S _ =>
      if Nat.even (length s)
      then F.np_mean [nth (length s / 2 - 1) s nan; nth (length s / 2) s nan]
      else F.np_mean [nth (length s / 2) s nan]
  end.

Section Meaning.

Variable arctan2 : float -> float -> float.
Variable circmean : list float -> float.
Variable rad2deg : float -> float.
Variable fmod : float -> float -> float.

(** The eight rows [pivot_measures] makes of a report. *)
Definition pivot (row : report) : list obs :=
  [ Obs "P1" (llx row) (lly row) (arctan2 (lly row) (llx row));
    Obs "P2" (urx row) (ury row) (arctan2 (ury row) (urx row));
    Obs "P3" (ulx row) (uly row) (arctan2 (uly row) (ulx row));
    Obs "P4" (lrx row) (lry row) (arctan2 (lry row) (lrx row));
    Obs "P5" (mlx row) (mly row) (arctan2 (mly row) (mlx row));
    Obs "P6" (mrx row) (mry row) (arctan2 (mry row) (mrx row));
    Obs "P7" (mtx row) (mty row) (arctan2 (mty row) (mtx row));
    Obs "P8" (mbx row) (mby row) (arctan2 (mby row) (mbx row)) ].

(** The pivoted table after the rows without x and y are dropped. *)
Definition observations (info : table) : list obs :=
  dropna_xy (flat_map pivot info).

(** One turn of the loop over the separation fields. *)
Definition add_measure (info : table) (f : frame) (meas : string) : frame :=
  match getitem info meas with
  | inr col =>
      if (0 <? F.count_nonzero (map negb (map F.isna col)))%nat
      then
        DataFrame.loc_set (Str meas) "median" (Str (F.format_3f (F.median col)))
          (DataFrame.loc_set (Str meas) "mean"
             (Str (F.format_3f (F.mean col) ++ pm ++ F.format_3f (F.std col))) f)
      else f
  | inl _ => f
  end.

Definition raw_dists (info : table) : frame :=
  fold_left (add_measure info) measures DataFrame.empty.

(** The table after [reset_index], [replace] and [set_index]: the labels of
    the rows are replaced, and so is any cell that equals a field name. *)
Definition relabelled (d : frame) : frame :=
  Frame (Some "markers")
    (map (DataFrame.replace_value pair_labels) (index d))
    (filter (fun p => negb (String.eqb (fst p) "markers"))
       (map (fun p => (fst p, map (DataFrame.replace_value pair_labels) (snd p)))
          (columns d))).

(** [s -= s.min()] *)
Definition recentre (s : series float) : series float :=
  let m := F.min (Series.values s) in
  Series.apply (fun v => (v - m)%float) s.

Definition xmean_of (g : list (string * list obs)) : series float :=
  recentre (GroupBy.agg x GroupBy.mean g).

Definition ymean_of (g : list (string * list obs)) : series float :=
  flip_recentre (GroupBy.agg y GroupBy.mean g).

Definition fids_of (g : list (string * list obs)) : frame :=
  DataFrame.setitem "angle" "name"
    (Series.apply (fun s => Str (F.format_3f s))
       (Series.apply (fun a => fmod (rad2deg a) 360%float)
          (GroupBy.agg angle circmean g)))
    (DataFrame.setitem "y" "name" (mean_pm_std (ymean_of g) (GroupBy.agg y GroupBy.std g))
       (DataFrame.setitem "x" "name" (mean_pm_std (xmean_of g) (GroupBy.agg x GroupBy.std g))
          DataFrame.empty)).

Definition nrep_fids_of (g : list (string * list obs)) : result Z :=
  py_int (Counts.median (Series.values (GroupBy.agg x F.count g))).

(** The value [compute_statistics] returns, or the exception it raises. *)
Definition outcome (info : table) : result (frame * option frame * Z * Z) :=
  let d := relabelled (raw_dists info) in
  Result.bind (pd_concat (map pivot info)) (fun all =>
  let pivoted := dropna_xy all in
  if (0 <? length pivoted)%nat then
    let g := GroupBy.by_name pivoted in
    Result.bind (nrep_fids_of g) (fun n =>
    inr (d, Some (fids_of g), Z.of_nat (length info), n))
  else inr (d, None, Z.of_nat (length info), 0%Z)).

(** The objects a call leaves in the store, past the ones it found. *)
Definition garbage (info : table) : list pyobj :=
  let made := [OFrame (raw_dists info); OFrame (relabelled (raw_dists info))] in
  match pd_concat (map pivot info) with
  | inl _ => made
  | inr all =>
      let g := GroupBy.by_name (dropna_xy all) in
      if (0 <? length (dropna_xy all))%nat then
        match nrep_fids_of g with
        | inl _ => made
        | inr _ => made ++ [OSeries (xmean_of g); OFrame (fids_of g)]
        end
      else made
  end.

End Meaning.

Section Rendering.

Variable to_markdown : frame -> string.

(** The text [nice_table] builds from what [compute_statistics] returned,
    before the colons are replaced. *)
Definition rendered (r : frame * option frame * Z * Z) : string :=
  let '(dists, fids, nrep_dists, nrep_fids) := r in
  let outstr :=
    "**Marker Separation (n = " ++ Str.of_Z nrep_dists ++ " reports)**"
      ++ Py.newline ++ Py.newline ++ to_markdown dists in
  match fids with
  | Some f =>
      outstr ++ Py.newline ++ Py.newline
        ++ "**Marker Location (n = " ++ Str.of_Z nrep_fids ++ " reports)**"
        ++ Py.newline ++ Py.newline ++ to_markdown f
  | None => outstr
  end.

End Rendering.

(** ** The vocabulary of the statements *)

(** The separation fields with the label and the column of each. *)
Definition separation_fields : list (string * string * (report -> float)) :=
  [("lr_dist", "P5 - P6", lr_dist); ("tb_dist", "P7 - P8", tb_dist);
   ("llur_dist", "P1 - P2", llur_dist); ("ullr_dist", "P3 - P4", ullr_dist)].

(** Every x and every y of a report is missing. *)
Definition xy_missing (r : report) : bool :=
  forallb F.isna
    [llx r; lly r; urx r; ury r; ulx r; uly r; lrx r; lry r;
     mlx r; mly r; mrx r; mry r; mtx r; mty r; mbx r; mby r].

(** The observations of marker [k]. *)
Definition observations_of (k : string) (rows : list obs) : list obs :=
  filter (fun o => String.eqb (name o) k) rows.

(** Per marker with an observation, in name order: how many observations
    it has, and how many of them have an x. *)
Definition observation_counts (rows : list obs) : list nat :=
  map (fun k => length (observations_of k rows)) (GroupBy.keys rows).

Definition x_counts (rows : list obs) : list nat :=
  map (fun k => length (filter (fun o => F.notna (x o)) (observations_of k rows)))
    (GroupBy.keys rows).

(** The parts of what a call returned; [None] when it raised. *)
Definition returned_fids (r : result (frame * option frame * Z * Z)) : option (option frame) :=
  match r with
  | inr (_, f, _, _) => Some f
  | inl _ => None
  end.

Definition returned_nrep_fids (r : result (frame * option frame * Z * Z)) : option Z :=
  match r with
  | inr (_, _, _, n) => Some n
  | inl _ => None
  end.

Definition returned_dists (r : result (frame * option frame * Z * Z)) : option frame :=
  match r with
  | inr (d, _, _, _) => Some d
  | inl _ => None
  end.

(** A report in which nothing was measured, and reports that differ from
    it in a few fields. *)
Definition blank : report :=
  Report nan nan nan nan nan nan nan nan nan nan nan nan nan nan nan nan
         nan nan nan nan.

Definition with_lr_dist (v : float) (r : report) : report :=
  Report (llx r) (lly r) (urx r) (ury r) (ulx r) (uly r) (lrx r) (lry r)
         (mlx r) (mly r) (mrx r) (mry r) (mtx r) (mty r) (mbx r) (mby r)
         v (tb_dist r) (llur_dist r) (ullr_dist r).

Definition with_ll (a b : float) (r : report) : report :=
  Report a b (urx r) (ury r) (ulx r) (uly r) (lrx r) (lry r)
         (mlx r) (mly r) (mrx r) (mry r) (mtx r) (mty r) (mbx r) (mby r)
         (lr_dist r) (tb_dist r) (llur_dist r) (ullr_dist r).

Definition with_ur (a b : float) (r : report) : report :=
  Report (llx r) (lly r) a b (ulx r) (uly r) (lrx r) (lry r)
         (mlx r) (mly r) (mrx r) (mry r) (mtx r) (mty r) (mbx r) (mby r)
         (lr_dist r) (tb_dist r) (llur_dist r) (ullr_dist r).

(** The table of the worked example: one report with [ll = (0, 0)],
    [ur = (1, 1)] and [lr_dist = 2], a second with [lr_dist = 4] only. *)
Definition example_table : table :=
  [with_lr_dist 2 (with_ur 1 1 (with_ll 0 0 blank)); with_lr_dist 4 blank].

(** P1 seen once and P2 twice. *)
Definition uneven_table : table :=
  [with_ur 1 1 (with_ll 0 0 blank); with_ur 2 2 blank].

(** One report in which only the y of P1 was measured. *)
Definition y_only_table : table := [with_ll nan 1 blank].

(** One report in which the x of P1 is infinite. *)
Definition infinite_x_table : table := [with_ll infinity 0 blank].

(** Eight separations of P5 and P6: the binary64 values next to 0.7, 0.6,
    0.8, 0.8, 0.6, 0.5, 0.4 and 0.3.  Their mean lies next to 0.5875. *)
Definition eight_separations : list float :=
  [0x1.6666666666666p-1; 0x1.3333333333333p-1; 0x1.999999999999ap-1;
   0x1.999999999999ap-1; 0x1.3333333333333p-1; 0x1p-1;
   0x1.999999999999ap-2; 0x1.3333333333333p-2]%float.

(** Eight reports with these separations and nothing else, and a ninth in
    which nothing was measured: as the first report, and as the last. *)
Definition blank_first_table : table :=
  blank :: map (fun v => with_lr_dist v blank) eight_separations.

Definition blank_last_table : table :=
  (map (fun v => with_lr_dist v blank) eight_separations ++ [blank])%list.

(** A store holding one table, at address 0, and nothing printed. *)
Definition world_of (t : table) : world := World [ODataFrame t] "".

(** Stand-ins for the parameters, to run the script on the tables above:
    the quotient for the angle, the plain mean for the circular mean, and
    a renderer that writes one line per row. *)
Module Sample.

Definition arctan2 (b a : float) : float := (b / a)%float.
Definition circmean (l : list float) : float := F.mean l.
Definition rad2deg (a : float) : float := (a * 180 / 0x1.921fb54442d18p+1)%float.
Definition fmod (a b : float) : float := a.

Definition show (v : value) : string :=
  match v with
  | NA => "nan"
  | Int n => Str.of_Z n
  | Str s => s
  end.

Fixpoint row (i : nat) (cols : list (string * list value)) : string :=
  match cols with
  | [] => "|"
  | c :: cols' => "| " ++ show (nth i (snd c) NA) ++ " " ++ row i cols'
  end.

Definition to_markdown (f : frame) : string :=
  "|:" ++ String.concat "|:" (map fst (columns f)) ++ "|" ++ Py.newline
    ++ String.concat Py.newline
         (map (fun i => "| " ++ show (nth i (index f) NA) ++ " " ++ row i (columns f))
            (seq 0 (DataFrame.len f))).

Definition call : loc -> M (frame * option frame * Z * Z) :=
  compute_statistics arctan2 circmean rad2deg fmod.

Definition print_tables : loc -> M unit :=
  nice_table arctan2 circmean rad2deg fmod to_markdown.

End Sample.

(** The separation table of the worked example. *)
Definition example_dists : frame :=
  Frame (Some "markers") [Str "P5 - P6"]
    [("mean", [Str "3.000 ± 1.414"]); ("median", [Str "3.000"])].

Local Open Scope nat_scope.
Local Open Scope list_scope.

(** ** Order of binary64 values

    The vocabulary of the facts on comparison, subtraction and the least
    value of a list. *)

Module FloatOrder.

Local Open Scope Z_scope.

(** A non-NaN value is ranked by its class, then its exponent, then its
    mantissa; comparison is the lexicographic comparison of ranks. *)
Definition rank (x : spec_float) : Z * Z * Z :=
  match x with
  | S754_zero _ => (0, 0, 0)
  | S754_infinity false => (2, 0, 0)
  | S754_infinity true => (-2, 0, 0)
  | S754_finite false m e => (1, e, Zpos m)
  | S754_finite true m e => (-1, - e, Zneg m)
  | S754_nan => (0, 0, 0)
  end.

Definition rank_le (r s : Z * Z * Z) : Prop :=
  let '(a, b, c) := r in
  let '(a', b', c') := s in
  a < a' \/ (a = a' /\ (b < b' \/ (b = b' /\ c <= c'))).

Definition rank_lt (r s : Z * Z * Z) : Prop :=
  let '(a, b, c) := r in
  let '(a', b', c') := s in
  a < a' \/ (a = a' /\ (b < b' \/ (b = b' /\ c < c'))).

Ltac rank_case :=
  split; intros;
  first [ reflexivity | discriminate | congruence
        | unfold rank_le, rank_lt in *; simpl in *; lia
        | match goal with H : _ = _ |- _ => injection H; intros; lia end ].

Ltac rank_cases x y :=
  let sx := fresh "sx" in let sy := fresh "sy" in
  let mx := fresh "mx" in let my := fresh "my" in
  let ex := fresh "ex" in let ey := fresh "ey" in
  destruct x as [sx|sx| |sx mx ex], y as [sy|sy| |sy my ey]; try congruence;
  try destruct sx; try destruct sy; simpl;
  try (fold (Pos.compare mx my);
       destruct (Z.compare_spec ex ey); [subst|idtac|idtac];
       try (destruct (Pos.compare_spec mx my); [subst|idtac|idtac]); simpl);
  rank_case.

(** Zero, a finite value or an infinity of sign [s]. *)
Definition signed (s : bool) (r : spec_float) : Prop :=
  match r with
  | S754_zero s' | S754_infinity s' | S754_finite s' _ _ => s' = s
  | S754_nan => False
  end.

(** Zero or a finite value. *)
Definition finite (x : spec_float) : Prop :=
  match x with
  | S754_zero _ | S754_finite _ _ _ => True
  | _ => False
  end.

Local Open Scope float_scope.

(** [x <= y] and [x == y] hold. *)
Definition fle (x y : float) : Prop := (x <=? y) = true.
Definition feq (x y : float) : Prop := (x =? y) = true.

(** One step of [F.min]. *)
Definition min_step (acc v : float) : float :=
  if F.isna v then acc else if F.isna acc then v else if v <? acc then v else acc.

Ltac ranks :=
  repeat match goal with
  | |- context [rank ?x] =>
      let a := fresh "a" in let b := fresh "b" in let c := fresh "c" in
      destruct (rank x) as [[a b] c]
  | H : context [rank ?x] |- _ =>
      let a := fresh "a" in let b := fresh "b" in let c := fresh "c" in
      destruct (rank x) as [[a b] c]
  end;
  unfold rank_le, rank_lt in *;
  repeat match goal with
  | H : (_, _) = (_, _) |- _ => injection H as ? ?
  end;
  subst; try (f_equal; [f_equal|]); try lia.

End FloatOrder.

(** A zero of either sign, and two values that are equal or zeros both:
    what a sum can tell apart once 0 is added to it. *)
Definition any_zero (x : float) : Prop := exists s, Prim2SF x = S754_zero s.

Definition alike (x y : float) : Prop := x = y \/ (any_zero x /\ any_zero y).

(** ** The separation table, row by row *)

(** One turn of the loop, with what it reads from the table named. *)
Definition turn (b : bool) (meas m d : string) (f : frame) : frame :=
  if b
  then DataFrame.loc_set (Str meas) "median" (Str d)
         (DataFrame.loc_set (Str meas) "mean" (Str m) f)
  else f.

Definition included (col : list float) : bool :=
  0 <? F.count_nonzero (map negb (map F.isna col)).

Definition mean_cell (col : list float) : string :=
  F.format_3f (F.mean col) ++ pm ++ F.format_3f (F.std col).

Definition median_cell (col : list float) : string := F.format_3f (F.median col).

(** A table given by its rows: label, mean cell, median cell. *)
Definition frame_of_rows (name : option string) (rows : list (string * string * string)) : frame :=
  Frame name (map (fun r => Str (fst (fst r))) rows)
    match rows with
    | [] => []
    | _ => [("mean", map (fun r => Str (snd (fst r))) rows);
            ("median", map (fun r => Str (snd r)) rows)]
    end.

Definition row_if (b : bool) (label m d : string) : list (string * string * string) :=
  if b then [(label, m, d)] else [].

(** A cell the relabelling leaves as it is. *)
Definition kept (s : string) : Prop :=
  DataFrame.replace_value pair_labels (Str s) = Str s.

(** The label a field name is replaced by. *)
Definition relabel_name (s : string) : string :=
  match find (fun p => (fst p =? s)%string) pair_labels with
  | Some p => snd p
  | None => s
  end.

(** ** The markers, by the columns of the input table *)

(** The name [pivot_measures] gives each marker, with the columns its x
    and its y are read from. *)
Definition marker_columns : list (string * (report -> float) * (report -> float)) :=
  [("P1", llx, lly); ("P2", urx, ury); ("P3", ulx, uly); ("P4", lrx, lry);
   ("P5", mlx, mly); ("P6", mrx, mry); ("P7", mtx, mty); ("P8", mbx, mby)].

Definition fid_names : list string := map (fun m => fst (fst m)) marker_columns.

(** The report has an x or a y in the two columns. *)
Definition seen (cx cy : report -> float) (r : report) : bool :=
  negb (F.isna (cx r) && F.isna (cy r)).

(** The markers some report has an x or a y for, in the order P1 to P8. *)
Definition columns_seen (t : table) : list (string * (report -> float) * (report -> float)) :=
  filter (fun m => existsb (seen (snd (fst m)) (snd m)) t) marker_columns.

Definition markers_seen (t : table) : list string :=
  map (fun m => fst (fst m)) (columns_seen t).

(** The rows of a marker in the pivoted table: one per report that has
    its x or its y. *)
Definition rows_of (arctan2 : float -> float -> float)
    (m : string * (report -> float) * (report -> float)) (t : table) : list obs :=
  map (fun r => Obs (fst (fst m)) (snd (fst m) r) (snd m r)
                  (arctan2 (snd m r) (snd (fst m) r)))
    (filter (seen (snd (fst m)) (snd m)) t).

(** What the mean positions are recentred by: the least mean x, and the
    least negated mean y, over the markers seen. *)
Definition x_offset (t : table) : float :=
  F.min (map (fun m => GroupBy.mean (map (snd (fst m)) t)) (columns_seen t)).

Definition y_offset (t : table) : float :=
  F.min (map (fun m => (- GroupBy.mean (map (snd m) t))%float) (columns_seen t)).

(** [a] comes before [b] in the order of the group keys. *)
Definition key_lt (a b : string) : Prop := String.compare a b = Lt.

(** Strictly ascending in that order. *)
Fixpoint ascending (l : list string) : Prop :=
  match l with
  | [] => True
  | a :: l' => Forall (key_lt a) l' /\ ascending l'
  end.

(** Nothing was measured in the report: no position and no separation. *)
Definition nothing_measured (r : report) : bool :=
  xy_missing r
  && forallb F.isna [lr_dist r; tb_dist r; llur_dist r; ullr_dist r].

(** The separation table read off the input table: one row per field
    with a value, in the order of the loop, under the label of its pair. *)
Definition dists_of (t : table) : frame :=
  frame_of_rows (Some "markers")
    (flat_map
       (fun f => row_if (included (map (snd f) t)) (snd (fst f))
                   (mean_cell (map (snd f) t)) (median_cell (map (snd f) t)))
       separation_fields).

(** The heading of a section of the printed text. *)
Definition heading (title : string) (n : Z) : string :=
  ("**Marker " ++ title ++ " (n = " ++ Str.of_Z n ++ " reports)**"
     ++ Py.newline ++ Py.newline)%string.

(** * Proofs *)

(** ** The store *)

Lemma update_length k o ls : length (Py.update k o ls) = length ls.
Proof.
  revert k; induction ls as [|p ls IH]; intros [|k]; simpl; auto.
Qed.

Lemma get_old h ls out l o :
  nth_error h l = Some o ->
  Py.get l (World (h ++ ls) out) = (inr o, World (h ++ ls) out).
Proof.
  intros H. unfold Py.get; simpl.
  rewrite nth_error_app1 by (apply nth_error_Some; congruence).
  now rewrite H.
Qed.

Lemma get_new h ls out k o :
  nth_error ls k = Some o ->
  Py.get (length h + k) (World (h ++ ls) out) = (inr o, World (h ++ ls) out).
Proof.
  intros H. unfold Py.get; simpl.
  rewrite nth_error_app2 by lia.
  replace (length h + k - length h) with k by lia.
  now rewrite H.
Qed.

Lemma update_app h ls k o :
  Py.update (length h + k) o (h ++ ls) = h ++ Py.update k o ls.
Proof.
  induction h as [|p h IH]; simpl; [reflexivity|]. now rewrite IH.
Qed.

Lemma put_new h ls out k o :
  Py.put (length h + k) o (World (h ++ ls) out)
  = (inr tt, World (h ++ Py.update k o ls) out).
Proof.
  unfold Py.put; simpl. now rewrite update_app.
Qed.

Lemma new_app h ls out o :
  Py.new o (World (h ++ ls) out)
  = (inr (length h + length ls), World (h ++ (ls ++ [o])) out).
Proof.
  unfold Py.new; simpl. now rewrite length_app, app_assoc.
Qed.

Lemma bind_inr {A B} (m : M A) (k : A -> M B) w a w' :
  m w = (inr a, w') -> Py.bind m k w = k a w'.
Proof. intros H. unfold Py.bind. now rewrite H. Qed.

Lemma bind_inl {A B} (m : M A) (k : A -> M B) w e w' :
  m w = (inl e, w') -> Py.bind m k w = (inl e, w').
Proof. intros H. unfold Py.bind. now rewrite H. Qed.

Section Runs.

Variable arctan2 : float -> float -> float.
Variable circmean : list float -> float.
Variable rad2deg : float -> float.
Variable fmod : float -> float -> float.

Variable h : list pyobj.
Variable out : string.
Variable info : loc.
Variable t : table.
Hypothesis Hinfo : nth_error h info = Some (ODataFrame t).

Lemma get_table_run ls :
  Py.get_table info (World (h ++ ls) out) = (inr t, World (h ++ ls) out).
Proof.
  unfold Py.get_table. erewrite bind_inr by (apply get_old, Hinfo). reflexivity.
Qed.

Lemma column_of_run ls meas :
  column_of info meas (World (h ++ ls) out) = (getitem t meas, World (h ++ ls) out).
Proof.
  unfold column_of. erewrite bind_inr by apply get_table_run. reflexivity.
Qed.

Lemma get_frame_run ls k f :
  nth_error ls k = Some (OFrame f) ->
  Py.get_frame (length h + k) (World (h ++ ls) out) = (inr f, World (h ++ ls) out).
Proof.
  intros H. unfold Py.get_frame. erewrite bind_inr by (apply get_new, H). reflexivity.
Qed.

Lemma get_series_run ls k s :
  nth_error ls k = Some (OSeries s) ->
  Py.get_series (length h + k) (World (h ++ ls) out) = (inr s, World (h ++ ls) out).
Proof.
  intros H. unfold Py.get_series. erewrite bind_inr by (apply get_new, H). reflexivity.
Qed.

Lemma loc_setitem_run ls k f r c v :
  nth_error ls k = Some (OFrame f) ->
  loc_setitem (length h + k) r c v (World (h ++ ls) out)
  = (inr tt, World (h ++ Py.update k (OFrame (DataFrame.loc_set r c v f)) ls) out).
Proof.
  intros H. unfold loc_setitem.
  erewrite bind_inr by (apply get_frame_run, H). apply put_new.
Qed.

Lemma setitem_run ls k f c s :
  nth_error ls k = Some (OFrame f) ->
  setitem (length h + k) c s (World (h ++ ls) out)
  = (inr tt, World (h ++ Py.update k (OFrame (DataFrame.setitem c "name" s f)) ls) out).
Proof.
  intros H. unfold setitem.
  erewrite bind_inr by (apply get_frame_run, H). apply put_new.
Qed.

Lemma isub_min_run ls k s :
  nth_error ls k = Some (OSeries s) ->
  isub_min (length h + k) (World (h ++ ls) out)
  = (inr tt, World (h ++ Py.update k (OSeries (recentre s)) ls) out).
Proof.
  intros H. unfold isub_min.
  erewrite bind_inr by (apply get_series_run, H).
  erewrite bind_inr by (apply get_series_run, H). apply put_new.
Qed.

(** One turn of the separation loop updates the table at [dists] as
    [add_measure] says. *)
Lemma measure_run f rest meas :
  (col <- column_of info meas ;;
   if (0 <? F.count_nonzero (map negb (map F.isna col)))%nat then
     c1 <- column_of info meas ;;
     c2 <- column_of info meas ;;
     loc_setitem (length h + 0) (Str meas) "mean"
       (Str (F.format_3f (F.mean c1) ++ pm ++ F.format_3f (F.std c2))) ;;
     c3 <- column_of info meas ;;
     loc_setitem (length h + 0) (Str meas) "median" (Str (F.format_3f (F.median c3)))
   else Py.ret tt)%py (World (h ++ OFrame f :: rest) out)
  = (match getitem t meas with inr _ => inr tt | inl e => inl e end,
     World (h ++ OFrame (add_measure t f meas) :: rest) out).
Proof.
  unfold add_measure.
  destruct (getitem t meas) as [e|col] eqn:E.
  - erewrite bind_inl; [reflexivity|]. rewrite column_of_run, E. reflexivity.
  - erewrite bind_inr by (rewrite column_of_run, E; reflexivity).
    destruct (0 <? _)%nat; [|reflexivity].
    erewrite bind_inr by (rewrite column_of_run, E; reflexivity).
    erewrite bind_inr by (rewrite column_of_run, E; reflexivity).
    erewrite bind_inr by (apply loc_setitem_run; reflexivity).
    simpl Py.update.
    erewrite bind_inr by (rewrite column_of_run, E; reflexivity).
    rewrite (loc_setitem_run (_ :: rest) 0 _ _ _ _ eq_refl). reflexivity.
Qed.


Lemma getitem_measures meas :
  In meas measures -> exists p, getitem t meas = inr (map p t).
Proof.
  unfold measures; simpl.
  intros [<-|[<-|[<-|[<-|[]]]]]; eexists; reflexivity.
Qed.

Lemma loop_run ms : forall f rest,
  (forall m, In m ms -> In m measures) ->
  Py.for_each ms (fun meas =>
   col <- column_of info meas ;;
   if (0 <? F.count_nonzero (map negb (map F.isna col)))%nat then
     c1 <- column_of info meas ;;
     c2 <- column_of info meas ;;
     loc_setitem (length h + 0) (Str meas) "mean"
       (Str (F.format_3f (F.mean c1) ++ pm ++ F.format_3f (F.std c2))) ;;
     c3 <- column_of info meas ;;
     loc_setitem (length h + 0) (Str meas) "median" (Str (F.format_3f (F.median c3)))
   else Py.ret tt)%py (World (h ++ OFrame f :: rest) out)
  = (inr tt, World (h ++ OFrame (fold_left (add_measure t) ms f) :: rest) out).
Proof.
  induction ms as [|m ms IH]; intros f rest Hms; [reflexivity|].
  simpl Py.for_each. 
  destruct (getitem_measures m (Hms m (or_introl eq_refl))) as [p Hp].
  erewrite bind_inr; [|rewrite measure_run, Hp; reflexivity].
  simpl fold_left. apply IH. intros; apply Hms; now right.
Qed.

Lemma pivot_measures_eq row : pivot_measures arctan2 row = inr (pivot arctan2 row).
Proof. reflexivity. Qed.

Lemma for_list_pivot rows :
  Result.for_list (pivot_measures arctan2) rows = inr (map (pivot arctan2) rows).
Proof.
  induction rows as [|r rows IH]; [reflexivity|].
  cbn [Result.for_list]. rewrite pivot_measures_eq, IH. reflexivity.
Qed.

(** A call returns [outcome] of the table it is given and leaves the store
    it found in place, with the objects it made after it. *)
Lemma compute_statistics_run :
  compute_statistics arctan2 circmean rad2deg fmod info (World h out)
  = (outcome arctan2 circmean rad2deg fmod t,
     World (h ++ garbage arctan2 circmean rad2deg fmod t) out).
Proof.
  unfold compute_statistics, outcome, garbage.
  rewrite <- (app_nil_r h) at 1.
  erewrite bind_inr by apply new_app. simpl length. simpl app.
  erewrite bind_inr by apply get_table_run.
  erewrite bind_inr by (apply loop_run; auto).
  fold (raw_dists t).
  erewrite bind_inr by (apply get_frame_run with (k := 0); reflexivity).
  erewrite bind_inr by reflexivity.
  fold (relabelled (raw_dists t)).
  erewrite bind_inr by apply new_app. simpl length. simpl app.
  erewrite bind_inr by apply get_table_run.
  erewrite bind_inr by (unfold Py.lift; rewrite for_list_pivot; reflexivity).
  destruct (pd_concat (map (pivot arctan2) t)) as [e|all] eqn:Ec; [reflexivity|].
  erewrite bind_inr by reflexivity.
  simpl Result.bind.
  destruct (0 <? length (dropna_xy all)) eqn:El.
  - unfold nrep_fids_of.
    destruct (py_int _) as [e|n]; [reflexivity|].
    erewrite bind_inr by reflexivity.
    erewrite bind_inr by apply new_app. simpl length. simpl app.
    erewrite bind_inr by (apply isub_min_run with (k := 2); reflexivity).
    simpl Py.update.
    erewrite bind_inr by apply new_app. simpl length. simpl app.
    erewrite bind_inr by (apply get_series_run with (k := 2); reflexivity).
    erewrite bind_inr by (apply setitem_run with (k := 3); reflexivity).
    simpl Py.update.
    erewrite bind_inr by (apply setitem_run with (k := 3); reflexivity).
    simpl Py.update.
    erewrite bind_inr by (apply setitem_run with (k := 3); reflexivity).
    simpl Py.update.
    erewrite bind_inr by (apply get_frame_run with (k := 1); reflexivity).
    erewrite bind_inr by (apply get_frame_run with (k := 3); reflexivity).
    reflexivity.
  - erewrite bind_inr by (apply get_frame_run with (k := 1); reflexivity).
    reflexivity.
Qed.

End Runs.

(** ** Counting and grouping *)

Lemma counts_insert_length v l : length (Counts.insert_sorted v l) = S (length l).
Proof.
  induction l as [|w l IH]; simpl; [reflexivity|].
  destruct (v <=? w); simpl; auto.
Qed.

Lemma counts_sort_length l : length (Counts.sort l) = length l.
Proof.
  induction l as [|v l IH]; simpl; [reflexivity|].
  now rewrite counts_insert_length, IH.
Qed.

Lemma counts_median_some l : l <> [] -> exists q, Counts.median l = Some q.
Proof.
  intros Hl. unfold Counts.median. rewrite counts_sort_length.
  destruct l as [|v l]; [congruence|]. simpl length. simpl Nat.eqb.
  destruct (Nat.even (S (length l))); eexists; reflexivity.
Qed.

Lemma insert_key_in k k' l : In k (GroupBy.insert_key k' l) <-> k = k' \/ In k l.
Proof.
  induction l as [|a l IH]; simpl; [intuition|].
  destruct (String.compare k' a) eqn:E; simpl.
  - apply String.compare_eq_iff in E. subst. intuition.
  - intuition.
  - rewrite IH. intuition.
Qed.

Lemma keys_in k rows : In k (GroupBy.keys rows) <-> In k (map name rows).
Proof.
  unfold GroupBy.keys. induction (map name rows) as [|a l IH]; simpl; [tauto|].
  rewrite insert_key_in, IH. intuition.
Qed.

Lemma keys_nil rows : GroupBy.keys rows = [] -> rows = [].
Proof.
  destruct rows as [|o rows]; [reflexivity|]. intros H.
  assert (Hin : In (name o) (GroupBy.keys (o :: rows))) by (apply keys_in; now left).
  rewrite H in Hin. destruct Hin.
Qed.

Section Returns.

Variable arctan2 : float -> float -> float.
Variable circmean : list float -> float.
Variable rad2deg : float -> float.
Variable fmod : float -> float -> float.

Lemma nrep_fids_of_some rows :
  rows <> [] -> exists n, nrep_fids_of (GroupBy.by_name rows) = inr n.
Proof.
  intros Hr. unfold nrep_fids_of.
  destruct (counts_median_some (Series.values (GroupBy.agg x F.count (GroupBy.by_name rows))))
    as [q Hq].
  - unfold Series.values, GroupBy.agg, GroupBy.by_name. rewrite !map_map.
    intros H. apply map_eq_nil in H. apply keys_nil in H. contradiction.
  - rewrite Hq. eexists; reflexivity.
Qed.

Lemma pd_concat_pivot (t : table) :
  t <> [] -> pd_concat (map (pivot arctan2) t) = inr (flat_map (pivot arctan2) t).
Proof.
  destruct t as [|r t]; [congruence|]. intros _.
  rewrite flat_map_concat_map. reflexivity.
Qed.

(** On a table with at least one report the call returns. *)
Lemma outcome_returns (t : table) :
  t <> [] ->
  exists n_f,
    outcome arctan2 circmean rad2deg fmod t
    = inr (relabelled (raw_dists t),
           if 0 <? length (observations arctan2 t)
           then Some (fids_of circmean rad2deg fmod (GroupBy.by_name (observations arctan2 t)))
           else None,
           Z.of_nat (length t), n_f)
    /\ (if 0 <? length (observations arctan2 t)
        then nrep_fids_of (GroupBy.by_name (observations arctan2 t)) = inr n_f
        else n_f = 0%Z).
Proof.
  intros Ht. unfold outcome. rewrite pd_concat_pivot by assumption.
  cbn [Result.bind]. fold (observations arctan2 t).
  destruct (0 <? length (observations arctan2 t)) eqn:E.
  - destruct (nrep_fids_of_some (observations arctan2 t)) as [n Hn].
    + intros H. rewrite H in E. discriminate.
    + rewrite Hn. exists n. split; reflexivity.
  - exists 0%Z. split; reflexivity.
Qed.

Lemma outcome_empty :
  outcome arctan2 circmean rad2deg fmod [] = inl (ValueError "No objects to concatenate").
Proof. reflexivity. Qed.

End Returns.

(** ** Order and subtraction of binary64 values *)

Module FloatFacts.

Import FloatOrder.

Local Open Scope Z_scope.

Lemma SFleb_rank x y :
  x <> S754_nan -> y <> S754_nan ->
  (SFleb x y = true <-> rank_le (rank x) (rank y)).
Proof. intros Hx Hy. unfold SFleb, SFcompare. rank_cases x y. Qed.

Lemma SFltb_rank x y :
  x <> S754_nan -> y <> S754_nan ->
  (SFltb x y = true <-> rank_lt (rank x) (rank y)).
Proof. intros Hx Hy. unfold SFltb, SFcompare. rank_cases x y. Qed.

Lemma SFeqb_rank x y :
  x <> S754_nan -> y <> S754_nan ->
  (SFeqb x y = true <-> rank x = rank y).
Proof. intros Hx Hy. unfold SFeqb, SFcompare. rank_cases x y. Qed.

Lemma SFleb_nan_l y : SFleb S754_nan y = false.
Proof. reflexivity. Qed.

Lemma SFleb_nan_r x : SFleb x S754_nan = false.
Proof. now destruct x. Qed.

Lemma SFltb_nan_r x : SFltb x S754_nan = false.
Proof. now destruct x. Qed.

Lemma SFeqb_nan_r x : SFeqb x S754_nan = false.
Proof. now destruct x. Qed.


(** *** Mantissas *)

Lemma digits2_pos_bounds m :
  2 ^ (Zpos (digits2_pos m) - 1) <= Zpos m < 2 ^ Zpos (digits2_pos m).
Proof.
  induction m as [p IH|p IH|]; cbn [digits2_pos].
  - rewrite Pos2Z.inj_succ. replace (Z.succ (Zpos (digits2_pos p)) - 1) with (Z.succ (Zpos (digits2_pos p) - 1)) by lia.
    rewrite !Z.pow_succ_r by lia. lia.
  - rewrite Pos2Z.inj_succ. replace (Z.succ (Zpos (digits2_pos p)) - 1) with (Z.succ (Zpos (digits2_pos p) - 1)) by lia.
    rewrite !Z.pow_succ_r by lia. lia.
  - simpl. lia.
Qed.

Lemma iter_xO m d : Zpos (Pos.iter xO m d) = Zpos m * 2 ^ Zpos d.
Proof.
  induction d as [|d IH] using Pos.peano_ind.
  - simpl. lia.
  - rewrite Pos.iter_succ, Pos2Z.inj_succ, Z.pow_succ_r by lia.
    rewrite Pos2Z.inj_xO, IH. lia.
Qed.

Lemma shl_align_value m e e' :
  e' <= e -> Zpos (fst (shl_align m e e')) = Zpos m * 2 ^ (e - e').
Proof.
  intros H. unfold shl_align.
  destruct (e' - e) as [|d|d] eqn:E; try lia.
  - replace (e - e') with 0 by lia. simpl. lia.
  - cbn [fst]. rewrite iter_xO. f_equal. f_equal. lia.
Qed.

(** What validity says of a finite binary64 value. *)
Lemma bounded_inv m e :
  bounded prec emax m e = true ->
  Zpos (digits2_pos m) <= 53 /\ -1074 <= e /\ (-1074 < e -> Zpos (digits2_pos m) = 53).
Proof.
  unfold bounded, canonical_mantissa, fexp, SpecFloat.emin, prec, emax.
  intros H. apply andb_prop in H. destruct H as [H _].
  apply Z.eqb_eq in H. lia.
Qed.

(** Aligned on the smaller exponent, the mantissa of the value with the
    larger exponent is the larger one. *)
Lemma aligned_mantissa_le m1 e1 m2 e2 :
  bounded prec emax m1 e1 = true -> bounded prec emax m2 e2 = true ->
  e1 < e2 ->
  Zpos m1 < Zpos m2 * 2 ^ (e2 - e1).
Proof.
  intros H1 H2 He.
  apply bounded_inv in H1, H2.
  destruct H1 as (D1 & E1 & _), H2 as (_ & _ & D2).
  specialize (D2 ltac:(lia)).
  pose proof (digits2_pos_bounds m1) as B1.
  pose proof (digits2_pos_bounds m2) as B2.
  rewrite D2 in B2.
  assert (Zpos m1 < 2 ^ 53).
  { eapply Z.lt_le_trans; [apply B1|]. apply Z.pow_le_mono_r; lia. }
  assert (2 ^ 1 <= 2 ^ (e2 - e1)) by (apply Z.pow_le_mono_r; lia).
  change (2 ^ (53 - 1)) with 4503599627370496 in B2.
  change (2 ^ 53) with 9007199254740992 in *.
  change (2 ^ 1) with 2 in *. nia.
Qed.


(** *** Rounding keeps the sign *)

Lemma shr_1_nonneg mrs : 0 <= shr_m mrs -> 0 <= shr_m (shr_1 mrs).
Proof.
  destruct mrs as [m r s]. simpl.
  destruct m as [|p|p]; [simpl; lia| |lia].
  destruct p; simpl; lia.
Qed.

Lemma iter_pos_inv {A} (P : A -> Prop) (f : A -> A) :
  (forall a, P a -> P (f a)) -> forall n a, P a -> P (iter_pos f n a).
Proof.
  intros Hf. induction n as [n IH|n IH|]; intros a Ha; simpl; auto.
Qed.

Lemma shr_fexp_nonneg m e l :
  0 <= m -> 0 <= shr_m (fst (shr_fexp prec emax m e l)).
Proof.
  intros Hm. unfold shr_fexp, shr.
  assert (H0 : 0 <= shr_m (shr_record_of_loc m l)) by (destruct l as [|[]]; simpl; lia).
  destruct (fexp prec emax (Zdigits2 m + e) - e); cbn [fst]; auto.
  apply (iter_pos_inv (fun r => 0 <= shr_m r)); auto using shr_1_nonneg.
Qed.

Lemma binary_round_aux_signed s m e l :
  0 <= m -> signed s (binary_round_aux prec emax s m e l).
Proof.
  intros Hm. unfold binary_round_aux.
  pose proof (shr_fexp_nonneg m e l Hm) as H1.
  destruct (shr_fexp prec emax m e l) as [mrs' e'] eqn:E1. cbn [fst] in H1.
  set (m1 := round_nearest_even (shr_m mrs') (loc_of_shr_record mrs')).
  assert (Hm1 : 0 <= m1).
  { unfold m1, round_nearest_even.
    destruct (loc_of_shr_record mrs') as [|[]]; try lia.
    destruct (Z.even (shr_m mrs')); lia. }
  pose proof (shr_fexp_nonneg m1 e' loc_Exact Hm1) as H2.
  destruct (shr_fexp prec emax m1 e' loc_Exact) as [mrs'' e''] eqn:E2. cbn [fst] in H2.
  destruct (shr_m mrs'') as [|p|p]; [reflexivity| |lia].
  destruct (e'' <=? emax - prec); reflexivity.
Qed.

Lemma binary_normalize_nonneg m e :
  0 <= m -> signed false (binary_normalize prec emax m e false).
Proof.
  intros Hm. unfold binary_normalize.
  destruct m as [|p|p]; [reflexivity| |lia].
  unfold binary_round.
  destruct (shl_align p e _) as [mz ez].
  apply binary_round_aux_signed. lia.
Qed.

(** Subtracting a finite value from one that is not below it gives a value
    that is not negative. *)
Lemma SFsub_nonneg x y :
  valid_binary x = true -> valid_binary y = true ->
  finite x -> y <> S754_nan ->
  rank_le (rank x) (rank y) ->
  signed false (SFsub prec emax y x) \/ exists s, SFsub prec emax y x = S754_zero s.
Proof.
  intros Vx Vy Fx Ny Hle.
  destruct x as [sx|sx| |sx mx ex]; try contradiction;
    destruct y as [sy|sy| |sy my ey]; try congruence.
  - right. simpl. destruct sy, sx; eauto.
  - left. destruct sy; simpl in *; [lia|reflexivity].
  - left. destruct sy; simpl in *; [lia|reflexivity].
  - left. destruct sx; simpl in *; [reflexivity|lia].
  - left. destruct sy, sx; simpl in *; try lia; reflexivity.
  - left. cbn [SFsub]. apply binary_normalize_nonneg.
    cbn [valid_binary] in Vx, Vy.
    assert (Lx := Z.le_min_r ey ex). assert (Ly := Z.le_min_l ey ex).
    rewrite (shl_align_value mx ex) by assumption.
    rewrite (shl_align_value my ey) by assumption.
    change (IntDef.Z.min ey ex) with (Z.min ey ex) in *.
    destruct sx, sy; cbn [cond_Zopp]; simpl in Hle.
    + (* both negative *)
      destruct (Z.lt_trichotomy ex ey) as [H|[H|H]]; [lia| |].
      * subst. rewrite Z.min_id, Z.sub_diag. change (2 ^ 0) with 1. lia.
      * rewrite Z.min_l by lia. rewrite Z.sub_diag.
        pose proof (aligned_mantissa_le my ey mx ex Vy Vx H). 
        change (2 ^ 0) with 1. lia.
    + pose proof (Z.pow_nonneg 2 (ey - Z.min ey ex)). pose proof (Z.pow_nonneg 2 (ex - Z.min ey ex)).
      nia.
    + lia.
    + destruct (Z.lt_trichotomy ex ey) as [H|[H|H]]; [| |lia].
      * rewrite Z.min_r by lia. rewrite Z.sub_diag.
        pose proof (aligned_mantissa_le mx ex my ey Vx Vy H).
        change (2 ^ 0) with 1. lia.
      * subst. rewrite Z.min_id, Z.sub_diag. change (2 ^ 0) with 1. lia.
Qed.

(** A finite value minus an equal one is a zero. *)
Lemma SFsub_equal x y :
  finite x -> y <> S754_nan -> rank x = rank y ->
  exists s, SFsub prec emax y x = S754_zero s.
Proof.
  intros Fx Ny Hr.
  destruct x as [sx|sx| |sx mx ex]; try contradiction;
    destruct y as [sy|sy| |sy my ey]; try congruence;
    try (destruct sx, sy; simpl in Hr; discriminate);
    try (destruct sx; simpl in Hr; discriminate);
    try (destruct sy; simpl in Hr; discriminate).
  - simpl. destruct sy, sx; eauto.
  - assert (sx = sy /\ mx = my /\ ex = ey) as (-> & -> & ->).
    { destruct sx, sy; simpl in Hr; try discriminate; injection Hr; intros; repeat split; try lia; congruence. }
    cbn [SFsub]. change (IntDef.Z.min ey ey) with (Z.min ey ey). rewrite Z.min_id.
    unfold shl_align. change (IntDef.Z.sub ey ey) with (ey - ey). rewrite Z.sub_diag. cbn [fst].
    simpl. eauto.
Qed.


Lemma rank_opp x :
  rank (SFopp x) = (let '(a, b, c) := rank x in (- a, - b, - c)).
Proof. destruct x as [s|s| |s m e]; try destruct s; simpl; f_equal; try f_equal; lia. Qed.

(** *** Primitive floats *)

Local Open Scope float_scope.

Lemma isna_spec x : F.isna x = true <-> Prim2SF x = S754_nan.
Proof.
  unfold F.isna, PrimFloat.is_nan. rewrite FloatAxioms.eqb_spec.
  destruct (Prim2SF x) as [s|s| |s m e] eqn:E.
  4: rewrite (proj2 (SFeqb_rank (S754_finite s m e) (S754_finite s m e)
                       ltac:(discriminate) ltac:(discriminate)) eq_refl).
  1, 2: destruct s.
  all: simpl; split; intros H; try discriminate; reflexivity.
Qed.

Lemma notna_spec x : F.notna x = true <-> Prim2SF x <> S754_nan.
Proof.
  unfold F.notna. rewrite negb_true_iff, <- isna_spec.
  destruct (F.isna x); split; congruence.
Qed.

Lemma isna_false x : F.isna x = false <-> Prim2SF x <> S754_nan.
Proof. rewrite <- notna_spec. unfold F.notna. now rewrite negb_true_iff. Qed.

Lemma is_finite_spec x : F.is_finite x = true <-> finite (Prim2SF x).
Proof.
  unfold F.is_finite. destruct (Prim2SF x); simpl; split; intros; try reflexivity; try discriminate; try contradiction; exact I.
Qed.

Lemma finite_notna x : F.is_finite x = true -> F.isna x = false.
Proof.
  rewrite is_finite_spec, isna_false. destruct (Prim2SF x); simpl; congruence.
Qed.

Lemma le_rank x y :
  F.isna x = false -> F.isna y = false ->
  (fle x y <-> rank_le (rank (Prim2SF x)) (rank (Prim2SF y))).
Proof.
  rewrite !isna_false. intros. unfold fle. rewrite FloatAxioms.leb_spec. now apply SFleb_rank.
Qed.

Lemma eq_rank x y :
  F.isna x = false -> F.isna y = false ->
  (feq x y <-> rank (Prim2SF x) = rank (Prim2SF y)).
Proof.
  rewrite !isna_false. intros. unfold feq. rewrite FloatAxioms.eqb_spec. now apply SFeqb_rank.
Qed.

Lemma ltb_rank x y :
  F.isna x = false -> F.isna y = false ->
  ((x <? y) = true <-> rank_lt (rank (Prim2SF x)) (rank (Prim2SF y))).
Proof.
  rewrite !isna_false. intros. rewrite FloatAxioms.ltb_spec. now apply SFltb_rank.
Qed.

Lemma le_notna x y : fle x y -> F.isna x = false /\ F.isna y = false.
Proof.
  unfold fle. rewrite FloatAxioms.leb_spec, !isna_false. intros H.
  split; intros E; rewrite E in H.
  - discriminate.
  - now rewrite SFleb_nan_r in H.
Qed.

Lemma eq_notna x y : feq x y -> F.isna x = false /\ F.isna y = false.
Proof.
  unfold feq. rewrite FloatAxioms.eqb_spec, !isna_false. intros H.
  split; intros E; rewrite E in H.
  - discriminate.
  - now rewrite SFeqb_nan_r in H.
Qed.

Lemma le_refl x : F.isna x = false -> fle x x.
Proof. intros H. apply le_rank; auto. ranks. Qed.

Lemma le_trans x y z : fle x y -> fle y z -> fle x z.
Proof.
  intros H1 H2.
  destruct (le_notna _ _ H1), (le_notna _ _ H2).
  rewrite le_rank in * by assumption. ranks.
Qed.

Lemma le_antisym x y : fle x y -> fle y x -> feq x y.
Proof.
  intros H1 H2. destruct (le_notna _ _ H1).
  rewrite le_rank in * by assumption. apply eq_rank; auto. ranks.
Qed.

Lemma eq_le x y : feq x y -> fle x y.
Proof.
  intros H. destruct (eq_notna _ _ H).
  rewrite eq_rank in H by assumption. apply le_rank; auto.
  rewrite H. ranks.
Qed.

Lemma eq_sym x y : feq x y -> feq y x.
Proof.
  intros H. destruct (eq_notna _ _ H).
  rewrite eq_rank in * by assumption. congruence.
Qed.

Lemma eq_trans x y z : feq x y -> feq y z -> feq x z.
Proof.
  intros H1 H2. destruct (eq_notna _ _ H1), (eq_notna _ _ H2).
  rewrite eq_rank in * by assumption. congruence.
Qed.

Lemma ltb_le x y : (x <? y) = true -> fle x y.
Proof.
  intros H.
  assert (F.isna x = false /\ F.isna y = false) as [Hx Hy].
  { rewrite FloatAxioms.ltb_spec in H. rewrite !isna_false. split; intros E; rewrite E in H.
    - discriminate.
    - now rewrite SFltb_nan_r in H. }
  rewrite ltb_rank in H by assumption. apply le_rank; auto. ranks.
Qed.

Lemma not_ltb_le x y :
  F.isna x = false -> F.isna y = false -> (x <? y) = false -> fle y x.
Proof.
  intros Hx Hy H. apply le_rank; auto.
  assert (N : ~ rank_lt (rank (Prim2SF x)) (rank (Prim2SF y))).
  { rewrite <- ltb_rank by assumption. congruence. }
  ranks.
Qed.


(** *** Subtraction and negation *)

Lemma Prim2SF_zero : Prim2SF 0 = S754_zero false.
Proof. reflexivity. Qed.

Lemma sub_nonneg x y : fle x y -> F.is_finite x = true -> fle 0 (y - x).
Proof.
  intros Hle Hf. destruct (le_notna _ _ Hle) as [Nx Ny].
  apply le_rank in Hle; auto. apply is_finite_spec in Hf. apply isna_false in Ny.
  unfold fle. rewrite FloatAxioms.leb_spec, sub_spec, Prim2SF_zero.
  destruct (SFsub_nonneg _ _ (Prim2SF_valid x) (Prim2SF_valid y) Hf Ny Hle) as [H|[s H]];
    unfold SF64sub.
  - destruct (SFsub prec emax (Prim2SF y) (Prim2SF x)) as [s|s| |s m e];
      simpl in H; try contradiction; subst; reflexivity.
  - rewrite H. reflexivity.
Qed.

Lemma sub_equal x y : feq x y -> F.is_finite x = true -> feq (y - x) 0.
Proof.
  intros He Hf. destruct (eq_notna _ _ He) as [Nx Ny].
  apply eq_rank in He; auto. apply is_finite_spec in Hf. apply isna_false in Ny.
  unfold feq. rewrite FloatAxioms.eqb_spec, sub_spec, Prim2SF_zero.
  destruct (SFsub_equal _ _ Hf Ny He) as [s H]. unfold SF64sub. rewrite H. reflexivity.
Qed.

Lemma sub_notna x m : F.isna (x - m) = false -> F.isna x = false.
Proof.
  rewrite !isna_false, sub_spec. intros H E. apply H. rewrite E. reflexivity.
Qed.

Lemma opp_isna x : F.isna (- x) = F.isna x.
Proof.
  destruct (F.isna x) eqn:E.
  - apply isna_spec. rewrite opp_spec. apply isna_spec in E. now rewrite E.
  - apply isna_false. rewrite opp_spec. apply isna_false in E.
    destruct (Prim2SF x); simpl; congruence.
Qed.

Lemma opp_finite x : F.is_finite (- x) = F.is_finite x.
Proof.
  unfold F.is_finite. rewrite opp_spec. now destruct (Prim2SF x).
Qed.

Lemma opp_le x y : fle x y -> fle (- y) (- x).
Proof.
  intros H. destruct (le_notna _ _ H) as [Nx Ny].
  apply le_rank in H; auto.
  apply le_rank; rewrite ?opp_isna; auto.
  rewrite !opp_spec, !rank_opp. ranks.
Qed.

Lemma feq_finite x y : feq x y -> F.is_finite y = true -> F.is_finite x = true.
Proof.
  intros H. destruct (eq_notna _ _ H) as [Nx Ny].
  apply eq_rank in H; auto. rewrite !is_finite_spec.
  apply isna_false in Nx.
  destruct (Prim2SF x) as [s|s| |s m e], (Prim2SF y) as [s'|s'| |s' m' e'];
    simpl; auto; try congruence;
    try destruct s; try destruct s'; simpl in H; discriminate.
Qed.

(** *** The least value of a list *)

Lemma min_fold l : F.min l = fold_left min_step l nan.
Proof. reflexivity. Qed.

Lemma min_from_present l : forall acc,
  F.isna acc = false ->
  let r := fold_left min_step l acc in
  F.isna r = false /\ (r = acc \/ In r l) /\ fle r acc
  /\ forall v, In v l -> F.isna v = false -> fle r v.
Proof.
  induction l as [|v l IH]; intros acc Ha; simpl.
  - repeat split; auto using le_refl. intros v [].
  - destruct (F.isna v) eqn:Ev.
    + replace (min_step acc v) with acc by (unfold min_step; now rewrite Ev).
      destruct (IH acc Ha) as (N & I & L & B). repeat split; auto.
      * destruct I; auto.
      * intros v' [<-|Hin] Hv'; [congruence|auto].
    + destruct (v <? acc) eqn:Elt.
      * replace (min_step acc v) with v by (unfold min_step; now rewrite Ev, Ha, Elt).
        destruct (IH v Ev) as (N & I & L & B). repeat split; auto.
        -- destruct I; auto.
        -- eapply le_trans; [exact L|]. now apply ltb_le.
        -- intros v' [<-|Hin] Hv'; auto.
      * replace (min_step acc v) with acc by (unfold min_step; now rewrite Ev, Ha, Elt).
        destruct (IH acc Ha) as (N & I & L & B). repeat split; auto.
        -- destruct I; auto.
        -- intros v' [<-|Hin] Hv'; auto.
           eapply le_trans; [exact L|]. now apply not_ltb_le.
Qed.

Lemma min_from_nan l :
  let r := fold_left min_step l nan in
  (F.isna r = true /\ forall v, In v l -> F.isna v = true)
  \/ (F.isna r = false /\ In r l /\ forall v, In v l -> F.isna v = false -> fle r v).
Proof.
  induction l as [|v l IH]; simpl.
  - left. split; [reflexivity|intros v []].
  - destruct (F.isna v) eqn:Ev.
    + replace (min_step nan v) with nan by (unfold min_step; now rewrite Ev).
      destruct IH as [[N A]|(N & I & B)]; [left|right].
      * split; auto. intros v' [<-|Hin]; auto.
      * repeat split; auto. intros v' [<-|Hin] Hv'; [congruence|auto].
    + replace (min_step nan v) with v by (unfold min_step; now rewrite Ev).
      destruct (min_from_present l v Ev) as (N & I & L & B). right.
      repeat split; auto.
      * destruct I as [->|]; auto.
      * intros v' [<-|Hin] Hv'; auto.
Qed.

(** [F.min] returns a least one of the values present. *)
Lemma min_spec l :
  (F.isna (F.min l) = true /\ forall v, In v l -> F.isna v = true)
  \/ (F.isna (F.min l) = false /\ In (F.min l) l
      /\ forall v, In v l -> F.isna v = false -> fle (F.min l) v).
Proof. rewrite min_fold. apply min_from_nan. Qed.

Lemma min_is_least l a :
  In a l -> F.isna a = false ->
  (forall v, In v l -> F.isna v = false -> fle a v) ->
  feq (F.min l) a.
Proof.
  intros Ha Na Hl.
  destruct (min_spec l) as [[_ A]|(N & I & B)].
  - rewrite (A a Ha) in Na. discriminate.
  - apply le_antisym; auto.
Qed.

(** After the least value is subtracted, the least value is zero. *)
Lemma min_recentred l :
  F.is_finite (F.min l) = true ->
  feq (F.min (map (fun v => v - F.min l) l)) 0.
Proof.
  intros Hf. set (m := F.min l) in *.
  destruct (min_spec l) as [[N _]|(N & I & B)]; fold m in N;
    [rewrite (finite_notna _ Hf) in N; discriminate|].
  fold m in I, B.
  assert (Z0 : feq (m - m) 0) by (apply sub_equal; auto; apply le_antisym; apply le_refl; auto).
  eapply eq_trans; [|exact Z0].
  apply min_is_least.
  - apply in_map_iff. eauto.
  - apply (eq_notna _ _ Z0).
  - intros v' Hin Nv'. apply in_map_iff in Hin. destruct Hin as (v & <- & Hv).
    eapply le_trans; [apply eq_le; exact Z0|].
    apply sub_nonneg; auto. apply B; auto. eapply sub_notna; eauto.
Qed.

(** After sign flip and recentring, a greatest finite value becomes zero. *)
Lemma max_flipped l a :
  In a l -> F.is_finite a = true ->
  (forall v, In v l -> F.isna v = false -> fle v a) ->
  feq (- a - F.min (map (fun v => - v) l)) 0.
Proof.
  intros Ha Hf Hmax.
  assert (Na : F.isna a = false) by now apply finite_notna.
  assert (E : feq (F.min (map (fun v => - v) l)) (- a)).
  { apply min_is_least.
    - apply in_map_iff. eauto.
    - now rewrite opp_isna.
    - intros v' Hin Nv'. apply in_map_iff in Hin. destruct Hin as (v & <- & Hv).
      rewrite opp_isna in Nv'. apply opp_le; auto. }
  apply sub_equal; auto.
  eapply feq_finite; [exact E|]. now rewrite opp_finite.
Qed.

End FloatFacts.

(** ** Series, groups and the cells of a table *)

Lemma values_apply {A B} (f : A -> B) (s : series A) :
  Series.values (Series.apply f s) = map f (Series.values s).
Proof. unfold Series.values, Series.apply. rewrite !map_map. reflexivity. Qed.

Lemma lookup_apply {A B} (f : A -> B) k (s : series A) :
  Series.lookup k (Series.apply f s) = option_map f (Series.lookup k s).
Proof.
  unfold Series.lookup, Series.apply.
  induction s as [|[k' v] s IH]; simpl; [reflexivity|].
  destruct (k' =? k)%string; [reflexivity|exact IH].
Qed.

Lemma lookup_in {A} k (s : series A) v :
  Series.lookup k s = Some v -> In v (Series.values s).
Proof.
  unfold Series.lookup, Series.values.
  induction s as [|[k' w] s IH]; simpl; [discriminate|].
  destruct (k' =? k)%string; simpl; [intros [= ->]; now left|auto].
Qed.

Lemma lookup_cons {A} k k' (v : A) s :
  Series.lookup k ((k', v) :: s) = if (k' =? k)%string then Some v else Series.lookup k s.
Proof. unfold Series.lookup. simpl. now destruct (k' =? k)%string. Qed.

Lemma lookup_add k (a b : series string) :
  Series.lookup k (Series.add a b)
  = option_map (fun s => match Series.lookup k b with
                         | Some t => Str (s ++ t)
                         | None => NA
                         end) (Series.lookup k a).
Proof.
  induction a as [|[k' v] a IH]; [reflexivity|].
  unfold Series.add in *. cbn [map fst snd]. rewrite !lookup_cons.
  destruct (k' =? k)%string eqn:E; [|exact IH].
  simpl. apply String.eqb_eq in E. now subst.
Qed.

Lemma lookup_agg {A} col (f : list float -> A) k g :
  Series.lookup k (GroupBy.agg col f g)
  = option_map (fun rows => f (map col rows)) (Series.lookup k g).
Proof.
  unfold Series.lookup, GroupBy.agg.
  induction g as [|[k' rows] g IH]; simpl; [reflexivity|].
  destruct (k' =? k)%string; [reflexivity|exact IH].
Qed.

Lemma lookup_keyed {A} (f : string -> A) k ks :
  In k ks -> Series.lookup k (map (fun k' => (k', f k')) ks) = Some (f k).
Proof.
  unfold Series.lookup. induction ks as [|k' ks IH]; simpl; [tauto|].
  intros H. destruct (k' =? k)%string eqn:E.
  - apply String.eqb_eq in E. now subst.
  - apply IH. destruct H as [->|H]; [|exact H]. now rewrite String.eqb_refl in E.
Qed.

Lemma lookup_by_name k rows :
  In k (map name rows) ->
  Series.lookup k (GroupBy.by_name rows)
  = Some (filter (fun o => (name o =? k)%string) rows).
Proof.
  intros H. unfold GroupBy.by_name.
  apply (lookup_keyed (fun k => filter (fun o => (name o =? k)%string) rows)).
  now apply keys_in.
Qed.

(** The cell of a column laid out along the labels of a series is the
    value the series has at the label. *)
Lemma position_values {A} k (s : series A) (f : A -> value) :
  match DataFrame.position (Str k) (map (fun p => Str (fst p)) s) with
  | Some i => nth_error (map (fun p => f (snd p)) s) i
  | None => None
  end = option_map f (Series.lookup k s).
Proof.
  unfold Series.lookup.
  induction s as [|[k' v] s IH]; simpl; [reflexivity|].
  destruct (k' =? k)%string; [reflexivity|].
  rewrite <- IH.
  destruct (DataFrame.position _ _); reflexivity.
Qed.

Lemma position_snd k (s : series value) i :
  DataFrame.position (Str k) (map (fun p => Str (fst p)) s) = Some i ->
  nth_error (map snd s) i = Series.lookup k s.
Proof.
  intros H. pose proof (position_values k s (fun v => v)) as P.
  rewrite H in P. destruct (Series.lookup k s); exact P.
Qed.

Lemma position_align k (idx : list value) (s : series value) i :
  DataFrame.position (Str k) idx = Some i ->
  nth_error (DataFrame.align idx s) i
  = Some (match Series.lookup k s with Some v => v | None => NA end).
Proof.
  unfold DataFrame.align, Series.lookup.
  revert i. induction idx as [|r idx IH]; intros i; simpl; [discriminate|].
  destruct (value_eqb r (Str k)) eqn:E.
  - intros [= <-]. simpl. f_equal.
    destruct r as [| |s']; try discriminate. simpl in E. apply String.eqb_eq in E. subst.
    simpl. destruct (find _ s) as [p|]; reflexivity.
  - destruct (DataFrame.position (Str k) idx) as [j|]; [|discriminate].
    intros [= <-]. simpl. now apply IH.
Qed.

Lemma position_some {A} k (s : series A) :
  In k (map fst s) ->
  exists i, DataFrame.position (Str k) (map (fun p => Str (fst p)) s) = Some i.
Proof.
  induction s as [|[k' v] s IH]; simpl; [tauto|].
  intros H. destruct (k' =? k)%string eqn:E; [eauto|].
  destruct IH as [i Hi].
  - destruct H as [->|H]; [|exact H]. now rewrite String.eqb_refl in E.
  - rewrite Hi. simpl. eauto.
Qed.

Lemma keys_add (a b : series string) : map fst (Series.add a b) = map fst a.
Proof. unfold Series.add. rewrite map_map. reflexivity. Qed.

Lemma keys_apply {A B} (f : A -> B) (s : series A) : map fst (Series.apply f s) = map fst s.
Proof. unfold Series.apply. rewrite map_map. reflexivity. Qed.

Lemma keys_agg {A} col (f : list float -> A) g : map fst (GroupBy.agg col f g) = map fst g.
Proof. unfold GroupBy.agg. rewrite map_map. reflexivity. Qed.

Lemma keys_mean_pm_std (a b : series float) : map fst (mean_pm_std a b) = map fst a.
Proof. unfold mean_pm_std. now rewrite keys_add, !keys_apply. Qed.

Lemma lookup_some_in {A} k (s : series A) v :
  Series.lookup k s = Some v -> In k (map fst s).
Proof.
  induction s as [|[k' w] s IH]; [discriminate|].
  rewrite lookup_cons. destruct (k' =? k)%string eqn:E; simpl.
  - apply String.eqb_eq in E. auto.
  - auto.
Qed.

Lemma str_app_assoc (a b c : string) : ((a ++ b) ++ c = a ++ (b ++ c))%string.
Proof. induction a as [|ch a IH]; simpl; [reflexivity|now rewrite IH]. Qed.

Section Fids.

Variable circmean : list float -> float.
Variable rad2deg : float -> float.
Variable fmod : float -> float -> float.

(** The marker table, column by column. *)
Lemma fids_of_eq g :
  g <> [] ->
  let sx := mean_pm_std (xmean_of g) (GroupBy.agg x GroupBy.std g) in
  let sy := mean_pm_std (ymean_of g) (GroupBy.agg y GroupBy.std g) in
  let idx := map (fun p => Str (fst p)) sx in
  exists angles,
    fids_of circmean rad2deg fmod g
    = Frame (Some "name") idx
        [("x", map snd sx); ("y", DataFrame.align idx sy); ("angle", angles)].
Proof.
  intros Hg. destruct g as [|p g]; [congruence|].
  eexists. reflexivity.
Qed.

(** A marker's x and y entries are its recentred mean, [" ± "] and its
    standard deviation. *)
Lemma fids_cells g k rows :
  Series.lookup k g = Some rows ->
  exists vx vy,
    Series.lookup k (xmean_of g) = Some vx /\
    Series.lookup k (ymean_of g) = Some vy /\
    DataFrame.cell (Str k) "x" (fids_of circmean rad2deg fmod g)
    = Some (Str (F.format_3f vx ++ pm ++ F.format_3f (GroupBy.std (map x rows)))) /\
    DataFrame.cell (Str k) "y" (fids_of circmean rad2deg fmod g)
    = Some (Str (F.format_3f vy ++ pm ++ F.format_3f (GroupBy.std (map y rows)))).
Proof.
  intros Hk.
  assert (Hg : g <> []) by (intros ->; discriminate).
  destruct (fids_of_eq g Hg) as [angles ->].
  assert (Lx : Series.lookup k (xmean_of g)
               = Some (GroupBy.mean (map x rows) - F.min (Series.values (GroupBy.agg x GroupBy.mean g)))%float).
  { unfold xmean_of, recentre. now rewrite lookup_apply, lookup_agg, Hk. }
  assert (Ly : Series.lookup k (ymean_of g)
               = Some (- GroupBy.mean (map y rows)
                       - F.min (Series.values (Series.apply (fun v => - v) (GroupBy.agg y GroupBy.mean g))))%float).
  { unfold ymean_of, flip_recentre. now rewrite !lookup_apply, lookup_agg, Hk. }
  do 2 eexists. split; [exact Lx|]. split; [exact Ly|].
  assert (Hin : In k (map fst (mean_pm_std (xmean_of g) (GroupBy.agg x GroupBy.std g)))).
  { rewrite keys_mean_pm_std. eapply lookup_some_in; eauto. }
  destruct (position_some _ _ Hin) as [i Hi].
  unfold DataFrame.cell. cbn [index columns]. rewrite Hi.
  split.
  - change (DataFrame.column "x" _) with (Some (map snd (mean_pm_std (xmean_of g) (GroupBy.agg x GroupBy.std g)))).
    cbv iota beta. rewrite (position_snd _ _ _ Hi).
    unfold mean_pm_std. rewrite lookup_add, !lookup_apply, Lx, lookup_agg, Hk.
    simpl. now rewrite str_app_assoc.
  - match goal with |- context [DataFrame.column "y" ?f] =>
      change (DataFrame.column "y" f)
        with (Some (DataFrame.align (map (fun p => Str (fst p)) (mean_pm_std (xmean_of g) (GroupBy.agg x GroupBy.std g)))
                      (mean_pm_std (ymean_of g) (GroupBy.agg y GroupBy.std g))))
    end.
    cbv iota beta. rewrite (position_align _ _ _ _ Hi).
    unfold mean_pm_std. rewrite lookup_add, !lookup_apply, Ly, lookup_agg, Hk.
    simpl. now rewrite str_app_assoc.
Qed.

End Fids.

(** ** Sums in the order of the libraries *)

Module SumFacts.

Import FloatOrder.

Local Open Scope float_scope.

Lemma add_zeros a b : any_zero a -> any_zero b -> any_zero (a + b).
Proof.
  intros [sa Ha] [sb Hb]. unfold any_zero. rewrite add_spec, Ha, Hb.
  destruct sa, sb; cbn; eauto.
Qed.

Lemma zero_add a v : any_zero a -> ~ any_zero v -> a + v = v.
Proof.
  intros [sa Ha] Hv. apply Prim2SF_inj. rewrite add_spec, Ha.
  destruct (Prim2SF v) as [s|s| |s m e] eqn:E; try reflexivity.
  exfalso. apply Hv. exists s. exact E.
Qed.

Lemma add_zero_r x : Prim2SF x <> S754_zero true -> x + 0 = x.
Proof.
  intros H. apply Prim2SF_inj. rewrite add_spec, FloatFacts.Prim2SF_zero.
  destruct (Prim2SF x) as [s|s| |s m e]; try reflexivity.
  destruct s; [congruence|reflexivity].
Qed.

Lemma zero_add_alike x y : alike x y -> 0 + x = 0 + y.
Proof.
  intros [->|[[sx Hx] [sy Hy]]]; [reflexivity|].
  apply Prim2SF_inj. rewrite !add_spec, FloatFacts.Prim2SF_zero, Hx, Hy.
  destruct sx, sy; reflexivity.
Qed.

Lemma zero_dec v : any_zero v \/ ~ any_zero v.
Proof.
  unfold any_zero. destruct (Prim2SF v) as [s|s| |s m e]; eauto;
    right; intros [s' H]; discriminate H.
Qed.

Lemma alike_add a1 a2 u : alike a1 a2 -> alike (a1 + u) (a2 + u).
Proof.
  intros [->|[Z1 Z2]]; [now left|].
  destruct (zero_dec u) as [Zu|Nu].
  - right. split; now apply add_zeros.
  - left. now rewrite !zero_add.
Qed.

Lemma alike_fill a1 a2 : alike a1 a2 -> alike (a1 + 0) a2.
Proof.
  assert (Z0 : any_zero 0) by (exists false; apply FloatFacts.Prim2SF_zero).
  intros [->|[Z1 Z2]].
  - destruct (Prim2SF a2) as [s|s| |s m e] eqn:E.
    1:{ destruct s.
        - right. split; [apply add_zeros; [exists true; exact E|exact Z0]|exists true; exact E].
        - left. apply add_zero_r. rewrite E. discriminate. }
    all: left; apply add_zero_r; rewrite E; discriminate.
  - right. split; [now apply add_zeros|assumption].
Qed.

(** Adding the column with zeros for the missing values, or the present
    values alone, from sums that are alike gives sums that are alike. *)
Lemma fold_alike (f : float -> float) col : forall a1 a2,
  alike a1 a2 ->
  alike (fold_left PrimFloat.add (F.filled f col) a1)
        (fold_left PrimFloat.add (map f (present col)) a2).
Proof.
  induction col as [|v col IH]; intros a1 a2 H; [exact H|].
  unfold F.filled, present in *. cbn [map filter fold_left]. unfold F.notna at 1.
  destruct (F.isna v); cbn [negb map fold_left].
  - apply IH. now apply alike_fill.
  - apply IH. now apply alike_add.
Qed.

Lemma block_short l :
  (length l < 8)%nat -> F.block_sum l = fold_left PrimFloat.add l 0.
Proof.
  intros H. do 8 (destruct l as [|? l]; [reflexivity|]). cbn in H. lia.
Qed.

Lemma pairwise_short fuel l :
  (length l < 8)%nat -> F.pairwise_sum fuel l = fold_left PrimFloat.add l 0.
Proof.
  intros H. assert (L : (length l <=? 128)%nat = true) by (apply Nat.leb_le; lia).
  destruct fuel; cbn [F.pairwise_sum]; rewrite L; now apply block_short.
Qed.

(** In a column of fewer than eight values the zeros filled in change
    nothing: the sum is that of the present values. *)
Lemma np_sum_short (f : float -> float) col :
  (length col < 8)%nat ->
  F.np_sum (F.filled f col) = F.np_sum (map f (present col)).
Proof.
  intros H. unfold F.np_sum.
  assert (L : (length (present col) <= length col)%nat)
    by (unfold present; apply filter_length_le).
  rewrite !pairwise_short
    by (unfold F.filled; rewrite length_map; lia).
  apply zero_add_alike, fold_alike. now left.
Qed.

(** The fuel of the pairwise sum does not run out. *)
Lemma pairwise_sum_fuel fuel1 : forall fuel2 l,
  (length l <= fuel1)%nat -> (length l <= fuel2)%nat ->
  F.pairwise_sum fuel1 l = F.pairwise_sum fuel2 l.
Proof.
  induction fuel1 as [|fuel1 IH]; intros fuel2 l H1 H2.
  - destruct l; [|cbn in H1; lia]. destruct fuel2; reflexivity.
  - destruct fuel2 as [|fuel2].
    + destruct l; [reflexivity|cbn in H2; lia].
    + cbn [F.pairwise_sum].
      destruct (length l <=? 128)%nat eqn:E; [reflexivity|].
      apply Nat.leb_gt in E.
      pose proof (Nat.div_mod_eq (length l) 2) as Q.
      pose proof (Nat.mod_upper_bound (length l) 2 ltac:(lia)) as R.
      pose proof (Nat.mod_upper_bound (length l / 2) 8 ltac:(lia)) as R8.
      f_equal; apply IH; rewrite ?length_firstn, ?length_skipn; lia.
Qed.

End SumFacts.

(** ** Sorting *)

Lemma insert_sorted_perm v l : Permutation (F.insert_sorted v l) (v :: l).
Proof.
  induction l as [|w l IH]; cbn [F.insert_sorted]; [reflexivity|].
  destruct (v <=? w)%float; [reflexivity|].
  rewrite IH. apply perm_swap.
Qed.

Lemma sort_perm l : Permutation (F.sort l) l.
Proof.
  induction l as [|v l IH]; [reflexivity|].
  cbn [F.sort fold_right]. fold (F.sort l).
  rewrite insert_sorted_perm. now constructor.
Qed.

Lemma leb_total x y :
  F.isna x = false -> F.isna y = false ->
  (x <=? y)%float = false -> FloatOrder.fle y x.
Proof.
  intros Hx Hy H.
  apply (FloatFacts.le_rank y x Hy Hx).
  assert (N : ~ FloatOrder.rank_le (FloatOrder.rank (Prim2SF x)) (FloatOrder.rank (Prim2SF y))).
  { intros R. apply (FloatFacts.le_rank x y Hx Hy) in R.
    unfold FloatOrder.fle in R. congruence. }
  revert N. unfold FloatOrder.rank_le.
  destruct (FloatOrder.rank (Prim2SF x)) as [[a b] c].
  destruct (FloatOrder.rank (Prim2SF y)) as [[a' b'] c'].
  lia.
Qed.

Lemma insert_sorted_hd w v l :
  FloatOrder.fle w v -> HdRel FloatOrder.fle w l ->
  HdRel FloatOrder.fle w (F.insert_sorted v l).
Proof.
  intros Hv Hl. destruct l as [|u l]; cbn [F.insert_sorted]; [now constructor|].
  destruct (v <=? u)%float; constructor; [assumption|].
  now inversion Hl.
Qed.

Lemma insert_sorted_sorted v l :
  F.isna v = false -> Forall (fun w => F.isna w = false) l ->
  Sorted FloatOrder.fle l -> Sorted FloatOrder.fle (F.insert_sorted v l).
Proof.
  intros Hv Hna Hs. induction Hs as [|w l Hs IH Hd]; cbn [F.insert_sorted].
  - repeat constructor.
  - inversion Hna as [|? ? Hw Hl]; subst.
    destruct (v <=? w)%float eqn:E.
    + constructor; [now constructor|]. constructor. exact E.
    + constructor; [now apply IH|].
      apply insert_sorted_hd; [|assumption]. now apply leb_total.
Qed.

(** Sorting values without a NaN among them puts them in ascending order. *)
Lemma sort_sorted l :
  Forall (fun w => F.isna w = false) l -> Sorted FloatOrder.fle (F.sort l).
Proof.
  induction 1 as [|v l Hv Hl IH]; [constructor|].
  cbn [F.sort fold_right]. fold (F.sort l).
  apply insert_sorted_sorted; [assumption| |assumption].
  eapply Permutation_Forall; [|exact Hl]. symmetry. apply sort_perm.
Qed.

Lemma present_notna col : Forall (fun w => F.isna w = false) (present col).
Proof.
  apply Forall_forall. intros w H. unfold present in H. apply filter_In in H.
  destruct H as [_ H]. unfold F.notna in H. now apply negb_true_iff in H.
Qed.

Lemma present_present col : present (present col) = present col.
Proof.
  unfold present. induction col as [|v col IH]; [reflexivity|].
  cbn [filter]. destruct (F.notna v) eqn:E; [|exact IH].
  cbn [filter]. now rewrite E, IH.
Qed.

Lemma present_all col : present col = col -> Forall (fun w => F.isna w = false) col.
Proof. intros <-. apply present_notna. Qed.

Lemma filled_all (f : float -> float) col :
  Forall (fun w => F.isna w = false) col -> F.filled f col = map f col.
Proof.
  unfold F.filled. induction 1 as [|v col Hv Hc IH]; [reflexivity|].
  cbn [map]. now rewrite Hv, IH.
Qed.

(** ** Statistics of a column and of its present values *)

Lemma count_nonzero_filter {A} (f : A -> bool) l :
  F.count_nonzero (map f l) = length (filter f l).
Proof.
  unfold F.count_nonzero. induction l as [|a l IH]; simpl; [reflexivity|].
  destruct (f a); simpl; auto.
Qed.

Lemma count_present col : F.count col = length (present col).
Proof. unfold F.count, present. apply count_nonzero_filter. Qed.

Lemma included_iff col :
  (0 <? F.count_nonzero (map negb (map F.isna col))) = true
  <-> Exists (fun v => F.notna v = true) col.
Proof.
  rewrite map_map, count_nonzero_filter, Nat.ltb_lt.
  induction col as [|v col IH]; simpl.
  - split; [lia|intros H; inversion H].
  - fold (F.notna v). destruct (F.notna v) eqn:E; simpl.
    + split; [intros _; now left|lia].
    + rewrite IH. split; [now right|].
      intros H. inversion H; subst; [congruence|assumption].
Qed.

(** The mean and the deviation of a column divide by the number of its
    present values; their sums run over the whole column, a missing value
    counting as 0. *)
Lemma mean_count col :
  F.mean col
  = (F.np_sum (F.filled (fun v => v) col) / F.of_nat (length (present col)))%float.
Proof. unfold F.mean. now rewrite count_present. Qed.

Lemma std_count col :
  F.std col
  = if length (present col) <=? 1 then nan
    else PrimFloat.sqrt
           (F.np_sum (F.filled (fun v => ((F.mean col - v) * (F.mean col - v))%float) col)
            / F.of_nat (length (present col) - 1))%float.
Proof. unfold F.std. now rewrite count_present. Qed.

(** In a column of fewer than eight values, and in a column without a
    missing value, they are the mean and the deviation of the present
    values alone. *)
Lemma mean_short col : length col < 8 -> F.mean col = Plain.mean (present col).
Proof.
  intros H. rewrite mean_count. unfold Plain.mean, F.np_mean.
  now rewrite (SumFacts.np_sum_short (fun v => v) col H), map_id.
Qed.

Lemma std_short col : length col < 8 -> F.std col = Plain.std (present col).
Proof.
  intros H. rewrite std_count. unfold Plain.std.
  rewrite (mean_short col H).
  now rewrite (SumFacts.np_sum_short _ col H).
Qed.

Lemma mean_full col : present col = col -> F.mean col = Plain.mean (present col).
Proof.
  intros H. rewrite mean_count. unfold Plain.mean, F.np_mean.
  rewrite (filled_all _ col (present_all col H)), map_id. now rewrite H.
Qed.

Lemma std_full col : present col = col -> F.std col = Plain.std (present col).
Proof.
  intros H. rewrite std_count. unfold Plain.std.
  rewrite (mean_full col H), (filled_all _ col (present_all col H)). now rewrite H.
Qed.

Lemma median_present col : F.median col = Plain.median (present col).
Proof. reflexivity. Qed.

(** The median of a column is the middle of its present values put in
    ascending order. *)
Lemma median_sorted_middle s : F.median_sorted s = middle s.
Proof.
  unfold F.median_sorted, middle. destruct s as [|v s]; [|reflexivity].
  apply Prim2SF_inj. vm_compute. reflexivity.
Qed.

Lemma median_middle col :
  exists s,
    Permutation s (present col) /\ Sorted FloatOrder.fle s
    /\ F.median col = middle s.
Proof.
  exists (F.sort (present col)). split; [apply sort_perm|].
  split; [apply sort_sorted, present_notna|apply median_sorted_middle].
Qed.

Lemma present_map_exists {A} (col : A -> float) (t : list A) :
  Exists (fun v => F.notna v = true) (map col t)
  <-> Exists (fun r => F.notna (col r) = true) t.
Proof. rewrite Exists_map. reflexivity. Qed.

(** ** Statistics of a group *)

Lemma kahan_present l : forall s,
  fold_left GroupBy.kahan_step l s = fold_left GroupBy.kahan_step (present l) s.
Proof.
  unfold present. induction l as [|v l IH]; intros [sumx c]; [reflexivity|].
  cbn [fold_left filter]. unfold F.notna at 1, GroupBy.kahan_step at 2.
  destruct (F.isna v) eqn:E; cbn [negb]; [apply IH|].
  cbn [fold_left]. unfold GroupBy.kahan_step at 3. rewrite E. apply IH.
Qed.

Lemma welford_present l : forall s,
  fold_left GroupBy.welford_step l s = fold_left GroupBy.welford_step (present l) s.
Proof.
  unfold present. induction l as [|v l IH]; intros [[n m] q]; [reflexivity|].
  cbn [fold_left filter]. unfold F.notna at 1, GroupBy.welford_step at 2.
  destruct (F.isna v) eqn:E; cbn [negb]; [apply IH|].
  cbn [fold_left]. unfold GroupBy.welford_step at 3. rewrite E. apply IH.
Qed.

(** The mean and the deviation of a group are those of its present values:
    a missing value changes neither the sums nor the count. *)
Lemma group_mean_present l : GroupBy.mean l = GroupBy.mean (present l).
Proof.
  unfold GroupBy.mean.
  now rewrite kahan_present, !count_present, present_present.
Qed.

Lemma group_std_present l : GroupBy.std l = GroupBy.std (present l).
Proof. unfold GroupBy.std. now rewrite welford_present. Qed.

Lemma welford_count l : forall n m q,
  fst (fst (fold_left GroupBy.welford_step l (n, m, q))) = n + length (present l).
Proof.
  unfold present. induction l as [|v l IH]; intros n m q; [cbn; lia|].
  cbn [fold_left filter]. unfold F.notna at 1, GroupBy.welford_step at 2.
  destruct (F.isna v); cbn [negb length]; rewrite IH; lia.
Qed.

Lemma group_std_count l :
  length (present l) <= 1 -> GroupBy.std l = nan.
Proof.
  intros H. unfold GroupBy.std.
  pose proof (welford_count l 0 0%float 0%float) as C.
  destruct (fold_left GroupBy.welford_step l (0, 0%float, 0%float)) as [[n m] q].
  cbn [fst] in C. assert (L : (n <=? 1) = true) by (apply Nat.leb_le; lia).
  now rewrite L.
Qed.

(** ** Formatted numbers are not field names *)

Lemma chars_app a b :
  list_ascii_of_string (a ++ b) = list_ascii_of_string a ++ list_ascii_of_string b.
Proof. induction a as [|c a IH]; simpl; [reflexivity|now rewrite IH]. Qed.

Lemma kept_by_char c s :
  In c (list_ascii_of_string s) ->
  forallb (fun p => negb (existsb (Ascii.eqb c) (list_ascii_of_string (fst p)))) pair_labels = true ->
  DataFrame.replace_value pair_labels (Str s) = Str s.
Proof.
  intros Hc Hk. unfold DataFrame.replace_value.
  destruct (find _ _) as [p|] eqn:E; [|reflexivity].
  apply find_some in E. destruct E as [Hin E].
  apply String.eqb_eq in E. rewrite forallb_forall in Hk.
  specialize (Hk p Hin). rewrite E in Hk.
  apply negb_true_iff in Hk.
  assert (Hex : existsb (Ascii.eqb c) (list_ascii_of_string s) = true).
  { apply existsb_exists. exists c. split; [assumption|apply Ascii.eqb_refl]. }
  congruence.
Qed.

Lemma format_3f_kept v :
  DataFrame.replace_value pair_labels (Str (F.format_3f v)) = Str (F.format_3f v).
Proof.
  unfold F.format_3f. destruct (Prim2SF v) as [s|s| |s m e].
  1, 2: destruct s; reflexivity.
  - reflexivity.
  - apply (kept_by_char "."%char); [|reflexivity].
    rewrite !chars_app. apply in_or_app. right. apply in_or_app. right.
    apply in_or_app. left. now left.
Qed.

Lemma mean_pm_kept a b :
  DataFrame.replace_value pair_labels (Str (a ++ pm ++ b)) = Str (a ++ pm ++ b).
Proof.
  apply (kept_by_char " "%char); [|reflexivity].
  rewrite !chars_app. apply in_or_app. right. apply in_or_app. left. now left.
Qed.

(** ** The separation table *)

Lemma raw_dists_turns t :
  raw_dists t
  = turn (included (map ullr_dist t)) "ullr_dist"
      (mean_cell (map ullr_dist t)) (median_cell (map ullr_dist t))
      (turn (included (map llur_dist t)) "llur_dist"
         (mean_cell (map llur_dist t)) (median_cell (map llur_dist t))
         (turn (included (map tb_dist t)) "tb_dist"
            (mean_cell (map tb_dist t)) (median_cell (map tb_dist t))
            (turn (included (map lr_dist t)) "lr_dist"
               (mean_cell (map lr_dist t)) (median_cell (map lr_dist t))
               DataFrame.empty))).
Proof. reflexivity. Qed.

Lemma turns_rows b1 b2 b3 b4 m1 d1 m2 d2 m3 d3 m4 d4 :
  turn b4 "ullr_dist" m4 d4 (turn b3 "llur_dist" m3 d3
    (turn b2 "tb_dist" m2 d2 (turn b1 "lr_dist" m1 d1 DataFrame.empty)))
  = frame_of_rows None
      (row_if b1 "lr_dist" m1 d1 ++ row_if b2 "tb_dist" m2 d2
       ++ row_if b3 "llur_dist" m3 d3 ++ row_if b4 "ullr_dist" m4 d4).
Proof. destruct b1, b2, b3, b4; vm_compute; reflexivity. Qed.

Lemma replace_value_str s :
  DataFrame.replace_value pair_labels (Str s) = Str (relabel_name s).
Proof.
  unfold DataFrame.replace_value, relabel_name. now destruct (find _ _).
Qed.

Lemma relabelled_rows rows :
  Forall (fun r => kept (snd (fst r)) /\ kept (snd r)) rows ->
  relabelled (frame_of_rows None rows)
  = frame_of_rows (Some "markers")
      (map (fun r => (relabel_name (fst (fst r)), snd (fst r), snd r)) rows).
Proof.
  intros K. unfold relabelled, frame_of_rows. cbn [index columns].
  rewrite !map_map. cbn [fst snd].
  f_equal.
  - apply map_ext. intros r. apply replace_value_str.
  - assert (C1 : map (DataFrame.replace_value pair_labels) (map (fun r => Str (snd (fst r))) rows)
                 = map (fun r => Str (snd (fst r))) rows).
    { rewrite map_map. apply map_ext_in. intros r Hr.
      rewrite Forall_forall in K. apply (K r Hr). }
    assert (C2 : map (DataFrame.replace_value pair_labels) (map (fun r => Str (snd r)) rows)
                 = map (fun r => Str (snd r)) rows).
    { rewrite map_map. apply map_ext_in. intros r Hr.
      rewrite Forall_forall in K. apply (K r Hr). }
    remember (map (fun r => Str (snd (fst r))) rows) as c1.
    remember (map (fun r => Str (snd r)) rows) as c2.
    destruct rows as [|r rows]; [reflexivity|].
    cbn [map fst snd]. rewrite C1, C2. reflexivity.
Qed.

(** The rows of the relabelled table, whatever the loop read. *)
Lemma dists_rows b1 b2 b3 b4 m1 d1 m2 d2 m3 d3 m4 d4 :
  let d := frame_of_rows (Some "markers")
             (map (fun r => (relabel_name (fst (fst r)), snd (fst r), snd r))
                (row_if b1 "lr_dist" m1 d1 ++ row_if b2 "tb_dist" m2 d2
                 ++ row_if b3 "llur_dist" m3 d3 ++ row_if b4 "ullr_dist" m4 d4)) in
  let has label := In (Str label) (index d) in
  let row label m md :=
    DataFrame.cell (Str label) "mean" d = Some (Str m)
    /\ DataFrame.cell (Str label) "median" d = Some (Str md) in
  ((has "P5 - P6" <-> b1 = true) /\ (b1 = true -> row "P5 - P6" m1 d1))
  /\ ((has "P7 - P8" <-> b2 = true) /\ (b2 = true -> row "P7 - P8" m2 d2))
  /\ ((has "P1 - P2" <-> b3 = true) /\ (b3 = true -> row "P1 - P2" m3 d3))
  /\ ((has "P3 - P4" <-> b4 = true) /\ (b4 = true -> row "P3 - P4" m4 d4))
  /\ DataFrame.len d = length (filter (fun b => b) [b1; b2; b3; b4]).
Proof.
  destruct b1, b2, b3, b4; vm_compute;
    repeat split; intros; try reflexivity; try discriminate;
    repeat match goal with
    | H : _ \/ _ |- _ => destruct H
    | H : False |- _ => destruct H
    end; try discriminate; auto 6.
Qed.

(** ** The separation table of a call *)

Lemma separation_table (t : table) :
  let d := relabelled (raw_dists t) in
  (forall meas label col, In (meas, label, col) separation_fields ->
     (In (Str label) (index d) <-> Exists (fun r => F.notna (col r) = true) t)
     /\ (Exists (fun r => F.notna (col r) = true) t ->
         DataFrame.cell (Str label) "mean" d = Some (Str (mean_cell (map col t)))
         /\ DataFrame.cell (Str label) "median" d = Some (Str (median_cell (map col t)))))
  /\ DataFrame.len d
     = length (filter (fun c : report -> float => included (map c t))
                 [lr_dist; tb_dist; llur_dist; ullr_dist]).
Proof.
  intros d. unfold d.
  rewrite raw_dists_turns, turns_rows, relabelled_rows.
  2:{ unfold row_if.
      repeat (apply Forall_app; split);
        match goal with |- Forall _ (if ?b then _ else _) => destruct b end;
        constructor; try constructor; try split;
        first [ apply mean_pm_kept | apply format_3f_kept ]. }
  pose proof (dists_rows (included (map lr_dist t)) (included (map tb_dist t))
                (included (map llur_dist t)) (included (map ullr_dist t))
                (mean_cell (map lr_dist t)) (median_cell (map lr_dist t))
                (mean_cell (map tb_dist t)) (median_cell (map tb_dist t))
                (mean_cell (map llur_dist t)) (median_cell (map llur_dist t))
                (mean_cell (map ullr_dist t)) (median_cell (map ullr_dist t))) as R.
  cbv zeta in R.
  match type of R with context [frame_of_rows ?n ?r] => set (D := frame_of_rows n r) in * end.
  destruct R as (R1 & R2 & R3 & R4 & RL).
  split.
  - intros meas label col Hin.
    assert (Hinc : forall c : report -> float,
               included (map c t) = true <-> Exists (fun r => F.notna (c r) = true) t).
    { intros c. unfold included. rewrite included_iff. apply present_map_exists. }
    destruct Hin as [E|[E|[E|[E|[]]]]]; injection E as <- <- <-;
      rewrite <- Hinc; assumption.
  - rewrite RL. cbn [filter].
    destruct (included (map lr_dist t)), (included (map tb_dist t)),
      (included (map llur_dist t)), (included (map ullr_dist t)); reflexivity.
Qed.

(** ** No colon survives the replacement *)

Lemma replace_no_colon s :
  Forall (fun c => c <> ":"%char) (list_ascii_of_string (Str.replace ":" "-" s)).
Proof.
  unfold Str.replace. induction s as [|c s IH]; [constructor|].
  cbn [Str.replace_from String.prefix].
  destruct (ascii_dec ":" c) as [<-|N].
  - cbn [String.prefix String.length Nat.sub]. 
    replace (String.prefix "" s) with true by (now destruct s).
    cbn. constructor; [discriminate|exact IH].
  - cbn. constructor; [congruence|exact IH].
Qed.

(** Replacing [":"] by ["-"] changes each colon and nothing else. *)
Lemma replace_colon_chars s :
  list_ascii_of_string (Str.replace ":" "-" s)
  = map (fun c => if Ascii.eqb c ":" then "-"%char else c) (list_ascii_of_string s).
Proof.
  unfold Str.replace. induction s as [|c s IH]; [reflexivity|].
  cbn [Str.replace_from String.prefix list_ascii_of_string map].
  destruct (ascii_dec ":" c) as [<-|N].
  - cbn [String.prefix String.length Nat.sub].
    replace (String.prefix "" s) with true by (now destruct s).
    cbn. now rewrite <- IH.
  - assert (E : Ascii.eqb c ":" = false) by (apply Ascii.eqb_neq; congruence).
    rewrite E. cbn. now rewrite <- IH.
Qed.

Lemma no_colon_app a b :
  Forall (fun c => c <> ":"%char) (list_ascii_of_string a) ->
  Forall (fun c => c <> ":"%char) (list_ascii_of_string b) ->
  Forall (fun c => c <> ":"%char) (list_ascii_of_string (a ++ b)).
Proof. intros. rewrite chars_app. now apply Forall_app. Qed.

(** ** Observations *)

Lemma observations_none arctan2 (t : table) :
  forallb xy_missing t = true -> observations arctan2 t = [].
Proof.
  unfold observations. induction t as [|r t IH]; [reflexivity|].
  cbn [forallb flat_map]. intros H. apply andb_prop in H. destruct H as [Hr Ht].
  unfold dropna_xy in *. rewrite filter_app, (IH Ht), app_nil_r.
  unfold xy_missing in Hr. cbn [forallb] in Hr.
  repeat match type of Hr with
         | (_ && _)%bool = true =>
             let H := fresh "H" in apply andb_prop in Hr; destruct Hr as [H Hr]
         end.
  unfold pivot. cbn [filter x y]. 
  repeat match goal with H : F.isna _ = true |- _ => rewrite H; clear H end.
  reflexivity.
Qed.

Lemma count_x_of k rows :
  F.count (map x (observations_of k rows))
  = length (filter (fun o => F.notna (x o)) (observations_of k rows)).
Proof. unfold F.count. rewrite map_map. apply count_nonzero_filter. Qed.

Lemma values_count_by_name rows :
  Series.values (GroupBy.agg x F.count (GroupBy.by_name rows)) = x_counts rows.
Proof.
  unfold Series.values, GroupBy.agg, GroupBy.by_name, x_counts. rewrite !map_map.
  apply map_ext. intros k. cbn [fst snd]. apply count_x_of.
Qed.

Lemma std_of_one (l : list float) : length l <= 1 -> GroupBy.std l = nan.
Proof.
  intros H. apply group_std_count.
  unfold present. eapply Nat.le_trans; [apply filter_length_le|exact H].
Qed.

(** ** What a call returns and what it leaves behind *)

Section Calls.

Variable arctan2 : float -> float -> float.
Variable circmean : list float -> float.
Variable rad2deg : float -> float.
Variable fmod : float -> float -> float.
Variable to_markdown : frame -> string.

Lemma call_run (w : world) (info : loc) (t : table) :
  nth_error (heap w) info = Some (ODataFrame t) ->
  compute_statistics arctan2 circmean rad2deg fmod info w
  = (outcome arctan2 circmean rad2deg fmod t,
     World (heap w ++ garbage arctan2 circmean rad2deg fmod t) (stdout w)).
Proof.
  destruct w as [h out]. intros H. now apply compute_statistics_run.
Qed.

Lemma nice_table_run (w : world) (info : loc) (t : table) :
  nth_error (heap w) info = Some (ODataFrame t) ->
  nice_table arctan2 circmean rad2deg fmod to_markdown info w
  = match outcome arctan2 circmean rad2deg fmod t with
    | inl e => (inl e, World (heap w ++ garbage arctan2 circmean rad2deg fmod t) (stdout w))
    | inr r =>
        (inr tt,
         World (heap w ++ garbage arctan2 circmean rad2deg fmod t)
           (stdout w ++ Str.replace ":" "-" (rendered to_markdown r) ++ Py.newline))
    end.
Proof.
  intros H. unfold nice_table, Py.bind. rewrite (call_run w info t H).
  destruct (outcome arctan2 circmean rad2deg fmod t) as [e|[[[d f] n_d] n_f]]; reflexivity.
Qed.

Lemma outcome_inv (t : table) d f n_d n_f :
  outcome arctan2 circmean rad2deg fmod t = inr (d, f, n_d, n_f) ->
  t <> []
  /\ d = relabelled (raw_dists t)
  /\ n_d = Z.of_nat (length t)
  /\ f = (if 0 <? length (observations arctan2 t)
          then Some (fids_of circmean rad2deg fmod (GroupBy.by_name (observations arctan2 t)))
          else None)
  /\ (if 0 <? length (observations arctan2 t)
      then nrep_fids_of (GroupBy.by_name (observations arctan2 t)) = inr n_f
      else n_f = 0%Z).
Proof.
  intros H.
  assert (Ht : t <> []) by (intros ->; discriminate).
  destruct (outcome_returns arctan2 circmean rad2deg fmod t Ht) as (n & E & Hn).
  rewrite E in H. injection H as <- <- <- <-. auto.
Qed.

Lemma old_objects_stay (h g : list pyobj) l o :
  nth_error h l = Some o -> nth_error (h ++ g) l = Some o.
Proof.
  intros H. rewrite nth_error_app1; [assumption|].
  apply nth_error_Some. congruence.
Qed.

End Calls.

(** * Properties of the script *)

Section Claims.

Variable arctan2 : float -> float -> float.
Variable circmean : list float -> float.
Variable rad2deg : float -> float.
Variable fmod : float -> float -> float.


(** C4.  The separation report count a call returns is the number of rows
    of the table it was given, whatever is missing in the separation
    fields; and on a table with at least one row the call returns. *)
Theorem nrep_dists_row_count (w : world) (info : loc) (t : table) :
  nth_error (heap w) info = Some (ODataFrame t) ->
  (t <> [] -> exists r, fst (compute_statistics arctan2 circmean rad2deg fmod info w) = inr r)
  /\ (forall d fids n_d n_f,
        fst (compute_statistics arctan2 circmean rad2deg fmod info w) = inr (d, fids, n_d, n_f) -> n_d = Z.of_nat (length t)).
Proof.
  intros H. rewrite (call_run _ _ _ _ w info t H). cbn [fst]. split.
  - intros Ht. destruct (outcome_returns arctan2 circmean rad2deg fmod t Ht) as (n & E & _).
    rewrite E. eauto.
  - intros d fids n_d n_f E. apply outcome_inv in E. tauto.
Qed.

(** C3, amended.  For each of the four separation fields, the row with its
    pair label is in the separation table a call returns exactly when some
    report has a value for the field.  Its median is that of the values
    present and of them alone: the middle of these values in ascending
    order.  Its mean and standard deviation divide by the number of values
    present (by one less for the deviation), but they sum over the whole
    column, a missing value counting as 0, in the order of numpy's sum: in
    a table of fewer than eight reports, and in a column without a missing
    value, they are the mean and the deviation of the values present; in a
    longer table their last digit can depend on where the missing values
    are.  When no report has a value for any of the four fields the table
    has no row.  On a table with at least one row the call returns. *)
Theorem separation_rows (w : world) (info : loc) (t : table) :
  nth_error (heap w) info = Some (ODataFrame t) ->
  (t <> [] -> exists r, fst (compute_statistics arctan2 circmean rad2deg fmod info w) = inr r)
  /\ (forall d fids n_d n_f,
        fst (compute_statistics arctan2 circmean rad2deg fmod info w) = inr (d, fids, n_d, n_f) ->
        (forall meas label col, In (meas, label, col) separation_fields ->
           let column := map col t in
           let vals := present column in
           (In (Str label) (index d)
            <-> Exists (fun r => F.notna (col r) = true) t)
           /\ (Exists (fun r => F.notna (col r) = true) t ->
               DataFrame.cell (Str label) "mean" d
               = Some (Str (F.format_3f (F.mean column) ++ pm
                              ++ F.format_3f (F.std column))%string)
               /\ F.mean column
                  = (F.np_sum (F.filled (fun v => v) column)
                     / F.of_nat (length vals))%float
               /\ F.std column
                  = (if length vals <=? 1 then nan
                     else PrimFloat.sqrt
                            (F.np_sum
                               (F.filled
                                  (fun v => ((F.mean column - v) * (F.mean column - v))%float)
                                  column)
                             / F.of_nat (length vals - 1))%float)
               /\ (length t < 8 \/ vals = column ->
                   F.mean column = Plain.mean vals /\ F.std column = Plain.std vals)
               /\ exists s,
                    Permutation s vals /\ Sorted FloatOrder.fle s
                    /\ DataFrame.cell (Str label) "median" d
                       = Some (Str (F.format_3f (middle s)))))
        /\ ((forall meas label col r,
               In (meas, label, col) separation_fields -> In r t ->
               F.isna (col r) = true) ->
            DataFrame.len d = 0)).
Proof.
  intros H. rewrite (call_run _ _ _ _ w info t H). cbn [fst]. split.
  - intros Ht. destruct (outcome_returns arctan2 circmean rad2deg fmod t Ht) as (n & E & _).
    rewrite E. eauto.
  - intros d fids n_d n_f E. apply outcome_inv in E. destruct E as (_ & -> & _).
    destruct (separation_table t) as [Rows Len]. split.
    + intros meas label col Hin. cbv zeta.
      set (column := map col t). set (vals := present column).
      destruct (Rows meas label col Hin) as [I C]. split; [exact I|].
      intros Hex. destruct (C Hex) as [Cm Cd].
      split; [exact Cm|]. split; [apply mean_count|]. split; [apply std_count|].
      split.
      * intros [Hs|Hf].
        -- assert (L : length column < 8) by (unfold column; now rewrite length_map).
           split; [now apply mean_short|now apply std_short].
        -- split; [now apply mean_full|now apply std_full].
      * destruct (median_middle column) as (s & P & S & M).
        exists s. split; [exact P|]. split; [exact S|].
        rewrite Cd. unfold median_cell. fold column. now rewrite M.
    + intros Hall. rewrite Len.
      assert (Hno : forall meas label col, In (meas, label, col) separation_fields ->
                      included (map col t) = false).
      { intros meas label col Hin.
        destruct (included (map col t)) eqn:E; [|reflexivity].
        unfold included in E. rewrite included_iff, present_map_exists in E.
        apply Exists_exists in E. destruct E as (r & Hr & Hn).
        unfold F.notna in Hn. rewrite (Hall meas label col r Hin Hr) in Hn. discriminate. }
      cbn [filter].
      rewrite (Hno "lr_dist" "P5 - P6" lr_dist), (Hno "tb_dist" "P7 - P8" tb_dist),
        (Hno "llur_dist" "P1 - P2" llur_dist), (Hno "ullr_dist" "P3 - P4" ullr_dist);
        unfold separation_fields; simpl; auto 6.
Qed.

(** C8.  A second call of [compute_statistics] on the same table, in the
    store the first call left behind, gives what the first call gave: the
    same two tables and the same two counts, or the same exception. *)
Theorem compute_statistics_repeatable (w : world) (info : loc) (t : table) :
  nth_error (heap w) info = Some (ODataFrame t) ->
  fst (compute_statistics arctan2 circmean rad2deg fmod info
         (snd (compute_statistics arctan2 circmean rad2deg fmod info w))) = fst (compute_statistics arctan2 circmean rad2deg fmod info w).
Proof.
  intros H.
  rewrite (call_run _ _ _ _ w info t H). cbn [snd fst].
  rewrite (call_run _ _ _ _ _ info t); [reflexivity|].
  cbn [heap]. now apply old_objects_stay.
Qed.

(** C6.  On a table in which every x and every y is missing, so that no
    observation is left after the pivoted rows without x and y are dropped,
    [compute_statistics] returns no marker table and a marker report count
    of 0.  (The rows are pivoted and dropped only when the table has a row:
    with none the concatenation has raised before.) *)
Theorem no_observations_no_markers (w : world) (info : loc) (t : table) :
  nth_error (heap w) info = Some (ODataFrame t) ->
  t <> [] ->
  forallb xy_missing t = true ->
  exists d n_d, fst (compute_statistics arctan2 circmean rad2deg fmod info w) = inr (d, None, n_d, 0%Z).
Proof.
  intros H Ht Hm. rewrite (call_run _ _ _ _ w info t H). cbn [fst].
  destruct (outcome_returns arctan2 circmean rad2deg fmod t Ht) as (n & E & Hn).
  rewrite (observations_none arctan2 t Hm) in E, Hn. cbn in E, Hn. subst n.
  rewrite E. eauto.
Qed.

(** C1, amended.  When an observation is left after the rows without x and
    y are dropped, the marker report count returned is the median, cut to
    its integer part, of the per-marker numbers of observations that have
    an x. *)
Theorem nrep_fids_truncated_x_median (w : world) (info : loc) (t : table) :
  nth_error (heap w) info = Some (ODataFrame t) ->
  (0 <? length (observations arctan2 t)) = true ->
  exists d f n_d q,
    fst (compute_statistics arctan2 circmean rad2deg fmod info w) = inr (d, Some f, n_d, Counts.trunc q)
    /\ Counts.median (x_counts (observations arctan2 t)) = Some q.
Proof.
  intros H Ho. rewrite (call_run _ _ _ _ w info t H). cbn [fst].
  assert (Ht : t <> []) by (intros ->; discriminate).
  destruct (outcome_returns arctan2 circmean rad2deg fmod t Ht) as (n & E & Hn).
  rewrite Ho in E, Hn. rewrite E.
  unfold nrep_fids_of in Hn. rewrite values_count_by_name in Hn.
  destruct (Counts.median (x_counts (observations arctan2 t))) as [q|]; [|discriminate].
  injection Hn as <-. eauto 6.
Qed.

(** C7.  A marker with exactly one observation in the whole table has, in
    the marker table returned, an x entry and a y entry that end in
    [" ± nan"]: the standard deviation of one value is NaN and is printed
    as it is. *)
Theorem single_observation_std_nan (w : world) (info : loc) (t : table) (k : string) :
  nth_error (heap w) info = Some (ODataFrame t) ->
  length (observations_of k (observations arctan2 t)) = 1 ->
  exists d f n_d n_f a b,
    fst (compute_statistics arctan2 circmean rad2deg fmod info w) = inr (d, Some f, n_d, n_f)
    /\ DataFrame.cell (Str k) "x" f = Some (Str (a ++ pm ++ "nan")%string)
    /\ DataFrame.cell (Str k) "y" f = Some (Str (b ++ pm ++ "nan")%string).
Proof.
  intros H Hk. rewrite (call_run _ _ _ _ w info t H). cbn [fst].
  assert (Hin : In k (map name (observations arctan2 t))).
  { unfold observations_of in Hk.
    destruct (filter _ (observations arctan2 t)) as [|o l] eqn:E; [discriminate|].
    assert (Ho : In o (filter (fun o => (name o =? k)%string) (observations arctan2 t)))
      by (rewrite E; now left).
    apply filter_In in Ho. destruct Ho as [Ho Hn]. apply String.eqb_eq in Hn. subst k.
    now apply in_map. }
  assert (Ho : (0 <? length (observations arctan2 t)) = true).
  { apply Nat.ltb_lt. destruct (observations arctan2 t); [destruct Hin|simpl; lia]. }
  assert (Ht : t <> []) by (intros ->; discriminate).
  destruct (outcome_returns arctan2 circmean rad2deg fmod t Ht) as (n & E & _).
  rewrite Ho in E. rewrite E.
  destruct (fids_cells circmean rad2deg fmod _ k _ (lookup_by_name k _ Hin))
    as (vx & vy & _ & _ & Cx & Cy).
  fold (observations_of k (observations arctan2 t)) in Cx, Cy.
  rewrite std_of_one in Cx, Cy by (rewrite length_map; lia).
  change (F.format_3f nan) with "nan" in Cx, Cy.
  eauto 10.
Qed.

(** C5, amended.  In the marker table returned, the x and y entries are
    printed from the recentred means.  When the least per-marker mean x is
    finite, the least recentred mean x is exactly zero; a marker whose mean
    y is finite and not below any other mean y has a recentred y of exactly
    zero. *)
Theorem recentred_means_zero (w : world) (info : loc) (t : table) d f n_d n_f :
  nth_error (heap w) info = Some (ODataFrame t) ->
  fst (compute_statistics arctan2 circmean rad2deg fmod info w) = inr (d, Some f, n_d, n_f) ->
  let g := GroupBy.by_name (observations arctan2 t) in
  let xraw := GroupBy.agg x GroupBy.mean g in
  let yraw := GroupBy.agg y GroupBy.mean g in
  (forall k v, Series.lookup k (xmean_of g) = Some v ->
     exists sd, DataFrame.cell (Str k) "x" f = Some (Str (F.format_3f v ++ pm ++ sd)%string))
  /\ (forall k v, Series.lookup k (ymean_of g) = Some v ->
        exists sd, DataFrame.cell (Str k) "y" f = Some (Str (F.format_3f v ++ pm ++ sd)%string))
  /\ (F.is_finite (F.min (Series.values xraw)) = true ->
      (F.min (Series.values (xmean_of g)) =? 0)%float = true)
  /\ (forall k v,
        Series.lookup k yraw = Some v -> F.is_finite v = true ->
        (forall v', In v' (Series.values yraw) -> F.isna v' = false ->
                    (v' <=? v)%float = true) ->
        exists v0, Series.lookup k (ymean_of g) = Some v0 /\ (v0 =? 0)%float = true).
Proof.
  intros H E g xraw yraw. 
  rewrite (call_run _ _ _ _ w info t H) in E. cbn [fst] in E.
  apply outcome_inv in E. destruct E as (_ & _ & _ & Ef & _).
  destruct (0 <? length (observations arctan2 t)); [|discriminate].
  injection Ef as ->. fold g.
  assert (Hrows : forall k (s : series float) v (col : obs -> float),
             Series.lookup k (GroupBy.agg col GroupBy.mean g) = Some v ->
             exists rows, Series.lookup k g = Some rows).
  { intros k s v col L. rewrite lookup_agg in L.
    destruct (Series.lookup k g) as [rows|]; [eauto|discriminate]. }
  repeat split.
  - intros k v L.
    assert (exists rows, Series.lookup k g = Some rows) as [rows Hr].
    { unfold xmean_of, recentre in L. rewrite lookup_apply in L.
      destruct (Series.lookup k (GroupBy.agg x GroupBy.mean g)) eqn:L'; [|discriminate].
      eapply (Hrows k [] _ x); eauto. }
    destruct (fids_cells circmean rad2deg fmod g k rows Hr) as (vx & vy & Lx & _ & Cx & _).
    rewrite L in Lx. injection Lx as <-. eauto.
  - intros k v L.
    assert (exists rows, Series.lookup k g = Some rows) as [rows Hr].
    { unfold ymean_of, flip_recentre in L. rewrite !lookup_apply in L.
      destruct (Series.lookup k (GroupBy.agg y GroupBy.mean g)) eqn:L'; [|discriminate].
      eapply (Hrows k [] _ y); eauto. }
    destruct (fids_cells circmean rad2deg fmod g k rows Hr) as (vx & vy & _ & Ly & _ & Cy).
    rewrite L in Ly. injection Ly as <-. eauto.
  - intros Hf. unfold xmean_of, recentre. rewrite values_apply.
    apply FloatFacts.min_recentred. exact Hf.
  - intros k v L Hf Hmax.
    unfold ymean_of, flip_recentre. fold yraw.
    rewrite !lookup_apply, L. cbn [option_map]. eexists. split; [reflexivity|].
    rewrite values_apply.
    apply FloatFacts.max_flipped; auto.
    eapply lookup_in; eauto.
Qed.

End Claims.

Section Printing.

Variable arctan2 : float -> float -> float.
Variable circmean : list float -> float.
Variable rad2deg : float -> float.
Variable fmod : float -> float -> float.
Variable to_markdown : frame -> string.

Local Abbreviation show := (nice_table arctan2 circmean rad2deg fmod to_markdown).

(** C9.  [compute_statistics] and [nice_table] leave the table they are
    given unchanged: after the call, returned or raised, the object at its
    address is the same table, row for row and field for field. *)
Theorem input_table_unchanged (w : world) (info : loc) (t : table) :
  nth_error (heap w) info = Some (ODataFrame t) ->
  nth_error (heap (snd (compute_statistics arctan2 circmean rad2deg fmod info w))) info = Some (ODataFrame t)
  /\ nth_error (heap (snd (nice_table arctan2 circmean rad2deg fmod to_markdown info w))) info = Some (ODataFrame t).
Proof.
  intros H.
  rewrite (call_run _ _ _ _ w info t H), (nice_table_run _ _ _ _ _ w info t H).
  split.
  - now apply old_objects_stay.
  - destruct (outcome _ _ _ _ t); now apply old_objects_stay.
Qed.

(** C10.  Whenever [nice_table] completes, the text it printed is the
    rendering of what [compute_statistics] returned with each colon turned
    into a hyphen and nothing else changed, followed by the end of line: it
    has no colon in it.  It completes on every table with at least one
    row. *)
Theorem printed_text_no_colon (w : world) (info : loc) (t : table) :
  nth_error (heap w) info = Some (ODataFrame t) ->
  (t <> [] -> fst (nice_table arctan2 circmean rad2deg fmod to_markdown info w) = inr tt)
  /\ (fst (nice_table arctan2 circmean rad2deg fmod to_markdown info w) = inr tt ->
      exists r text,
        fst (compute_statistics arctan2 circmean rad2deg fmod info w) = inr r
        /\ text = Str.replace ":" "-" (rendered to_markdown r)
        /\ stdout (snd (nice_table arctan2 circmean rad2deg fmod to_markdown info w)) = (stdout w ++ text ++ Py.newline)%string
        /\ list_ascii_of_string text
           = map (fun c => if Ascii.eqb c ":" then "-"%char else c)
               (list_ascii_of_string (rendered to_markdown r))
        /\ Forall (fun c => c <> ":"%char)
             (list_ascii_of_string (text ++ Py.newline)%string)).
Proof.
  intros H.
  rewrite (nice_table_run _ _ _ _ _ w info t H), (call_run _ _ _ _ w info t H).
  cbn [fst]. split.
  - intros Ht. destruct (outcome_returns arctan2 circmean rad2deg fmod t Ht) as (n & E & _).
    now rewrite E.
  - destruct (outcome _ _ _ _ t) as [e|r]; cbn [fst snd stdout]; [discriminate|].
    intros _. exists r. eexists. split; [reflexivity|]. split; [reflexivity|].
    split; [reflexivity|]. split; [apply replace_colon_chars|].
    apply no_colon_app; [apply replace_no_colon|].
    repeat constructor. discriminate.
Qed.

End Printing.

Section Example.

Variable arctan2 : float -> float -> float.
Variable circmean : list float -> float.
Variable rad2deg : float -> float.
Variable fmod : float -> float -> float.

(** C2.  On the table of the worked example [compute_statistics] returns the
    separation table with the single row [P5 - P6], mean [3.000 ± 1.414]
    and median [3.000], a separation report count of 2, and a marker table
    whose rows are P1 and P2 and no other (its report count is 1). *)
Theorem worked_example (w : world) (info : loc) :
  nth_error (heap w) info = Some (ODataFrame example_table) ->
  exists f,
    fst (compute_statistics arctan2 circmean rad2deg fmod info w)
    = inr (example_dists, Some f, 2%Z, 1%Z)
    /\ index f = [Str "P1"; Str "P2"].
Proof.
  intros H. rewrite (call_run _ _ _ _ w info _ H). cbn [fst].
  exists (fids_of circmean rad2deg fmod (GroupBy.by_name (observations arctan2 example_table))).
  split.
  - destruct (outcome_returns arctan2 circmean rad2deg fmod example_table)
      as (n & E & Hn); [discriminate|].
    rewrite E. clear E.
    change (0 <? length (observations arctan2 example_table)) with true in *.
    cbv iota in Hn |- *.
    assert (n = 1%Z) as -> by (vm_compute in Hn; congruence).
    repeat f_equal; vm_compute; reflexivity.
  - vm_compute. reflexivity.
Qed.

End Example.

(** ** Tables on which a property as stated fails *)

(** C1 as stated fails.  With one report in which only the y of P1 was
    measured, one observation is left, the count returned is 0, and the
    rounded median of the per-marker observation counts is 1.  With P1
    seen once and P2 twice, the count returned is 1 and the rounded median
    is 2. *)
Lemma nrep_fids_not_rounded_observation_median :
  (forall a, length (observations a y_only_table) = 1)
  /\ (forall a c r f,
        returned_nrep_fids (fst (compute_statistics a c r f 0 (world_of y_only_table)))
        = Some 0%Z)
  /\ (forall a,
        option_map Counts.round
          (Counts.median (observation_counts (observations a y_only_table)))
        = Some 1%Z)
  /\ (forall a c r f,
        returned_nrep_fids (fst (compute_statistics a c r f 0 (world_of uneven_table)))
        = Some 1%Z)
  /\ (forall a,
        option_map Counts.round
          (Counts.median (observation_counts (observations a uneven_table)))
        = Some 2%Z).
Proof.
  split; [|split; [|split; [|split]]]; intros; vm_compute; reflexivity.
Qed.

(** C5 as stated fails.  With one report in which only the y of P1 was
    measured, the marker table is returned with the entry [nan ± nan] for
    the x of P1: the least recentred mean x is NaN, not zero.  It is NaN
    too when the only mean x is infinite. *)
Lemma recentred_x_min_nan :
  (forall a c r f,
     exists fr,
       returned_fids (fst (compute_statistics a c r f 0 (world_of y_only_table)))
       = Some (Some fr)
       /\ DataFrame.cell (Str "P1") "x" fr = Some (Str "nan ± nan"))
  /\ (forall a,
        F.isna (F.min (Series.values
                         (xmean_of (GroupBy.by_name (observations a y_only_table)))))
        = true)
  /\ (forall a,
        (F.min (Series.values
                  (xmean_of (GroupBy.by_name (observations a y_only_table)))) =? 0)%float
        = false)
  /\ (forall a,
        (F.min (Series.values
                  (xmean_of (GroupBy.by_name (observations a infinite_x_table)))) =? 0)%float
        = false).
Proof.
  split; [|split; [|split]]; intros.
  - rewrite (call_run a c r f (world_of y_only_table) 0 y_only_table eq_refl). cbn [fst].
    exists (fids_of c r f (GroupBy.by_name (observations a y_only_table))).
    split; vm_compute; reflexivity.
  - vm_compute. reflexivity.
  - vm_compute. reflexivity.
  - vm_compute. reflexivity.
Qed.

(** C3 as stated fails.  The two tables hold the same eight separations of
    P5 and P6, in the same order, and one report without any: the first
    report in one table, the last in the other.  The values present are the
    same, and so is their mean, 0.588; the mean in the row returned is
    0.587 in one table and 0.588 in the other, as the zero that stands for
    the missing value takes another place in the sum. *)
Lemma mean_moves_with_missing_report :
  present (map lr_dist blank_first_table) = present (map lr_dist blank_last_table)
  /\ F.format_3f (Plain.mean (present (map lr_dist blank_first_table))) = "0.588"
  /\ (forall a c r f,
        option_map (DataFrame.cell (Str "P5 - P6") "mean")
          (returned_dists (fst (compute_statistics a c r f 0 (world_of blank_first_table))))
        = Some (Some (Str "0.587 ± 0.181")))
  /\ (forall a c r f,
        option_map (DataFrame.cell (Str "P5 - P6") "mean")
          (returned_dists (fst (compute_statistics a c r f 0 (world_of blank_last_table))))
        = Some (Some (Str "0.588 ± 0.181"))).
Proof.
  split; [reflexivity|]. split; [vm_compute; reflexivity|].
  split; intros; vm_compute; reflexivity.
Qed.

(** ** The theorems on the sample tables *)

Lemma nrep_fids_truncated_x_median_witness :
  exists d f n_d q,
    fst (Sample.call 0 (world_of uneven_table)) = inr (d, Some f, n_d, Counts.trunc q)
    /\ Counts.median (x_counts (observations Sample.arctan2 uneven_table)) = Some q.
Proof.
  apply (nrep_fids_truncated_x_median Sample.arctan2 Sample.circmean Sample.rad2deg
           Sample.fmod (world_of uneven_table) 0 uneven_table);
    [reflexivity | vm_compute; reflexivity].
Defined.

Lemma worked_example_witness :
  exists f,
    fst (Sample.call 0 (world_of example_table)) = inr (example_dists, Some f, 2%Z, 1%Z)
    /\ index f = [Str "P1"; Str "P2"].
Proof.
  apply (worked_example Sample.arctan2 Sample.circmean Sample.rad2deg Sample.fmod
           (world_of example_table) 0).
  reflexivity.
Defined.

Lemma separation_rows_witness :
  exists d fids n_d n_f,
    fst (Sample.call 0 (world_of example_table)) = inr (d, fids, n_d, n_f)
    /\ In (Str "P5 - P6") (index d)
    /\ DataFrame.cell (Str "P5 - P6") "mean" d
       = Some (Str (F.format_3f (Plain.mean (present (map lr_dist example_table))) ++ pm
                      ++ F.format_3f (Plain.std (present (map lr_dist example_table))))%string)
    /\ exists s,
         Permutation s (present (map lr_dist example_table))
         /\ Sorted FloatOrder.fle s
         /\ DataFrame.cell (Str "P5 - P6") "median" d
            = Some (Str (F.format_3f (middle s))).
Proof.
  destruct (separation_rows Sample.arctan2 Sample.circmean Sample.rad2deg Sample.fmod
              (world_of example_table) 0 example_table eq_refl) as [Hret Hrows].
  destruct (Hret ltac:(discriminate)) as [[[[d f] n_d] n_f] E].
  exists d, f, n_d, n_f. split; [exact E|].
  destruct (Hrows d f n_d n_f E) as [R _].
  destruct (R "lr_dist" "P5 - P6" lr_dist (or_introl eq_refl)) as [I C].
  assert (X : Exists (fun r => F.notna (lr_dist r) = true) example_table)
    by (apply Exists_cons_hd; reflexivity).
  destruct (C X) as (Cm & _ & _ & Short & Med).
  assert (L : length example_table < 8) by (cbn; lia).
  destruct (Short (or_introl L)) as [M S].
  split; [apply I, X|]. split; [|exact Med].
  rewrite Cm, M, S. reflexivity.
Defined.

Lemma nrep_dists_row_count_witness :
  exists d fids n_f,
    fst (Sample.call 0 (world_of example_table)) = inr (d, fids, 2%Z, n_f).
Proof.
  destruct (nrep_dists_row_count Sample.arctan2 Sample.circmean Sample.rad2deg Sample.fmod
              (world_of example_table) 0 example_table eq_refl) as [Hret Hn].
  destruct (Hret ltac:(discriminate)) as [[[[d f] n_d] n_f] E].
  exists d, f, n_f. unfold Sample.call. rewrite E, (Hn d f n_d n_f E). reflexivity.
Defined.

Lemma recentred_means_zero_witness :
  (F.min (Series.values
            (xmean_of (GroupBy.by_name (observations Sample.arctan2 example_table)))) =? 0)%float
  = true
  /\ exists v0,
       Series.lookup "P2"
         (ymean_of (GroupBy.by_name (observations Sample.arctan2 example_table)))
       = Some v0
       /\ (v0 =? 0)%float = true.
Proof.
  assert (E : fst (compute_statistics Sample.arctan2 Sample.circmean Sample.rad2deg
                     Sample.fmod 0 (world_of example_table))
              = inr (example_dists,
                     Some (fids_of Sample.circmean Sample.rad2deg Sample.fmod
                             (GroupBy.by_name (observations Sample.arctan2 example_table))),
                     2%Z, 1%Z))
    by (vm_compute; reflexivity).
  destruct (recentred_means_zero Sample.arctan2 Sample.circmean Sample.rad2deg Sample.fmod
              (world_of example_table) 0 example_table _ _ _ _ eq_refl E)
    as (_ & _ & HX & HY).
  split.
  - apply HX. vm_compute. reflexivity.
  - apply (HY "P2" 1%float); [vm_compute; reflexivity | vm_compute; reflexivity |].
    intros v' Hin _. vm_compute in Hin.
    destruct Hin as [<-|[<-|[]]]; reflexivity.
Defined.

Lemma no_observations_no_markers_witness :
  exists d n_d, fst (Sample.call 0 (world_of [blank])) = inr (d, None, n_d, 0%Z).
Proof.
  apply (no_observations_no_markers Sample.arctan2 Sample.circmean Sample.rad2deg
           Sample.fmod (world_of [blank]) 0 [blank]);
    [reflexivity | discriminate | reflexivity].
Defined.

Lemma single_observation_std_nan_witness :
  exists d f n_d n_f a b,
    fst (Sample.call 0 (world_of example_table)) = inr (d, Some f, n_d, n_f)
    /\ DataFrame.cell (Str "P1") "x" f = Some (Str (a ++ pm ++ "nan")%string)
    /\ DataFrame.cell (Str "P1") "y" f = Some (Str (b ++ pm ++ "nan")%string).
Proof.
  apply (single_observation_std_nan Sample.arctan2 Sample.circmean Sample.rad2deg
           Sample.fmod (world_of example_table) 0 example_table "P1");
    [reflexivity | vm_compute; reflexivity].
Defined.

Lemma compute_statistics_repeatable_witness :
  fst (Sample.call 0 (snd (Sample.call 0 (world_of example_table))))
  = fst (Sample.call 0 (world_of example_table)).
Proof.
  apply (compute_statistics_repeatable Sample.arctan2 Sample.circmean Sample.rad2deg
           Sample.fmod (world_of example_table) 0 example_table).
  reflexivity.
Defined.

Lemma input_table_unchanged_witness :
  nth_error (heap (snd (Sample.call 0 (world_of example_table)))) 0
  = Some (ODataFrame example_table)
  /\ nth_error (heap (snd (Sample.print_tables 0 (world_of example_table)))) 0
     = Some (ODataFrame example_table).
Proof.
  apply (input_table_unchanged Sample.arctan2 Sample.circmean Sample.rad2deg Sample.fmod
           Sample.to_markdown (world_of example_table) 0 example_table).
  reflexivity.
Defined.

Lemma printed_text_no_colon_witness :
  fst (Sample.print_tables 0 (world_of example_table)) = inr tt
  /\ exists r text,
       fst (Sample.call 0 (world_of example_table)) = inr r
       /\ text = Str.replace ":" "-" (rendered Sample.to_markdown r)
       /\ stdout (snd (Sample.print_tables 0 (world_of example_table)))
          = ("" ++ text ++ Py.newline)%string
       /\ list_ascii_of_string text
          = map (fun c => if Ascii.eqb c ":" then "-"%char else c)
              (list_ascii_of_string (rendered Sample.to_markdown r))
       /\ Forall (fun c => c <> ":"%char)
            (list_ascii_of_string (text ++ Py.newline)%string).
Proof.
  destruct (printed_text_no_colon Sample.arctan2 Sample.circmean Sample.rad2deg Sample.fmod
              Sample.to_markdown (world_of example_table) 0 example_table eq_refl)
    as [Hret Htext].
  assert (R := Hret ltac:(discriminate)).
  split; [exact R|exact (Htext R)].
Defined.

(** * Further properties of the four functions *)

(** ** Markers and their observations *)

Lemma filter_swap {A} (f g : A -> bool) l :
  filter f (filter g l) = filter g (filter f l).
Proof.
  induction l as [|a l IH]; [reflexivity|]. simpl.
  destruct (f a) eqn:Ef, (g a) eqn:Eg; simpl; rewrite ?Ef, ?Eg, IH; reflexivity.
Qed.

Lemma key_compare_refl a : String.compare a a = Eq.
Proof.
  pose proof (String.compare_antisym a a) as H.
  destruct (String.compare a a); [reflexivity|discriminate|discriminate].
Qed.

Lemma key_lt_gt a b : key_lt a b -> String.compare b a = Gt.
Proof. unfold key_lt. intros H. rewrite String.compare_antisym, H. reflexivity. Qed.

Lemma key_lt_neq a b : key_lt a b -> (b =? a)%string = false.
Proof.
  intros H. apply String.eqb_neq. intros ->.
  unfold key_lt in H. rewrite key_compare_refl in H. discriminate.
Qed.

Lemma insert_key_below k l :
  Forall (key_lt k) l -> GroupBy.insert_key k l = k :: l.
Proof.
  destruct l as [|a l]; [reflexivity|]. intros H. inversion H as [|? ? Ha _]; subst.
  cbn [GroupBy.insert_key]. unfold key_lt in Ha. now rewrite Ha.
Qed.

Lemma filter_drop_key (p : string -> bool) k l :
  Forall (key_lt k) l ->
  filter (fun k' => (k' =? k)%string || p k') l = filter p l.
Proof.
  induction 1 as [|a l Ha Hl IH]; [reflexivity|].
  cbn [filter]. now rewrite (key_lt_neq k a Ha), IH.
Qed.

(** Inserting a name of an ascending list among those of its names that
    [p] selects gives the names selected by [p] together with the new one. *)
Lemma insert_key_select (p : string -> bool) k names :
  ascending names ->
  In k names ->
  GroupBy.insert_key k (filter p names)
  = filter (fun k' => (k' =? k)%string || p k') names.
Proof.
  induction names as [|a names IH]; intros Hs Hin; [destruct Hin|].
  destruct Hs as [Ha Hs]. cbn [filter]. destruct Hin as [->|Hin].
  - rewrite String.eqb_refl. cbn [orb]. rewrite (filter_drop_key p k names Ha).
    destruct (p k).
    + cbn [GroupBy.insert_key]. now rewrite key_compare_refl.
    + apply insert_key_below.
      apply Forall_forall. intros b Hb. apply filter_In in Hb.
      rewrite Forall_forall in Ha. now apply Ha.
  - assert (Hak : key_lt a k) by (rewrite Forall_forall in Ha; now apply Ha).
    rewrite String.eqb_sym, (key_lt_neq a k Hak). cbn [orb].
    destruct (p a).
    + cbn [GroupBy.insert_key]. rewrite (key_lt_gt a k Hak). now rewrite IH.
    + now apply IH.
Qed.

Lemma fid_names_ascending : ascending fid_names.
Proof. cbn. repeat split; repeat constructor. Qed.

(** The keys of a list of marker names are the marker names that occur in
    it, in the order P1 to P8. *)
Lemma keys_select (l : list string) :
  Forall (fun k => In k fid_names) l ->
  fold_right GroupBy.insert_key [] l
  = filter (fun k' => existsb (fun k => (k' =? k)%string) l) fid_names.
Proof.
  induction 1 as [|k l Hk Hl IH].
  - reflexivity.
  - cbn [fold_right existsb]. rewrite IH.
    now apply insert_key_select; [apply fid_names_ascending|].
Qed.

Section Markers.

Variable arctan2 : float -> float -> float.

Lemma observations_cons r (t : table) :
  observations arctan2 (r :: t) = dropna_xy (pivot arctan2 r) ++ observations arctan2 t.
Proof. unfold observations, dropna_xy. cbn [flat_map]. apply filter_app. Qed.

Lemma observations_app (t u : table) :
  observations arctan2 (t ++ u) = observations arctan2 t ++ observations arctan2 u.
Proof.
  unfold observations, dropna_xy. now rewrite flat_map_app, filter_app.
Qed.

(** The rows one report gives for a marker. *)
Lemma pivot_of_marker k cx cy r :
  In (k, cx, cy) marker_columns ->
  observations_of k (dropna_xy (pivot arctan2 r))
  = if seen cx cy r then [Obs k (cx r) (cy r) (arctan2 (cy r) (cx r))] else [].
Proof.
  intros H. unfold observations_of, dropna_xy. rewrite filter_swap.
  unfold marker_columns in H. simpl in H.
  repeat destruct H as [H|H]; try contradiction; injection H as <- <- <-;
    reflexivity.
Qed.

(** The observations of a marker are the reports that have its x or its y,
    in the order of the table. *)
Lemma observations_of_marker k cx cy (t : table) :
  In (k, cx, cy) marker_columns ->
  observations_of k (observations arctan2 t)
  = map (fun r => Obs k (cx r) (cy r) (arctan2 (cy r) (cx r))) (filter (seen cx cy) t).
Proof.
  intros H. induction t as [|r t IH]; [reflexivity|].
  rewrite observations_cons. unfold observations_of in *. rewrite filter_app.
  fold (observations_of k (dropna_xy (pivot arctan2 r))).
  rewrite (pivot_of_marker k cx cy r H), IH. cbn [filter].
  destruct (seen cx cy r); reflexivity.
Qed.

(** Every observation carries one of the eight names. *)
Lemma observation_names (t : table) :
  Forall (fun k => In k fid_names) (map name (observations arctan2 t)).
Proof.
  apply Forall_forall. intros k Hk. apply in_map_iff in Hk.
  destruct Hk as [o [<- Ho]]. unfold observations, dropna_xy in Ho.
  apply filter_In in Ho. destruct Ho as [Ho _]. apply in_flat_map in Ho.
  destruct Ho as [r [_ Ho]]. cbn in Ho.
  repeat destruct Ho as [Ho|Ho]; try contradiction; subst o; cbn; tauto.
Qed.

Lemma name_occurs k (rows : list obs) :
  existsb (fun k' => (k =? k')%string) (map name rows)
  = negb (length (observations_of k rows) =? 0).
Proof.
  induction rows as [|o rows IH]; [reflexivity|].
  cbn [map existsb observations_of filter]. fold (observations_of k rows).
  rewrite IH, String.eqb_sym. destruct (name o =? k)%string; reflexivity.
Qed.

Lemma seen_occurs cx cy (t : table) :
  negb (length (filter (seen cx cy) t) =? 0) = existsb (seen cx cy) t.
Proof.
  induction t as [|r t IH]; [reflexivity|]. cbn [filter existsb].
  destruct (seen cx cy r); [reflexivity|exact IH].
Qed.

(** The group keys of a table are the markers seen in it. *)
Lemma keys_markers_seen (t : table) :
  GroupBy.keys (observations arctan2 t) = markers_seen t.
Proof.
  unfold GroupBy.keys. rewrite (keys_select _ (observation_names t)).
  unfold markers_seen, fid_names.
  assert (H : forall ms, (forall m, In m ms -> In m marker_columns) ->
    filter (fun k' => existsb (fun k => (k' =? k)%string)
                        (map name (observations arctan2 t)))
      (map (fun m => fst (fst m)) ms)
    = map (fun m => fst (fst m))
        (filter (fun m => existsb (seen (snd (fst m)) (snd m)) t) ms)).
  { induction ms as [|[[k cx] cy] ms IH]; intros Hin; [reflexivity|].
    cbn [map filter fst snd]. rewrite IH by (intros m Hm; apply Hin; now right).
    rewrite name_occurs, (observations_of_marker k cx cy t) by (apply Hin; now left).
    rewrite length_map, seen_occurs.
    destruct (existsb (seen cx cy) t); reflexivity. }
  apply H. auto.
Qed.

End Markers.

(** ** The groups, by the columns of the input table *)

Lemma present_seen_x cx cy (t : table) :
  present (map cx (filter (seen cx cy) t)) = present (map cx t).
Proof.
  unfold present, seen, F.notna. induction t as [|r t IH]; [reflexivity|].
  cbn [filter map]. destruct (F.isna (cx r)) eqn:Ex, (F.isna (cy r)) eqn:Ey;
    cbn [negb andb filter map]; rewrite ?Ex; cbn [negb]; now rewrite IH.
Qed.

Lemma present_seen_y cx cy (t : table) :
  present (map cy (filter (seen cx cy) t)) = present (map cy t).
Proof.
  unfold present, seen, F.notna. induction t as [|r t IH]; [reflexivity|].
  cbn [filter map]. destruct (F.isna (cx r)) eqn:Ex, (F.isna (cy r)) eqn:Ey;
    cbn [negb andb filter map]; rewrite ?Ey; cbn [negb]; now rewrite IH.
Qed.

Lemma columns_seen_in m (t : table) :
  In m (columns_seen t)
  <-> In m marker_columns /\ existsb (seen (snd (fst m)) (snd m)) t = true.
Proof. unfold columns_seen. apply filter_In. Qed.

Section Groups.

Variable arctan2 : float -> float -> float.

(** One group per marker seen, holding the reports that have its x or y. *)
Lemma by_name_markers (t : table) :
  GroupBy.by_name (observations arctan2 t)
  = map (fun m => (fst (fst m), rows_of arctan2 m t)) (columns_seen t).
Proof.
  unfold GroupBy.by_name. rewrite keys_markers_seen. unfold markers_seen.
  rewrite map_map. apply map_ext_in. intros [[k cx] cy] Hm.
  apply columns_seen_in in Hm. destruct Hm as [Hm _]. cbn [fst snd].
  f_equal. exact (observations_of_marker arctan2 k cx cy t Hm).
Qed.

Lemma marker_names_differ k cx cy cx' cy' :
  In (k, cx, cy) marker_columns -> In (k, cx', cy') marker_columns ->
  cx = cx' /\ cy = cy'.
Proof.
  unfold marker_columns. cbn [In]. intros H H'.
  repeat destruct H as [H|H]; try contradiction; injection H as <- <- <-;
    repeat destruct H' as [H'|H']; try contradiction; try discriminate;
    injection H' as <- <-; split; reflexivity.
Qed.

Lemma lookup_marker {A} (f : string * (report -> float) * (report -> float) -> A)
    k cx cy ms :
  (forall m, In m ms -> In m marker_columns) ->
  In (k, cx, cy) ms ->
  Series.lookup k (map (fun m => (fst (fst m), f m)) ms) = Some (f (k, cx, cy)).
Proof.
  induction ms as [|[[k' cx'] cy'] ms IH]; intros Hms Hin; [destruct Hin|].
  cbn [map fst snd]. rewrite lookup_cons.
  destruct (k' =? k)%string eqn:E.
  - apply String.eqb_eq in E. subst k'.
    destruct (marker_names_differ k cx cy cx' cy') as [-> ->].
    + apply Hms. destruct Hin as [Hin|Hin]; [left; exact Hin|now right].
    + apply Hms. now left.
    + reflexivity.
  - apply IH.
    + intros m Hm. apply Hms. now right.
    + destruct Hin as [Hin|Hin]; [|exact Hin].
      injection Hin as -> _ _. now rewrite String.eqb_refl in E.
Qed.

Lemma lookup_group k cx cy (t : table) :
  In (k, cx, cy) marker_columns ->
  existsb (seen cx cy) t = true ->
  Series.lookup k (GroupBy.by_name (observations arctan2 t))
  = Some (rows_of arctan2 (k, cx, cy) t).
Proof.
  intros Hm Hs. rewrite by_name_markers.
  apply (lookup_marker (fun m => rows_of arctan2 m t)).
  - intros m H. now apply columns_seen_in in H.
  - apply columns_seen_in. now split.
Qed.

Lemma rows_x m (t : table) :
  map x (rows_of arctan2 m t) = map (snd (fst m)) (filter (seen (snd (fst m)) (snd m)) t).
Proof. unfold rows_of. rewrite map_map. reflexivity. Qed.

Lemma rows_y m (t : table) :
  map y (rows_of arctan2 m t) = map (snd m) (filter (seen (snd (fst m)) (snd m)) t).
Proof. unfold rows_of. rewrite map_map. reflexivity. Qed.

Lemma rows_angle m (t : table) :
  map angle (rows_of arctan2 m t)
  = map (fun r => arctan2 (snd m r) (snd (fst m) r))
      (filter (seen (snd (fst m)) (snd m)) t).
Proof. unfold rows_of. rewrite map_map. reflexivity. Qed.

(** The rows dropped for lacking both x and y carry nothing the grouped
    statistics would count: per marker they are those of its column. *)
Lemma mean_rows_x m (t : table) :
  GroupBy.mean (map x (rows_of arctan2 m t)) = GroupBy.mean (map (snd (fst m)) t).
Proof.
  rewrite rows_x, group_mean_present, (group_mean_present (map (snd (fst m)) t)).
  now rewrite present_seen_x.
Qed.

Lemma mean_rows_y m (t : table) :
  GroupBy.mean (map y (rows_of arctan2 m t)) = GroupBy.mean (map (snd m) t).
Proof.
  rewrite rows_y, group_mean_present, (group_mean_present (map (snd m) t)).
  now rewrite present_seen_y.
Qed.

Lemma std_rows_x m (t : table) :
  GroupBy.std (map x (rows_of arctan2 m t)) = GroupBy.std (map (snd (fst m)) t).
Proof.
  rewrite rows_x, group_std_present, (group_std_present (map (snd (fst m)) t)).
  now rewrite present_seen_x.
Qed.

Lemma std_rows_y m (t : table) :
  GroupBy.std (map y (rows_of arctan2 m t)) = GroupBy.std (map (snd m) t).
Proof.
  rewrite rows_y, group_std_present, (group_std_present (map (snd m) t)).
  now rewrite present_seen_y.
Qed.

Lemma count_rows_x m (t : table) :
  F.count (map x (rows_of arctan2 m t)) = F.count (map (snd (fst m)) t).
Proof. now rewrite rows_x, !count_present, present_seen_x. Qed.

Lemma x_means (t : table) :
  Series.values (GroupBy.agg x GroupBy.mean (GroupBy.by_name (observations arctan2 t)))
  = map (fun m => GroupBy.mean (map (snd (fst m)) t)) (columns_seen t).
Proof.
  rewrite by_name_markers. unfold Series.values, GroupBy.agg. rewrite !map_map.
  apply map_ext. intros m. cbn [fst snd]. apply mean_rows_x.
Qed.

Lemma y_means_flipped (t : table) :
  Series.values (Series.apply (fun v => (- v)%float)
                   (GroupBy.agg y GroupBy.mean (GroupBy.by_name (observations arctan2 t))))
  = map (fun m => (- GroupBy.mean (map (snd m) t))%float) (columns_seen t).
Proof.
  rewrite by_name_markers. unfold Series.values, Series.apply, GroupBy.agg.
  rewrite !map_map. apply map_ext. intros m. cbn [fst snd]. now rewrite mean_rows_y.
Qed.

Lemma x_counts_columns (t : table) :
  x_counts (observations arctan2 t)
  = map (fun m => F.count (map (snd (fst m)) t)) (columns_seen t).
Proof.
  rewrite <- values_count_by_name, by_name_markers.
  unfold Series.values, GroupBy.agg. rewrite !map_map.
  apply map_ext. intros m. cbn [fst snd]. apply count_rows_x.
Qed.

Lemma observations_seen (t : table) :
  (0 <? length (observations arctan2 t)) = negb (length (columns_seen t) =? 0).
Proof.
  destruct (observations arctan2 t) as [|o rows] eqn:E.
  - pose proof (keys_markers_seen arctan2 t) as K. rewrite E in K.
    unfold markers_seen in K. change (GroupBy.keys []) with (@nil string) in K.
    destruct (columns_seen t); [reflexivity|discriminate K].
  - pose proof (keys_markers_seen arctan2 t) as K. rewrite E in K.
    destruct (columns_seen t) eqn:C; [|reflexivity].
    unfold markers_seen in K. rewrite C in K. apply keys_nil in K. discriminate K.
Qed.

End Groups.

(** ** The layout of the two tables *)

Lemma dists_layout (t : table) : relabelled (raw_dists t) = dists_of t.
Proof.
  rewrite raw_dists_turns, turns_rows, relabelled_rows.
  2:{ unfold row_if.
      repeat (apply Forall_app; split);
        match goal with |- Forall _ (if ?b then _ else _) => destruct b end;
        constructor; try constructor; try split;
        first [ apply mean_pm_kept | apply format_3f_kept ]. }
  unfold dists_of, separation_fields. cbn [flat_map fst snd].
  rewrite app_nil_r, !map_app. unfold row_if.
  destruct (included (map lr_dist t)), (included (map tb_dist t)),
    (included (map llur_dist t)), (included (map ullr_dist t)); reflexivity.
Qed.

Section Layout.

Variable circmean : list float -> float.
Variable rad2deg : float -> float.
Variable fmod : float -> float -> float.

Lemma fids_frame g :
  g <> [] ->
  let sx := mean_pm_std (xmean_of g) (GroupBy.agg x GroupBy.std g) in
  let sy := mean_pm_std (ymean_of g) (GroupBy.agg y GroupBy.std g) in
  let sa := Series.apply (fun s => Str (F.format_3f s))
              (Series.apply (fun a => fmod (rad2deg a) 360%float)
                 (GroupBy.agg angle circmean g)) in
  let idx := map (fun p => Str (fst p)) sx in
  fids_of circmean rad2deg fmod g
  = Frame (Some "name") idx
      [("x", map snd sx); ("y", DataFrame.align idx sy); ("angle", DataFrame.align idx sa)].
Proof.
  intros Hg. destruct g as [|p g]; [congruence|reflexivity].
Qed.

Lemma length_mean_pm_std (a b : series float) : length (mean_pm_std a b) = length a.
Proof.
  unfold mean_pm_std, Series.add, Series.apply. now rewrite !length_map.
Qed.

Lemma fids_layout g :
  g <> [] ->
  index_name (fids_of circmean rad2deg fmod g) = Some "name"
  /\ index (fids_of circmean rad2deg fmod g) = map Str (map fst g)
  /\ map fst (columns (fids_of circmean rad2deg fmod g)) = ["x"; "y"; "angle"]
  /\ Forall (fun c => length (snd c) = length g) (columns (fids_of circmean rad2deg fmod g)).
Proof.
  intros Hg. rewrite (fids_frame g Hg). cbn [index_name index columns map fst].
  assert (L : length (xmean_of g) = length g).
  { unfold xmean_of, recentre, Series.apply, GroupBy.agg. now rewrite !length_map. }
  split; [reflexivity|]. split.
  - rewrite <- (map_map fst Str), keys_mean_pm_std.
    unfold xmean_of, recentre. now rewrite keys_apply, keys_agg.
  - split; [reflexivity|].
    apply Forall_cons; [|apply Forall_cons; [|apply Forall_cons; [|apply Forall_nil]]];
      cbn [snd]; unfold DataFrame.align; now rewrite !length_map, length_mean_pm_std.
Qed.

(** A marker's angle entry: the circular mean of its angles, in degrees,
    reduced modulo 360 and formatted. *)
Lemma fids_angle_cell g k rows :
  Series.lookup k g = Some rows ->
  DataFrame.cell (Str k) "angle" (fids_of circmean rad2deg fmod g)
  = Some (Str (F.format_3f (fmod (rad2deg (circmean (map angle rows))) 360%float))).
Proof.
  intros Hk.
  assert (Hg : g <> []) by (intros ->; discriminate).
  assert (Hin : In k (map fst (mean_pm_std (xmean_of g) (GroupBy.agg x GroupBy.std g)))).
  { rewrite keys_mean_pm_std. unfold xmean_of, recentre.
    rewrite keys_apply, keys_agg. eapply lookup_some_in; eauto. }
  destruct (position_some _ _ Hin) as [i Hi].
  destruct g as [|p g]; [congruence|].
  unfold DataFrame.cell.
  match goal with |- context [DataFrame.position (Str k) ?idx] =>
    change idx with (map (fun p => Str (fst p))
                       (mean_pm_std (xmean_of (p :: g)) (GroupBy.agg x GroupBy.std (p :: g))))
  end.
  rewrite Hi.
  match goal with |- context [DataFrame.column "angle" ?f] =>
    change (DataFrame.column "angle" f)
      with (Some (DataFrame.align
                    (map (fun p => Str (fst p))
                       (mean_pm_std (xmean_of (p :: g)) (GroupBy.agg x GroupBy.std (p :: g))))
                    (Series.apply (fun s => Str (F.format_3f s))
                       (Series.apply (fun a => fmod (rad2deg a) 360%float)
                          (GroupBy.agg angle circmean (p :: g))))))
  end.
  cbv iota beta. rewrite (position_align _ _ _ _ Hi).
  now rewrite !lookup_apply, lookup_agg, Hk.
Qed.

End Layout.

(** ** The median of the counts *)

Lemma counts_insert_forall (P : nat -> Prop) v l :
  P v -> Forall P l -> Forall P (Counts.insert_sorted v l).
Proof.
  intros Hv. induction 1 as [|w l Hw Hl IH]; cbn [Counts.insert_sorted].
  - now constructor.
  - destruct (v <=? w); repeat constructor; assumption.
Qed.

Lemma counts_sort_forall (P : nat -> Prop) l :
  Forall P l -> Forall P (Counts.sort l).
Proof.
  induction 1 as [|v l Hv Hl IH]; [constructor|].
  cbn [Counts.sort fold_right]. now apply counts_insert_forall.
Qed.

Lemma forall_nth (P : nat -> Prop) l i :
  Forall P l -> i < length l -> P (nth i l 0).
Proof.
  intros H. revert i. induction H as [|v l Hv Hl IH]; intros i Hi; [cbn in Hi; lia|].
  destruct i as [|i]; [exact Hv|]. cbn [nth]. apply IH. cbn in Hi. lia.
Qed.

Lemma half_lt n : 0 < n -> n / 2 < n.
Proof. intros H. apply Nat.div_lt; lia. Qed.

(** The truncated median of counts that are all at most [b] lies between
    0 and [b]. *)
Lemma counts_median_bounds (l : list nat) b :
  l <> [] -> Forall (fun c => c <= b) l ->
  exists q, Counts.median l = Some q
            /\ (0 <= Counts.trunc q <= Z.of_nat b)%Z.
Proof.
  intros Hl Hb. unfold Counts.median.
  pose proof (counts_sort_length l) as Hn.
  pose proof (counts_sort_forall _ l Hb) as Hs.
  set (s := Counts.sort l) in *.
  assert (Hpos : 0 < length s) by (rewrite Hn; destruct l; [congruence|cbn; lia]).
  destruct (length s =? 0) eqn:E0; [apply Nat.eqb_eq in E0; lia|].
  pose proof (forall_nth _ s (length s / 2) Hs (half_lt _ Hpos)) as H2.
  assert (H1 : nth (length s / 2 - 1) s 0 <= b).
  { apply (forall_nth _ s _ Hs). pose proof (half_lt _ Hpos). lia. }
  cbv beta in H2.
  destruct (Nat.even (length s)); eexists; (split; [reflexivity|]);
    unfold Counts.trunc; cbn [Qnum Qden].
  - rewrite Z.quot_div_nonneg by lia.
    split; [apply Z.div_pos; lia|].
    apply Z.div_le_upper_bound; lia.
  - rewrite Z.quot_1_r. lia.
Qed.

(** The truncated median of equal counts is that count. *)
Lemma counts_median_constant (l : list nat) c :
  l <> [] -> Forall (fun v => v = c) l ->
  exists q, Counts.median l = Some q /\ Counts.trunc q = Z.of_nat c.
Proof.
  intros Hl Hc. unfold Counts.median.
  pose proof (counts_sort_length l) as Hn.
  pose proof (counts_sort_forall _ l Hc) as Hs.
  set (s := Counts.sort l) in *.
  assert (Hpos : 0 < length s) by (rewrite Hn; destruct l; [congruence|cbn; lia]).
  destruct (length s =? 0) eqn:E0; [apply Nat.eqb_eq in E0; lia|].
  pose proof (forall_nth _ s (length s / 2) Hs (half_lt _ Hpos)) as H2.
  assert (H1 : nth (length s / 2 - 1) s 0 = c).
  { apply (forall_nth _ s _ Hs). pose proof (half_lt _ Hpos). lia. }
  cbv beta in H2.
  destruct (Nat.even (length s)); eexists; (split; [reflexivity|]);
    unfold Counts.trunc; cbn [Qnum Qden]; rewrite ?H1, ?H2.
  - replace (Z.of_nat c + Z.of_nat c)%Z with (Z.of_nat c * 2)%Z by lia.
    apply Z.quot_mul. lia.
  - apply Z.quot_1_r.
Qed.

Lemma count_le_length col : F.count col <= length col.
Proof.
  rewrite count_present. unfold present.
  eapply Nat.le_trans; [apply filter_length_le|]. lia.
Qed.

(** ** A report with a missing value in a column *)

Lemma present_skip {A} (c : A -> float) (t1 t2 : list A) r :
  F.isna (c r) = true ->
  present (map c (t1 ++ r :: t2)) = present (map c (t1 ++ t2)).
Proof.
  intros H. unfold present. rewrite !map_app, !filter_app. cbn [map filter].
  unfold F.notna at 2. now rewrite H.
Qed.

Lemma included_present col : included col = (0 <? length (present col)).
Proof.
  unfold included. rewrite map_map, count_nonzero_filter. reflexivity.
Qed.

(** A missing value changes neither whether a field has a row nor its
    median; in a table of fewer than eight reports it changes nothing of
    the row. *)
Lemma cells_skip (c : report -> float) (t1 t2 : table) r :
  F.isna (c r) = true ->
  included (map c (t1 ++ r :: t2)) = included (map c (t1 ++ t2))
  /\ median_cell (map c (t1 ++ r :: t2)) = median_cell (map c (t1 ++ t2)).
Proof.
  intros H. unfold median_cell.
  rewrite !included_present, !median_present.
  now rewrite (present_skip c t1 t2 r H).
Qed.

Lemma mean_cell_short col :
  length col < 8 ->
  mean_cell col
  = (F.format_3f (Plain.mean (present col)) ++ pm
       ++ F.format_3f (Plain.std (present col)))%string.
Proof. intros H. unfold mean_cell. now rewrite mean_short, std_short. Qed.

Lemma mean_cell_skip (c : report -> float) (t1 t2 : table) r :
  F.isna (c r) = true ->
  length (t1 ++ r :: t2) < 8 ->
  mean_cell (map c (t1 ++ r :: t2)) = mean_cell (map c (t1 ++ t2)).
Proof.
  intros H L.
  assert (L' : length (t1 ++ t2) < 8)
    by (rewrite length_app in *; cbn [length] in L; lia).
  rewrite !mean_cell_short by now rewrite length_map.
  now rewrite (present_skip c t1 t2 r H).
Qed.

Lemma nothing_measured_inv r :
  nothing_measured r = true ->
  xy_missing r = true
  /\ F.isna (lr_dist r) = true /\ F.isna (tb_dist r) = true
  /\ F.isna (llur_dist r) = true /\ F.isna (ullr_dist r) = true.
Proof.
  unfold nothing_measured. cbn [forallb]. intros H.
  repeat match type of H with
         | (_ && _)%bool = true =>
             let H' := fresh "H" in apply andb_prop in H; destruct H as [H' H]
         end.
  auto.
Qed.

Lemma frame_rows_index n rows :
  index (frame_of_rows n rows) = map (fun r => Str (fst (fst r))) rows.
Proof. reflexivity. Qed.

Lemma frame_rows_median n rows :
  DataFrame.column "median" (frame_of_rows n rows)
  = match rows with
    | [] => None
    | _ => Some (map (fun r => Str (snd r)) rows)
    end.
Proof. destruct rows; reflexivity. Qed.

Lemma rows_by_label b1 b2 b3 b4 l1 l2 l3 l4 m1 m2 m3 m4 m1' m2' m3' m4' d1 d2 d3 d4 :
  map (fun r : string * string * string => (fst (fst r), snd r))
    (row_if b1 l1 m1' d1 ++ row_if b2 l2 m2' d2 ++ row_if b3 l3 m3' d3
       ++ row_if b4 l4 m4' d4 ++ [])
  = map (fun r : string * string * string => (fst (fst r), snd r))
      (row_if b1 l1 m1 d1 ++ row_if b2 l2 m2 d2 ++ row_if b3 l3 m3 d3
         ++ row_if b4 l4 m4 d4 ++ []).
Proof. destruct b1, b2, b3, b4; reflexivity. Qed.

(** The label and the median of each row give the index and the column of
    the medians. *)
Lemma frame_rows_by_label n rows rows' :
  map (fun r : string * string * string => (fst (fst r), snd r)) rows'
  = map (fun r : string * string * string => (fst (fst r), snd r)) rows ->
  index (frame_of_rows n rows') = index (frame_of_rows n rows)
  /\ DataFrame.column "median" (frame_of_rows n rows')
     = DataFrame.column "median" (frame_of_rows n rows).
Proof.
  intros E. rewrite !frame_rows_index, !frame_rows_median. split.
  - apply (f_equal (map (fun p : string * string => Str (fst p)))) in E.
    now rewrite !map_map in E.
  - assert (E2 := f_equal (map (fun p : string * string => Str (snd p))) E).
    rewrite !map_map in E2. cbn [snd] in E2.
    destruct rows as [|r rows], rows' as [|r' rows']; try discriminate E;
      [reflexivity|now rewrite E2].
Qed.

(** The separation table with a report in which nothing was measured:
    the same rows and the same medians; the same table when fewer than
    eight reports are in it. *)
Lemma dists_skip (t1 t2 : table) r :
  nothing_measured r = true ->
  index (dists_of (t1 ++ r :: t2)) = index (dists_of (t1 ++ t2))
  /\ DataFrame.column "median" (dists_of (t1 ++ r :: t2))
     = DataFrame.column "median" (dists_of (t1 ++ t2))
  /\ (length (t1 ++ r :: t2) < 8 -> dists_of (t1 ++ r :: t2) = dists_of (t1 ++ t2)).
Proof.
  intros H. apply nothing_measured_inv in H. destruct H as (_ & H1 & H2 & H3 & H4).
  unfold dists_of, separation_fields. cbn [flat_map fst snd].
  destruct (cells_skip lr_dist t1 t2 r H1) as (-> & ->).
  destruct (cells_skip tb_dist t1 t2 r H2) as (-> & ->).
  destruct (cells_skip llur_dist t1 t2 r H3) as (-> & ->).
  destruct (cells_skip ullr_dist t1 t2 r H4) as (-> & ->).
  rewrite <- and_assoc. split.
  - apply frame_rows_by_label, rows_by_label.
  - intros L.
    now rewrite (mean_cell_skip lr_dist t1 t2 r H1 L), (mean_cell_skip tb_dist t1 t2 r H2 L),
      (mean_cell_skip llur_dist t1 t2 r H3 L), (mean_cell_skip ullr_dist t1 t2 r H4 L).
Qed.

Lemma observations_skip arctan2 (t1 t2 : table) r :
  nothing_measured r = true ->
  observations arctan2 (t1 ++ r :: t2) = observations arctan2 (t1 ++ t2).
Proof.
  intros H. apply nothing_measured_inv in H. destruct H as (H & _).
  rewrite !observations_app. f_equal.
  change (r :: t2) with ([r] ++ t2). rewrite observations_app.
  rewrite (observations_none arctan2 [r]); [reflexivity|].
  cbn [forallb]. now rewrite H.
Qed.

(** ** The replacement, piece by piece *)

Lemma replace_app a b :
  Str.replace ":" "-" (a ++ b)%string
  = (Str.replace ":" "-" a ++ Str.replace ":" "-" b)%string.
Proof.
  unfold Str.replace. induction a as [|c a IH]; [reflexivity|].
  cbn [String.append Str.replace_from String.prefix].
  destruct (ascii_dec ":" c) as [<-|N].
  - cbn [String.prefix String.length Nat.sub].
    replace (String.prefix "" (a ++ b)%string) with true by (now destruct (a ++ b)%string).
    replace (String.prefix "" a) with true by (now destruct a).
    cbn. now rewrite IH.
  - cbn. now rewrite IH.
Qed.

Lemma replace_same s :
  Forall (fun c => c <> ":"%char) (list_ascii_of_string s) ->
  Str.replace ":" "-" s = s.
Proof.
  unfold Str.replace. induction s as [|c s IH]; [reflexivity|].
  cbn [list_ascii_of_string]. intros H. inversion H as [|? ? Hc Hs]; subst.
  cbn [Str.replace_from String.prefix].
  destruct (ascii_dec ":" c) as [<-|N]; [congruence|].
  cbn. now rewrite IH.
Qed.

Lemma digits_no_colon d :
  Forall (fun c => c <> ":"%char) (list_ascii_of_string (NilEmpty.string_of_uint d)).
Proof.
  induction d; cbn [NilEmpty.string_of_uint list_ascii_of_string];
    constructor; solve [discriminate | assumption].
Qed.

Lemma uint_no_colon d :
  Forall (fun c => c <> ":"%char) (list_ascii_of_string (NilZero.string_of_uint d)).
Proof.
  unfold NilZero.string_of_uint. destruct d; try apply digits_no_colon.
  repeat constructor. discriminate.
Qed.

Lemma of_Z_no_colon n :
  Forall (fun c => c <> ":"%char) (list_ascii_of_string (Str.of_Z n)).
Proof.
  destruct n as [|p|p]; unfold Str.of_Z.
  - repeat constructor. discriminate.
  - apply uint_no_colon.
  - cbn. constructor; [discriminate|apply uint_no_colon].
Qed.

Lemma heading_no_colon title n :
  Forall (fun c => c <> ":"%char) (list_ascii_of_string title) ->
  Str.replace ":" "-" (heading title n) = heading title n.
Proof.
  intros H. apply replace_same. unfold heading.
  repeat (apply no_colon_app; [|try assumption; try apply of_Z_no_colon]);
    try assumption; try apply of_Z_no_colon;
    repeat constructor; discriminate.
Qed.

(** * Further properties of the script *)

Section Covered.

Variable arctan2 : float -> float -> float.
Variable circmean : list float -> float.
Variable rad2deg : float -> float.
Variable fmod : float -> float -> float.

(** What a call on a table with a row returns, by the columns of the table. *)
Lemma call_returns (w : world) (info : loc) (t : table) :
  nth_error (heap w) info = Some (ODataFrame t) ->
  t <> [] ->
  exists n_f,
    fst (compute_statistics arctan2 circmean rad2deg fmod info w)
    = inr (dists_of t,
           (if length (columns_seen t) =? 0 then None
            else Some (fids_of circmean rad2deg fmod
                         (GroupBy.by_name (observations arctan2 t)))),
           Z.of_nat (length t), n_f)
    /\ (if length (columns_seen t) =? 0 then n_f = 0%Z
        else nrep_fids_of (GroupBy.by_name (observations arctan2 t)) = inr n_f).
Proof.
  intros H Ht. rewrite (call_run arctan2 circmean rad2deg fmod w info t H). cbn [fst].
  destruct (outcome_returns arctan2 circmean rad2deg fmod t Ht) as (n & E & Hn).
  exists n. rewrite E, dists_layout. rewrite (observations_seen arctan2 t) in *.
  destruct (length (columns_seen t) =? 0); cbn [negb] in *; auto.
Qed.

Lemma seen_some_row cx cy (t : table) : existsb (seen cx cy) t = true -> t <> [].
Proof. intros H ->. discriminate H. Qed.

Lemma seen_some_column k cx cy (t : table) :
  In (k, cx, cy) marker_columns -> existsb (seen cx cy) t = true ->
  (length (columns_seen t) =? 0) = false.
Proof.
  intros Hm Hs. assert (H : In (k, cx, cy) (columns_seen t)).
  { apply columns_seen_in. now split. }
  destruct (columns_seen t); [destruct H|reflexivity].
Qed.

(** What a call returns when a marker is seen. *)
Lemma call_returns_marker (w : world) (info : loc) (t : table) k cx cy :
  nth_error (heap w) info = Some (ODataFrame t) ->
  In (k, cx, cy) marker_columns ->
  existsb (seen cx cy) t = true ->
  exists n_f,
    fst (compute_statistics arctan2 circmean rad2deg fmod info w)
    = inr (dists_of t,
           Some (fids_of circmean rad2deg fmod (GroupBy.by_name (observations arctan2 t))),
           Z.of_nat (length t), n_f).
Proof.
  intros H Hm Hs.
  destruct (call_returns w info t H (seen_some_row cx cy t Hs)) as (n & E & _).
  rewrite (seen_some_column k cx cy t Hm Hs) in E. eauto.
Qed.

(** X1.  [pivot_measures] never raises.  On every report it returns eight
    rows, named P1 to P8 in this order; their x and y are those of the
    fields ll, ur, ul, lr, ml, mr, mt and mb of the report, in this order,
    and the angle of a row is [compute_angle] of it: [arctan2] of its y and
    its x, in this order. *)
Theorem pivot_measures_rows (row : report) :
  exists rows,
    pivot_measures arctan2 row = inr rows
    /\ map name rows = ["P1"; "P2"; "P3"; "P4"; "P5"; "P6"; "P7"; "P8"]
    /\ map x rows
       = [llx row; urx row; ulx row; lrx row; mlx row; mrx row; mtx row; mbx row]
    /\ map y rows
       = [lly row; ury row; uly row; lry row; mly row; mry row; mty row; mby row]
    /\ Forall (fun o => angle o = compute_angle arctan2 (Marker (name o) (x o) (y o))
                        /\ angle o = arctan2 (y o) (x o)) rows.
Proof.
  exists (pivot arctan2 row). split; [apply pivot_measures_eq|].
  split; [reflexivity|]. split; [reflexivity|]. split; [reflexivity|].
  unfold pivot. repeat (apply Forall_cons; [split; reflexivity|]). apply Forall_nil.
Qed.

(** X2.  On a table that has the columns the script reads and no row,
    [compute_statistics] raises the [ValueError] of [pd.concat] on an empty
    list.  It is raised after the loop over the separation fields and the
    relabelling have run through on the empty columns: the two separation
    tables they made, both without rows, are all the call leaves in the
    store. *)
Theorem empty_table_value_error (w : world) (info : loc) :
  nth_error (heap w) info = Some (ODataFrame []) ->
  fst (compute_statistics arctan2 circmean rad2deg fmod info w)
  = inl (ValueError "No objects to concatenate")
  /\ heap (snd (compute_statistics arctan2 circmean rad2deg fmod info w))
     = heap w ++ [OFrame DataFrame.empty; OFrame (Frame (Some "markers") [] [])].
Proof.
  intros H. rewrite (call_run arctan2 circmean rad2deg fmod w info [] H).
  cbn [fst snd heap]. split; [apply outcome_empty|reflexivity].
Qed.

(** X3.  [compute_statistics] prints nothing and changes no object that was
    in the store before the call: the store after the call is the store
    before it, followed by the objects the call made. *)
Theorem statistics_leave_store (w : world) (info : loc) (t : table) :
  nth_error (heap w) info = Some (ODataFrame t) ->
  stdout (snd (compute_statistics arctan2 circmean rad2deg fmod info w)) = stdout w
  /\ exists made,
       heap (snd (compute_statistics arctan2 circmean rad2deg fmod info w))
       = heap w ++ made.
Proof.
  intros H. rewrite (call_run arctan2 circmean rad2deg fmod w info t H).
  cbn [snd stdout heap]. split; [reflexivity|]. eexists. reflexivity.
Qed.

(** X5.  The separation table of a table with a row: its index is named
    [markers]; it has one row per separation field with a value, in the
    order [lr_dist], [tb_dist], [llur_dist], [ullr_dist], under the labels
    P5 - P6, P7 - P8, P1 - P2 and P3 - P4; its columns are [mean] and
    [median], in this order, and it has no column when it has no row.  The
    cells hold the formatted statistics of the field, none is missing. *)
Theorem separation_table_layout (w : world) (info : loc) (t : table) :
  nth_error (heap w) info = Some (ODataFrame t) ->
  t <> [] ->
  (exists fids n_f,
     fst (compute_statistics arctan2 circmean rad2deg fmod info w)
     = inr (dists_of t, fids, Z.of_nat (length t), n_f))
  /\ index_name (dists_of t) = Some "markers"
  /\ index (dists_of t)
     = map (fun f => Str (snd (fst f)))
         (filter (fun f => included (map (snd f) t)) separation_fields)
  /\ columns (dists_of t)
     = (if existsb (fun f => included (map (snd f) t)) separation_fields
        then [("mean",
               map (fun f => Str (mean_cell (map (snd f) t)))
                 (filter (fun f => included (map (snd f) t)) separation_fields));
              ("median",
               map (fun f => Str (median_cell (map (snd f) t)))
                 (filter (fun f => included (map (snd f) t)) separation_fields))]
        else []).
Proof.
  intros H Ht. split.
  - destruct (call_returns w info t H Ht) as (n & E & _). eauto.
  - unfold dists_of, separation_fields, frame_of_rows, row_if.
    cbn [flat_map filter existsb fst snd index_name index columns].
    destruct (included (map lr_dist t)), (included (map tb_dist t)),
      (included (map llur_dist t)), (included (map ullr_dist t));
      repeat split; reflexivity.
Qed.

(** X6.  The marker table of a table with a row.  When some report has an x
    or a y of some marker, the table is returned: its index is named
    [name] and holds the markers that have an x or a y in some report, in
    the order P1 to P8, and its columns are [x], [y] and [angle], each with
    one cell per marker.  Otherwise no table is returned and [nrep_fids]
    is 0. *)
Theorem marker_table_rows (w : world) (info : loc) (t : table) :
  nth_error (heap w) info = Some (ODataFrame t) ->
  t <> [] ->
  exists d fids n_d n_f,
    fst (compute_statistics arctan2 circmean rad2deg fmod info w) = inr (d, fids, n_d, n_f)
    /\ match fids with
       | Some f =>
           markers_seen t <> []
           /\ index_name f = Some "name"
           /\ index f = map Str (markers_seen t)
           /\ map fst (columns f) = ["x"; "y"; "angle"]
           /\ Forall (fun c => length (snd c) = length (markers_seen t)) (columns f)
       | None => markers_seen t = [] /\ n_f = 0%Z
       end.
Proof.
  intros H Ht. destruct (call_returns w info t H Ht) as (n & E & Hn).
  do 4 eexists. split; [exact E|].
  unfold markers_seen. destruct (columns_seen t) as [|m ms] eqn:C.
  - cbn [length Nat.eqb] in *. auto.
  - cbn [length Nat.eqb] in *.
    assert (G : GroupBy.by_name (observations arctan2 t) <> []).
    { rewrite by_name_markers, C. discriminate. }
    destruct (fids_layout circmean rad2deg fmod _ G) as (L1 & L2 & L3 & L4).
    assert (K : map fst (GroupBy.by_name (observations arctan2 t))
                = map (fun m => fst (fst m)) (m :: ms)).
    { rewrite by_name_markers, C, map_map. reflexivity. }
    split; [discriminate|]. split; [exact L1|]. split; [now rewrite L2, K|].
    split; [exact L3|].
    rewrite <- K, length_map. exact L4.
Qed.

(** X7.  The angle entry of a marker seen in the table: the circular mean
    of [arctan2 (y, x)] over the reports that have its x or its y, in table
    order, turned to degrees, reduced modulo 360 and written with three
    decimals. *)
Theorem marker_angle_entry (w : world) (info : loc) (t : table) k cx cy :
  nth_error (heap w) info = Some (ODataFrame t) ->
  In (k, cx, cy) marker_columns ->
  existsb (seen cx cy) t = true ->
  exists d f n_d n_f,
    fst (compute_statistics arctan2 circmean rad2deg fmod info w) = inr (d, Some f, n_d, n_f)
    /\ DataFrame.cell (Str k) "angle" f
       = Some (Str (F.format_3f
                      (fmod (rad2deg (circmean (map (fun r => arctan2 (cy r) (cx r))
                                                  (filter (seen cx cy) t))))
                         360%float))).
Proof.
  intros H Hm Hs. destruct (call_returns_marker w info t k cx cy H Hm Hs) as (n & E).
  do 4 eexists. split; [exact E|].
  rewrite (fids_angle_cell circmean rad2deg fmod _ k _ (lookup_group arctan2 k cx cy t Hm Hs)).
  now rewrite rows_angle.
Qed.

(** X8.  The x and y entries of a marker seen in the table, by the columns
    of the table: the grouped mean of the marker's x column less the least
    such mean among the markers seen, and the negated grouped mean of its y
    column less the least negated mean, each followed by the grouped
    standard deviation of the column.  The grouped mean and deviation of a
    column are those of its present values: neither the missing values nor
    the rows dropped from the pivoted table change them. *)
Theorem marker_position_entries (w : world) (info : loc) (t : table) k cx cy :
  nth_error (heap w) info = Some (ODataFrame t) ->
  In (k, cx, cy) marker_columns ->
  existsb (seen cx cy) t = true ->
  (exists d f n_d n_f,
     fst (compute_statistics arctan2 circmean rad2deg fmod info w) = inr (d, Some f, n_d, n_f)
     /\ DataFrame.cell (Str k) "x" f
        = Some (Str (F.format_3f (GroupBy.mean (map cx t) - x_offset t)%float ++ pm
                       ++ F.format_3f (GroupBy.std (map cx t)))%string)
     /\ DataFrame.cell (Str k) "y" f
        = Some (Str (F.format_3f (- GroupBy.mean (map cy t) - y_offset t)%float ++ pm
                       ++ F.format_3f (GroupBy.std (map cy t)))%string))
  /\ GroupBy.mean (map cx t) = GroupBy.mean (present (map cx t))
  /\ GroupBy.std (map cx t) = GroupBy.std (present (map cx t))
  /\ GroupBy.mean (map cy t) = GroupBy.mean (present (map cy t))
  /\ GroupBy.std (map cy t) = GroupBy.std (present (map cy t)).
Proof.
  intros H Hm Hs. split.
  2:{ repeat split; first [apply group_mean_present|apply group_std_present]. }
  destruct (call_returns_marker w info t k cx cy H Hm Hs) as (n & E).
  do 4 eexists. split; [exact E|].
  pose proof (lookup_group arctan2 k cx cy t Hm Hs) as G.
  destruct (fids_cells circmean rad2deg fmod _ k _ G) as (vx & vy & Lx & Ly & Cx & Cy).
  rewrite Cx, Cy.
  unfold xmean_of, recentre in Lx. rewrite lookup_apply, lookup_agg, G in Lx.
  cbn [option_map] in Lx. rewrite x_means, mean_rows_x in Lx. injection Lx as <-.
  unfold ymean_of, flip_recentre in Ly. rewrite !lookup_apply, lookup_agg, G in Ly.
  cbn [option_map] in Ly. rewrite y_means_flipped, mean_rows_y in Ly. injection Ly as <-.
  rewrite std_rows_x, std_rows_y. split; reflexivity.
Qed.

(** X9.  [nrep_fids] is never negative and never more than [nrep_dists],
    the number of rows of the table. *)
Theorem nrep_fids_bounds (w : world) (info : loc) (t : table) :
  nth_error (heap w) info = Some (ODataFrame t) ->
  t <> [] ->
  exists d fids n_d n_f,
    fst (compute_statistics arctan2 circmean rad2deg fmod info w) = inr (d, fids, n_d, n_f)
    /\ n_d = Z.of_nat (length t)
    /\ (0 <= n_f <= n_d)%Z.
Proof.
  intros H Ht. destruct (call_returns w info t H Ht) as (n & E & Hn).
  do 4 eexists. split; [exact E|]. split; [reflexivity|].
  destruct (columns_seen t) as [|m ms] eqn:C; cbn [length Nat.eqb] in Hn.
  - subst n. lia.
  - unfold nrep_fids_of in Hn.
    rewrite values_count_by_name, x_counts_columns, C in Hn.
    destruct (counts_median_bounds
                (map (fun m => F.count (map (snd (fst m)) t)) (m :: ms)) (length t))
      as (q & Q & B).
    + discriminate.
    + apply Forall_forall. intros c Hc. apply in_map_iff in Hc.
      destruct Hc as (m' & <- & _).
      pose proof (count_le_length (map (snd (fst m')) t)) as L.
      now rewrite length_map in L.
    + rewrite Q in Hn. cbn [py_int] in Hn. injection Hn as <-. exact B.
Qed.

(** X10.  When every marker seen in the table has its x in the same number
    [c] of reports, [nrep_fids] is [c]; so it is the number of rows when
    every report has the x of every marker it is seen with. *)
Theorem nrep_fids_equal_counts (w : world) (info : loc) (t : table) (c : nat) :
  nth_error (heap w) info = Some (ODataFrame t) ->
  markers_seen t <> [] ->
  Forall (fun m => F.count (map (snd (fst m)) t) = c) (columns_seen t) ->
  exists d f n_d,
    fst (compute_statistics arctan2 circmean rad2deg fmod info w)
    = inr (d, Some f, n_d, Z.of_nat c).
Proof.
  intros H Hs Hc.
  assert (Ht : t <> []) by (intros ->; now apply Hs).
  destruct (call_returns w info t H Ht) as (n & E & Hn).
  unfold markers_seen in Hs.
  destruct (columns_seen t) as [|m ms] eqn:C; [now destruct Hs|].
  cbn [length Nat.eqb] in *.
  unfold nrep_fids_of in Hn.
  rewrite values_count_by_name, x_counts_columns, C in Hn.
  destruct (counts_median_constant
              (map (fun m => F.count (map (snd (fst m)) t)) (m :: ms)) c)
    as (q & Q & B).
  - discriminate.
  - apply Forall_forall. intros v Hv. apply in_map_iff in Hv.
    destruct Hv as (m' & <- & Hm'). rewrite Forall_forall in Hc. now apply Hc.
  - rewrite Q in Hn. cbn [py_int] in Hn. injection Hn as <-.
    rewrite B in E. eauto.
Qed.

(** X11.  A report in which nothing was measured, put anywhere into a
    table that has a row, counts in [nrep_dists] and changes neither the
    marker table nor [nrep_fids], nor the rows and the medians of the
    separation table; when the table it is put into holds fewer than seven
    reports the separation table is the same altogether.  (In a longer
    table the zero that stands for its missing separation can move the last
    digit of a mean or a deviation.) *)
Theorem unmeasured_report_only_counted
    (w w' : world) (info info' : loc) (t1 t2 : table) (r : report) :
  nth_error (heap w) info = Some (ODataFrame (t1 ++ t2)) ->
  nth_error (heap w') info' = Some (ODataFrame (t1 ++ r :: t2)) ->
  nothing_measured r = true ->
  t1 ++ t2 <> [] ->
  exists d d' fids n_d n_f,
    fst (compute_statistics arctan2 circmean rad2deg fmod info w) = inr (d, fids, n_d, n_f)
    /\ fst (compute_statistics arctan2 circmean rad2deg fmod info' w')
       = inr (d', fids, (n_d + 1)%Z, n_f)
    /\ index d' = index d
    /\ DataFrame.column "median" d' = DataFrame.column "median" d
    /\ (length (t1 ++ t2) < 7 -> d' = d).
Proof.
  intros H H' Hr Ht.
  rewrite (call_run arctan2 circmean rad2deg fmod w info _ H).
  rewrite (call_run arctan2 circmean rad2deg fmod w' info' _ H'). cbn [fst].
  assert (Ht' : t1 ++ r :: t2 <> []) by (destruct t1; discriminate).
  destruct (outcome_returns arctan2 circmean rad2deg fmod _ Ht) as (n & E & Hn).
  destruct (outcome_returns arctan2 circmean rad2deg fmod _ Ht') as (n' & E' & Hn').
  rewrite (observations_skip arctan2 t1 t2 r Hr) in E', Hn'.
  rewrite dists_layout in E, E'.
  assert (N : n' = n).
  { destruct (0 <? length (observations arctan2 (t1 ++ t2))); congruence. }
  subst n'.
  assert (L : Z.of_nat (length (t1 ++ r :: t2)) = (Z.of_nat (length (t1 ++ t2)) + 1)%Z)
    by (rewrite !length_app; cbn [length]; lia).
  rewrite L in E'.
  destruct (dists_skip t1 t2 r Hr) as (I & M & S).
  do 5 eexists. split; [exact E|]. split; [exact E'|].
  split; [exact I|]. split; [exact M|].
  intros Hl. apply S. rewrite length_app in *. cbn [length]. lia.
Qed.

End Covered.


Section Printed.

Variable arctan2 : float -> float -> float.
Variable circmean : list float -> float.
Variable rad2deg : float -> float.
Variable fmod : float -> float -> float.
Variable to_markdown : frame -> string.

(** X4.  When [compute_statistics] raises, [nice_table] raises the same
    exception and has printed nothing: the call comes first, nothing
    catches what it raises, and it prints nothing itself.  So it is on the
    table without rows. *)
Theorem nice_table_propagates (w : world) (info : loc) (t : table) (e : exn) :
  nth_error (heap w) info = Some (ODataFrame t) ->
  fst (compute_statistics arctan2 circmean rad2deg fmod info w) = inl e ->
  fst (nice_table arctan2 circmean rad2deg fmod to_markdown info w) = inl e
  /\ stdout (snd (nice_table arctan2 circmean rad2deg fmod to_markdown info w)) = stdout w.
Proof.
  intros H E. rewrite (call_run arctan2 circmean rad2deg fmod w info t H) in E.
  cbn [fst] in E.
  rewrite (nice_table_run arctan2 circmean rad2deg fmod to_markdown w info t H), E.
  split; reflexivity.
Qed.

Lemma str_app_nil_r (s : string) : (s ++ "")%string = s.
Proof. induction s as [|c s IH]; [reflexivity|]. cbn. now rewrite IH. Qed.

(** The replacement leaves the headings as they are. *)
Lemma replace_rendered d fids n_d n_f :
  Str.replace ":" "-" (rendered to_markdown (d, fids, n_d, n_f))
  = (heading "Separation" n_d ++ Str.replace ":" "-" (to_markdown d)
     ++ match fids with
        | Some f =>
            Py.newline ++ Py.newline
              ++ heading "Location" n_f ++ Str.replace ":" "-" (to_markdown f)
        | None => ""
        end)%string.
Proof.
  unfold rendered. destruct fids as [f|].
  - transitivity
      (Str.replace ":" "-"
         (heading "Separation" n_d
            ++ (to_markdown d
                  ++ (Py.newline
                        ++ (Py.newline ++ (heading "Location" n_f ++ to_markdown f)))))%string).
    + f_equal. unfold heading. rewrite !str_app_assoc. reflexivity.
    + rewrite !replace_app, !heading_no_colon by (repeat constructor; discriminate).
      reflexivity.
  - transitivity
      (Str.replace ":" "-" (heading "Separation" n_d ++ to_markdown d)%string).
    + f_equal. unfold heading. rewrite !str_app_assoc. reflexivity.
    + rewrite replace_app, heading_no_colon by (repeat constructor; discriminate).
      now rewrite str_app_nil_r.
Qed.

(** X12.  What [nice_table] prints for a table with a row: one text and a
    line end, after what was printed before.  The text is the heading of
    the separations with [nrep_dists], then the rendered separation table;
    when the marker table was returned, an empty line, the heading of the
    locations with [nrep_fids] and the rendered marker table follow.  The
    headings are printed as they are; the replacement of the colons only
    touches the rendered tables. *)
Theorem printed_headings (w : world) (info : loc) (t : table) :
  nth_error (heap w) info = Some (ODataFrame t) ->
  t <> [] ->
  exists d fids n_d n_f,
    fst (compute_statistics arctan2 circmean rad2deg fmod info w) = inr (d, fids, n_d, n_f)
    /\ fst (nice_table arctan2 circmean rad2deg fmod to_markdown info w) = inr tt
    /\ stdout (snd (nice_table arctan2 circmean rad2deg fmod to_markdown info w))
       = (stdout w
          ++ heading "Separation" n_d ++ Str.replace ":" "-" (to_markdown d)
          ++ match fids with
             | Some f =>
                 Py.newline ++ Py.newline
                   ++ heading "Location" n_f ++ Str.replace ":" "-" (to_markdown f)
             | None => ""
             end
          ++ Py.newline)%string.
Proof.
  intros H Ht.
  rewrite (nice_table_run arctan2 circmean rad2deg fmod to_markdown w info t H).
  rewrite (call_run arctan2 circmean rad2deg fmod w info t H). cbn [fst].
  destruct (outcome_returns arctan2 circmean rad2deg fmod t Ht) as (n & E & _).
  rewrite E. cbn [fst snd stdout].
  do 4 eexists. split; [reflexivity|]. split; [reflexivity|].
  apply (f_equal (String.append (stdout w))).
  rewrite replace_rendered.
  destruct (0 <? length (observations arctan2 t)); now rewrite !str_app_assoc.
Qed.

(** X13.  [nice_table] changes no object that was in the store before the
    call, and it erases nothing that was printed: the store and the output
    after the call start with the store and the output before it. *)
Theorem nice_table_leaves_store (w : world) (info : loc) (t : table) :
  nth_error (heap w) info = Some (ODataFrame t) ->
  (exists made,
     heap (snd (nice_table arctan2 circmean rad2deg fmod to_markdown info w))
     = heap w ++ made)
  /\ exists text,
       stdout (snd (nice_table arctan2 circmean rad2deg fmod to_markdown info w))
       = (stdout w ++ text)%string.
Proof.
  intros H. rewrite (nice_table_run arctan2 circmean rad2deg fmod to_markdown w info t H).
  destruct (outcome arctan2 circmean rad2deg fmod t) as [e|r]; cbn [snd heap stdout].
  - split; [eexists; reflexivity|]. exists "". now rewrite str_app_nil_r.
  - split; eexists; reflexivity.
Qed.

(** X14.  Two calls of [nice_table] on a table with a row print the same
    text twice, the second after the first: the objects the first call
    left in the store change nothing for the second. *)
Theorem nice_table_twice (w : world) (info : loc) (t : table) :
  nth_error (heap w) info = Some (ODataFrame t) ->
  t <> [] ->
  exists text,
    stdout (snd (nice_table arctan2 circmean rad2deg fmod to_markdown info w))
    = (stdout w ++ text)%string
    /\ fst (nice_table arctan2 circmean rad2deg fmod to_markdown info
              (snd (nice_table arctan2 circmean rad2deg fmod to_markdown info w)))
       = inr tt
    /\ stdout (snd (nice_table arctan2 circmean rad2deg fmod to_markdown info
                      (snd (nice_table arctan2 circmean rad2deg fmod to_markdown info w))))
       = (stdout w ++ text ++ text)%string.
Proof.
  intros H Ht.
  rewrite (nice_table_run arctan2 circmean rad2deg fmod to_markdown w info t H).
  destruct (outcome_returns arctan2 circmean rad2deg fmod t Ht) as (n & E & _).
  rewrite E. cbn [snd stdout].
  match goal with |- context [World ?h ?o] => set (w1 := World h o) end.
  assert (H1 : nth_error (heap w1) info = Some (ODataFrame t)).
  { unfold w1. cbn [heap]. now apply old_objects_stay. }
  rewrite (nice_table_run arctan2 circmean rad2deg fmod to_markdown w1 info t H1).
  rewrite E. unfold w1. cbn [fst snd stdout].
  eexists. split; [reflexivity|]. split; [reflexivity|].
  now rewrite !str_app_assoc.
Qed.

End Printed.

(** ** The further properties on the sample tables *)

Lemma empty_table_value_error_witness :
  fst (Sample.call 0 (world_of [])) = inl (ValueError "No objects to concatenate")
  /\ heap (snd (Sample.call 0 (world_of [])))
     = [ODataFrame []; OFrame DataFrame.empty; OFrame (Frame (Some "markers") [] [])].
Proof.
  apply (empty_table_value_error Sample.arctan2 Sample.circmean Sample.rad2deg
           Sample.fmod (world_of []) 0).
  reflexivity.
Defined.

Lemma statistics_leave_store_witness :
  stdout (snd (Sample.call 0 (world_of example_table))) = ""
  /\ exists made,
       heap (snd (Sample.call 0 (world_of example_table)))
       = [ODataFrame example_table] ++ made.
Proof.
  apply (statistics_leave_store Sample.arctan2 Sample.circmean Sample.rad2deg Sample.fmod
           (world_of example_table) 0 example_table).
  reflexivity.
Defined.

Lemma nice_table_propagates_witness :
  fst (Sample.print_tables 0 (world_of [])) = inl (ValueError "No objects to concatenate")
  /\ stdout (snd (Sample.print_tables 0 (world_of []))) = "".
Proof.
  apply (nice_table_propagates Sample.arctan2 Sample.circmean Sample.rad2deg
           Sample.fmod Sample.to_markdown (world_of []) 0 []
           (ValueError "No objects to concatenate") eq_refl).
  vm_compute. reflexivity.
Defined.

Lemma separation_table_layout_witness :
  (exists fids n_f,
     fst (Sample.call 0 (world_of example_table))
     = inr (dists_of example_table, fids, 2%Z, n_f))
  /\ index_name (dists_of example_table) = Some "markers"
  /\ index (dists_of example_table) = [Str "P5 - P6"]
  /\ columns (dists_of example_table)
     = [("mean", [Str "3.000 ± 1.414"]); ("median", [Str "3.000"])].
Proof.
  destruct (separation_table_layout Sample.arctan2 Sample.circmean Sample.rad2deg
              Sample.fmod (world_of example_table) 0 example_table eq_refl
              ltac:(discriminate)) as (R & N & I & C).
  split; [exact R|]. split; [exact N|].
  split; [rewrite I|rewrite C]; vm_compute; reflexivity.
Defined.

Lemma marker_table_rows_witness :
  exists d f n_d n_f,
    fst (Sample.call 0 (world_of example_table)) = inr (d, Some f, n_d, n_f)
    /\ index_name f = Some "name"
    /\ index f = [Str "P1"; Str "P2"]
    /\ map fst (columns f) = ["x"; "y"; "angle"]
    /\ Forall (fun c => length (snd c) = 2) (columns f).
Proof.
  destruct (marker_table_rows Sample.arctan2 Sample.circmean Sample.rad2deg Sample.fmod
              (world_of example_table) 0 example_table eq_refl ltac:(discriminate))
    as (d & fids & n_d & n_f & E & F).
  destruct fids as [f|].
  - exists d, f, n_d, n_f. destruct F as (_ & N & I & C & L). auto.
  - destruct F as [F _]. vm_compute in F. discriminate F.
Defined.

Lemma marker_angle_entry_witness :
  exists d f n_d n_f,
    fst (Sample.call 0 (world_of example_table)) = inr (d, Some f, n_d, n_f)
    /\ DataFrame.cell (Str "P2") "angle" f = Some (Str "57.296").
Proof.
  apply (marker_angle_entry Sample.arctan2 Sample.circmean Sample.rad2deg Sample.fmod
           (world_of example_table) 0 example_table "P2" urx ury eq_refl).
  - right. left. reflexivity.
  - vm_compute. reflexivity.
Defined.

Lemma marker_position_entries_witness :
  exists d f n_d n_f,
    fst (Sample.call 0 (world_of example_table)) = inr (d, Some f, n_d, n_f)
    /\ DataFrame.cell (Str "P1") "x" f = Some (Str "0.000 ± nan")
    /\ DataFrame.cell (Str "P1") "y" f = Some (Str "1.000 ± nan").
Proof.
  destruct (marker_position_entries Sample.arctan2 Sample.circmean Sample.rad2deg
              Sample.fmod (world_of example_table) 0 example_table "P1" llx lly eq_refl)
    as [R _].
  - left. reflexivity.
  - vm_compute. reflexivity.
  - exact R.
Defined.

Lemma nrep_fids_bounds_witness :
  exists d fids n_d n_f,
    fst (Sample.call 0 (world_of uneven_table)) = inr (d, fids, n_d, n_f)
    /\ n_d = 2%Z
    /\ (0 <= n_f <= n_d)%Z.
Proof.
  apply (nrep_fids_bounds Sample.arctan2 Sample.circmean Sample.rad2deg Sample.fmod
           (world_of uneven_table) 0 uneven_table eq_refl).
  discriminate.
Defined.

Lemma nrep_fids_equal_counts_witness :
  exists d f n_d,
    fst (Sample.call 0 (world_of example_table)) = inr (d, Some f, n_d, 1%Z).
Proof.
  apply (nrep_fids_equal_counts Sample.arctan2 Sample.circmean Sample.rad2deg Sample.fmod
           (world_of example_table) 0 example_table 1 eq_refl).
  - intros E. vm_compute in E. discriminate E.
  - vm_compute. repeat constructor.
Defined.

Lemma unmeasured_report_only_counted_witness :
  exists d d' fids n_d n_f,
    fst (Sample.call 0 (world_of uneven_table)) = inr (d, fids, n_d, n_f)
    /\ fst (Sample.call 0 (world_of (uneven_table ++ [blank])))
       = inr (d', fids, (n_d + 1)%Z, n_f)
    /\ index d' = index d
    /\ DataFrame.column "median" d' = DataFrame.column "median" d
    /\ d' = d.
Proof.
  destruct (unmeasured_report_only_counted Sample.arctan2 Sample.circmean Sample.rad2deg
              Sample.fmod (world_of uneven_table) (world_of (uneven_table ++ [blank])) 0 0
              uneven_table [] blank eq_refl eq_refl)
    as (d & d' & fids & n_d & n_f & E & E' & I & M & S).
  - vm_compute. reflexivity.
  - discriminate.
  - exists d, d', fids, n_d, n_f. repeat (split; [assumption|]).
    apply S. cbn. lia.
Defined.

Lemma printed_headings_witness :
  exists d fids n_d n_f,
    fst (Sample.call 0 (world_of example_table)) = inr (d, fids, n_d, n_f)
    /\ fst (Sample.print_tables 0 (world_of example_table)) = inr tt
    /\ stdout (snd (Sample.print_tables 0 (world_of example_table)))
       = ("" ++ heading "Separation" n_d
             ++ Str.replace ":" "-" (Sample.to_markdown d)
             ++ match fids with
                | Some f =>
                    Py.newline ++ Py.newline
                      ++ heading "Location" n_f
                      ++ Str.replace ":" "-" (Sample.to_markdown f)
                | None => ""
                end
             ++ Py.newline)%string.
Proof.
  apply (printed_headings Sample.arctan2 Sample.circmean Sample.rad2deg Sample.fmod
           Sample.to_markdown (world_of example_table) 0 example_table eq_refl).
  discriminate.
Defined.

Lemma nice_table_leaves_store_witness :
  (exists made,
     heap (snd (Sample.print_tables 0 (world_of example_table)))
     = [ODataFrame example_table] ++ made)
  /\ exists text,
       stdout (snd (Sample.print_tables 0 (world_of example_table))) = ("" ++ text)%string.
Proof.
  apply (nice_table_leaves_store Sample.arctan2 Sample.circmean Sample.rad2deg Sample.fmod
           Sample.to_markdown (world_of example_table) 0 example_table).
  reflexivity.
Defined.

Lemma nice_table_twice_witness :
  exists text,
    stdout (snd (Sample.print_tables 0 (world_of example_table))) = ("" ++ text)%string
    /\ fst (Sample.print_tables 0 (snd (Sample.print_tables 0 (world_of example_table))))
       = inr tt
    /\ stdout (snd (Sample.print_tables 0
                      (snd (Sample.print_tables 0 (world_of example_table)))))
       = ("" ++ text ++ text)%string.
Proof.
  apply (nice_table_twice Sample.arctan2 Sample.circmean Sample.rad2deg Sample.fmod
           Sample.to_markdown (world_of example_table) 0 example_table eq_refl).
  discriminate.
Defined.
